(** * Adafruit QT Py S3 sketches: wristband motor sequencer and LED control

    A shallow embedding of the Arduino sketches of this repository and the
    verification of their specification.

    - [Arduino]: the board as the sketches see it (GPIO latches, the single
      NeoPixel, the serial console, the Wi-Fi station, the socket server),
      with every library call recorded in an effect trace.
    - [Wristband]: wristbandAtomic/wristbandAtomic.ino.
    - [LedComm]: the LED-control sketch (Arduino_LED_Communication.ino).
    - [Observe]: what is observed of a run (energized actuators, the
      phases in which the sketch blocks, counts of effects).
    - [MotionTable]: the tabular sequencer the specification describes,
      used as the abstract side of the refinement statements.
    - [Instances]: concrete boards and environments.
    - [Runs]: the effects of the parts of a sketch in closed form.
    - [Neopixel], [DebugLogSketch]: neopixel.ino and debuglog.ino.
    - [Session]: [setup] followed by turns of [loop], and what is observed
      of such a run.
    - [WristbandProps], [LedCommProps]: the properties of the command
      handling and of the network join, and their proofs.
    - [SessionProps], [LedSessionProps], [CycleProps]: the properties of
      the sketches from reset on. *)

From Stdlib Require Import ZArith List String Ascii Bool Lia.
Import ListNotations.

Local Open Scope Z_scope.

(* ===================================================================== *)
(** * The board *)
(* ===================================================================== *)

Module Arduino.

(** Logic level of a digital output. *)
Inductive level : Type := LOW | HIGH.

(** The pins the sketches name.  [MOTOR1_PIN] .. [MOTOR4_PIN] are the
    analog-capable pads A0 .. A3; their numbers come from the board variant
    header, so they are kept symbolic (and pairwise distinct). *)
Inductive pin : Type :=
  | NEOPIXEL_POWER
  | MOTOR1_PIN
  | MOTOR2_PIN
  | MOTOR3_PIN
  | MOTOR4_PIN.

Inductive pin_mode : Type := INPUT | OUTPUT.

(** [wl_status_t] of the Wi-Fi library; the sketches only ever compare the
    status with [WL_CONNECTED]. *)
Inductive wl_status_t : Type :=
  | WL_NO_SHIELD
  | WL_IDLE_STATUS
  | WL_NO_SSID_AVAIL
  | WL_SCAN_COMPLETED
  | WL_CONNECTED
  | WL_CONNECT_FAILED
  | WL_CONNECTION_LOST
  | WL_DISCONNECTED.

Definition level_eqb (a b : level) : bool :=
  match a, b with
  | LOW, LOW | HIGH, HIGH => true
  | _, _ => false
  end.

Definition pin_eqb (p q : pin) : bool :=
  match p, q with
  | NEOPIXEL_POWER, NEOPIXEL_POWER
  | MOTOR1_PIN, MOTOR1_PIN
  | MOTOR2_PIN, MOTOR2_PIN
  | MOTOR3_PIN, MOTOR3_PIN
  | MOTOR4_PIN, MOTOR4_PIN => true
  | _, _ => false
  end.

Definition is_connected (st : wl_status_t) : bool :=
  match st with
  | WL_CONNECTED => true
  | _ => false
  end.

(** ** NeoPixel colours

    [Adafruit_NeoPixel::Color(r, g, b)] packs three [uint8_t] components
    into one [uint32_t], red in bits 16..23, green in 8..15, blue in 0..7. *)
Definition Color (r g b : Z) : Z :=
  Z.lor (Z.shiftl (Z.land r 255) 16)
        (Z.lor (Z.shiftl (Z.land g 255) 8) (Z.land b 255)).

Definition red_of (c : Z) : Z := Z.land (Z.shiftr c 16) 255.
Definition green_of (c : Z) : Z := Z.land (Z.shiftr c 8) 255.
Definition blue_of (c : Z) : Z := Z.land c 255.

(** ** What the outside world answers

    One poll of an accepted client inside the sketch's read loop:
    the peer has gone away ([connected()] is false), the peer is still
    there but nothing has arrived, or a byte is ready to be read. *)
Inductive client_poll : Type :=
  | Gone
  | Pending
  | Byte (c : ascii).

(** An accepted client, seen through its successive polls. *)
Definition client : Type := nat -> client_poll.

(** Answers of the environment, indexed by the number of earlier calls:
    - [wifi_feed n]   what the (n+1)-th [WiFi.status()] returns;
    - [serial_feed n] whether the (n+1)-th test of [Serial] finds the
                      console up;
    - [server_feed n] what the (n+1)-th [server.available()] returns;
    - [local_ip]      the text of [WiFi.localIP().toString()]. *)
Record world : Type := mkWorld {
  wifi_feed : nat -> wl_status_t;
  serial_feed : nat -> bool;
  server_feed : nat -> option client;
  local_ip : string
}.

(** ** Effects: every library call a sketch makes, in program order. *)
Inductive effect : Type :=
  | E_pinMode (p : pin) (m : pin_mode)
  | E_digitalWrite (p : pin) (v : level)
  | E_pixel_begin
  | E_setBrightness (b : Z)
  | E_setPixelColor (n : Z) (c : Z)
  | E_show
  | E_delay (ms : Z)
  | E_Serial_begin (baud : Z)
  | E_Serial_test (up : bool)
  | E_println (msg : string)
  | E_WiFi_begin (ssid password : string)
  | E_WiFi_status (st : wl_status_t)
  | E_server_begin
  | E_server_available (got : bool)
  | E_client_flush
  | E_client_stop.

(** ** Board state *)
Record board : Type := mkBoard {
  gpio : pin -> level;          (* output latches *)
  pixel_buffer : Z;             (* colour staged by setPixelColor(0, _) *)
  pixel_shown : Z;              (* colour last latched out by show() *)
  pixel_brightness : Z;
  serial_out : list string;     (* console lines, newest first *)
  env : world;
  wifi_polls : nat;
  serial_polls : nat;
  accepts : nat;
  trace : list effect           (* effects so far, newest first *)
}.

Definition write_pin (g : pin -> level) (p : pin) (v : level) : pin -> level :=
  fun q => if pin_eqb q p then v else g q.

(** What one library call does to the board.  The strip has one pixel:
    [setPixelColor] stores index 0 and ignores any other index; [show]
    latches the staged colour out.  Colours are kept as they are passed to
    [setPixelColor]; the scaling by [setBrightness] that the library
    applies to the bytes it stores is left out. *)
Definition act (e : effect) (s : board) : board :=
  match e with
  | E_digitalWrite p v =>
      mkBoard (write_pin (gpio s) p v) (pixel_buffer s) (pixel_shown s)
              (pixel_brightness s) (serial_out s) (env s) (wifi_polls s)
              (serial_polls s) (accepts s) (trace s)
  | E_setBrightness b =>
      mkBoard (gpio s) (pixel_buffer s) (pixel_shown s) b (serial_out s)
              (env s) (wifi_polls s) (serial_polls s) (accepts s) (trace s)
  | E_setPixelColor n c =>
      mkBoard (gpio s) (if n =? 0 then c else pixel_buffer s) (pixel_shown s)
              (pixel_brightness s) (serial_out s) (env s) (wifi_polls s)
              (serial_polls s) (accepts s) (trace s)
  | E_show =>
      mkBoard (gpio s) (pixel_buffer s) (pixel_buffer s) (pixel_brightness s)
              (serial_out s) (env s) (wifi_polls s) (serial_polls s)
              (accepts s) (trace s)
  | E_println msg =>
      mkBoard (gpio s) (pixel_buffer s) (pixel_shown s) (pixel_brightness s)
              (msg :: serial_out s) (env s) (wifi_polls s) (serial_polls s)
              (accepts s) (trace s)
  | E_WiFi_status _ =>
      mkBoard (gpio s) (pixel_buffer s) (pixel_shown s) (pixel_brightness s)
              (serial_out s) (env s) (S (wifi_polls s)) (serial_polls s)
              (accepts s) (trace s)
  | E_Serial_test _ =>
      mkBoard (gpio s) (pixel_buffer s) (pixel_shown s) (pixel_brightness s)
              (serial_out s) (env s) (wifi_polls s) (S (serial_polls s))
              (accepts s) (trace s)
  | E_server_available _ =>
      mkBoard (gpio s) (pixel_buffer s) (pixel_shown s) (pixel_brightness s)
              (serial_out s) (env s) (wifi_polls s) (serial_polls s)
              (S (accepts s)) (trace s)
  | E_pinMode _ _ | E_pixel_begin | E_delay _ | E_Serial_begin _
  | E_WiFi_begin _ _ | E_server_begin | E_client_flush | E_client_stop => s
  end.

(** Performing a call: its effect on the board, and its record in the
    trace. *)
Definition emit (e : effect) (s : board) : board :=
  let s' := act e s in
  mkBoard (gpio s') (pixel_buffer s') (pixel_shown s') (pixel_brightness s')
          (serial_out s') (env s') (wifi_polls s') (serial_polls s')
          (accepts s') (e :: trace s').

(** A [void] library call or sketch function without loops. *)
Definition proc : Type := board -> board.

Definition seq (f g : proc) : proc := fun s => g (f s).

Declare Scope proc_scope.
Delimit Scope proc_scope with proc.
Bind Scope proc_scope with proc.
Notation "f ;; g" := (seq f g)
  (at level 61, right associativity) : proc_scope.

Definition skip : proc := fun s => s.

Definition pinMode (p : pin) (m : pin_mode) : proc := emit (E_pinMode p m).
Definition digitalWrite (p : pin) (v : level) : proc :=
  emit (E_digitalWrite p v).
Definition delay (ms : Z) : proc := emit (E_delay ms).
Definition pixel_begin : proc := emit E_pixel_begin.
Definition pixel_setBrightness (b : Z) : proc := emit (E_setBrightness b).
Definition pixel_setPixelColor (n : Z) (c : Z) : proc :=
  emit (E_setPixelColor n c).
Definition pixel_show : proc := emit E_show.
Definition Serial_begin (baud : Z) : proc := emit (E_Serial_begin baud).
Definition Serial_println (msg : string) : proc := emit (E_println msg).
Definition WiFi_begin (ssid password : string) : proc :=
  emit (E_WiFi_begin ssid password).
Definition server_begin : proc := emit E_server_begin.
Definition client_flush : proc := emit E_client_flush.
Definition client_stop : proc := emit E_client_stop.

(** ** Code with loops or with calls that return a value

    [None] means that the fuel given to a loop ran out before the loop
    was left. *)
Definition M (A : Type) : Type := board -> option (A * board).

Definition ret {A} (a : A) : M A := fun s => Some (a, s).

Definition bind {A B} (m : M A) (k : A -> M B) : M B := fun s =>
  match m s with
  | Some (a, s') => k a s'
  | None => None
  end.

Definition out_of_fuel {A} : M A := fun _ => None.

Definition call (f : proc) : M unit := fun s => Some (tt, f s).

Declare Scope sketch_scope.
Delimit Scope sketch_scope with sketch.
Notation "x <- m ;; k" := (bind m (fun x => k))
  (at level 61, m at next level, right associativity) : sketch_scope.
Notation "m ;; k" := (bind m (fun _ => k))
  (at level 61, right associativity) : sketch_scope.

Definition exec {A} (m : M A) (s : board) : option board :=
  match m s with
  | Some (_, s') => Some s'
  | None => None
  end.

(** [WiFi.status()]: the next answer of the environment. *)
Definition WiFi_status : M wl_status_t := fun s =>
  let st := wifi_feed (env s) (wifi_polls s) in
  Some (st, emit (E_WiFi_status st) s).

(** The value of [Serial] in a test such as [!Serial]. *)
Definition Serial_ready : M bool := fun s =>
  let up := serial_feed (env s) (serial_polls s) in
  Some (up, emit (E_Serial_test up) s).

(** [server.available()]. *)
Definition server_available : M (option client) := fun s =>
  let c := server_feed (env s) (accepts s) in
  Some (c, emit (E_server_available
                   (match c with Some _ => true | None => false end)) s).

(** [WiFi.localIP().toString().c_str()]. *)
Definition WiFi_localIP : M string := fun s => Some (local_ip (env s), s).

End Arduino.

(* ===================================================================== *)
(** * wristbandAtomic/wristbandAtomic.ino *)
(* ===================================================================== *)

Module Wristband.
Import Arduino.

Local Open Scope string_scope.

Definition ssid : string := "Xiaomi_7842".
Definition password : string := "12345678".

(** Timing constants (in milliseconds). *)
Definition DURATION_ON : Z := 200.
Definition DURATION_OFF : Z := 80.

Section Sketch.

(** The global [debug_mode]; the sketch initialises it to [false] and never
    assigns it, the definitions below are given for either value. *)
Variable debug_mode : bool.

Definition DebugLog (message : string) : proc :=
  if debug_mode then Serial_println message else skip.

(** Turns off all motor outputs. *)
Definition stopAllMotors : proc :=
  (digitalWrite MOTOR1_PIN LOW ;;
   digitalWrite MOTOR2_PIN LOW ;;
   digitalWrite MOTOR3_PIN LOW ;;
   digitalWrite MOTOR4_PIN LOW ;;
   pixel_setPixelColor 0 (Color 255 255 255) ;;
   pixel_show ;;
   DebugLog "All motors stopped.")%proc.

Definition upPulse : proc :=
  (DebugLog "Starting Up Pulse (Motor 1)..." ;;
   digitalWrite MOTOR1_PIN HIGH ;;
   digitalWrite MOTOR2_PIN LOW ;;
   digitalWrite MOTOR3_PIN LOW ;;
   digitalWrite MOTOR4_PIN LOW ;;
   pixel_setPixelColor 0 (Color 255 0 0) ;;
   pixel_show ;;
   delay DURATION_ON ;;
   stopAllMotors ;;
   delay DURATION_OFF)%proc.

Definition rightPulse : proc :=
  (DebugLog "Starting Right Pulse (Motor 2)..." ;;
   digitalWrite MOTOR1_PIN LOW ;;
   digitalWrite MOTOR2_PIN HIGH ;;
   digitalWrite MOTOR3_PIN LOW ;;
   digitalWrite MOTOR4_PIN LOW ;;
   pixel_setPixelColor 0 (Color 0 255 0) ;;
   pixel_show ;;
   delay DURATION_ON ;;
   stopAllMotors ;;
   delay DURATION_OFF)%proc.

Definition leftPulse : proc :=
  (DebugLog "Starting Left Pulse (Motor 3)..." ;;
   digitalWrite MOTOR1_PIN LOW ;;
   digitalWrite MOTOR2_PIN LOW ;;
   digitalWrite MOTOR3_PIN HIGH ;;
   digitalWrite MOTOR4_PIN LOW ;;
   pixel_setPixelColor 0 (Color 0 0 255) ;;
   pixel_show ;;
   delay DURATION_ON ;;
   stopAllMotors ;;
   delay DURATION_OFF)%proc.

Definition downPulse : proc :=
  (DebugLog "Starting Down Pulse (Motor 4)..." ;;
   digitalWrite MOTOR1_PIN LOW ;;
   digitalWrite MOTOR2_PIN LOW ;;
   digitalWrite MOTOR3_PIN LOW ;;
   digitalWrite MOTOR4_PIN HIGH ;;
   pixel_setPixelColor 0 (Color 255 255 0) ;;
   pixel_show ;;
   delay DURATION_ON ;;
   stopAllMotors ;;
   delay DURATION_OFF)%proc.

Definition clockwisePulse : proc :=
  (DebugLog "Starting Clockwise Sequence..." ;;
   (* Motor 1 *)
   digitalWrite MOTOR1_PIN HIGH ;;
   digitalWrite MOTOR2_PIN LOW ;;
   digitalWrite MOTOR3_PIN LOW ;;
   digitalWrite MOTOR4_PIN LOW ;;
   pixel_setPixelColor 0 (Color 255 0 0) ;;
   pixel_show ;;
   delay DURATION_ON ;;
   stopAllMotors ;;
   delay DURATION_OFF ;;
   (* Motor 2 *)
   digitalWrite MOTOR1_PIN LOW ;;
   digitalWrite MOTOR2_PIN HIGH ;;
   digitalWrite MOTOR3_PIN LOW ;;
   digitalWrite MOTOR4_PIN LOW ;;
   pixel_setPixelColor 0 (Color 0 255 0) ;;
   pixel_show ;;
   delay DURATION_ON ;;
   stopAllMotors ;;
   delay DURATION_OFF ;;
   (* Motor 4 *)
   digitalWrite MOTOR1_PIN LOW ;;
   digitalWrite MOTOR2_PIN LOW ;;
   digitalWrite MOTOR3_PIN LOW ;;
   digitalWrite MOTOR4_PIN HIGH ;;
   pixel_setPixelColor 0 (Color 255 255 0) ;;
   pixel_show ;;
   delay DURATION_ON ;;
   stopAllMotors ;;
   delay DURATION_OFF ;;
   (* Motor 3 *)
   digitalWrite MOTOR1_PIN LOW ;;
   digitalWrite MOTOR2_PIN LOW ;;
   digitalWrite MOTOR3_PIN HIGH ;;
   digitalWrite MOTOR4_PIN LOW ;;
   pixel_setPixelColor 0 (Color 0 0 255) ;;
   pixel_show ;;
   delay DURATION_ON ;;
   stopAllMotors ;;
   delay DURATION_OFF)%proc.

Definition counterClockwisePulse : proc :=
  (DebugLog "Starting Counterclockwise Sequence..." ;;
   (* Motor 1 *)
   digitalWrite MOTOR1_PIN HIGH ;;
   digitalWrite MOTOR2_PIN LOW ;;
   digitalWrite MOTOR3_PIN LOW ;;
   digitalWrite MOTOR4_PIN LOW ;;
   pixel_setPixelColor 0 (Color 255 0 0) ;;
   pixel_show ;;
   delay DURATION_ON ;;
   stopAllMotors ;;
   delay DURATION_OFF ;;
   (* Motor 3 *)
   digitalWrite MOTOR1_PIN LOW ;;
   digitalWrite MOTOR2_PIN LOW ;;
   digitalWrite MOTOR3_PIN HIGH ;;
   digitalWrite MOTOR4_PIN LOW ;;
   pixel_setPixelColor 0 (Color 0 0 255) ;;
   pixel_show ;;
   delay DURATION_ON ;;
   stopAllMotors ;;
   delay DURATION_OFF ;;
   (* Motor 4 *)
   digitalWrite MOTOR1_PIN LOW ;;
   digitalWrite MOTOR2_PIN LOW ;;
   digitalWrite MOTOR3_PIN LOW ;;
   digitalWrite MOTOR4_PIN HIGH ;;
   pixel_setPixelColor 0 (Color 255 255 0) ;;
   pixel_show ;;
   delay DURATION_ON ;;
   stopAllMotors ;;
   delay DURATION_OFF ;;
   (* Motor 2 *)
   digitalWrite MOTOR1_PIN LOW ;;
   digitalWrite MOTOR2_PIN HIGH ;;
   digitalWrite MOTOR3_PIN LOW ;;
   digitalWrite MOTOR4_PIN LOW ;;
   pixel_setPixelColor 0 (Color 0 255 0) ;;
   pixel_show ;;
   delay DURATION_ON ;;
   stopAllMotors ;;
   delay DURATION_OFF)%proc.

Definition allMotorsPulse : proc :=
  (DebugLog "Starting All Motors Pulse (all motors)..." ;;
   digitalWrite MOTOR1_PIN HIGH ;;
   digitalWrite MOTOR2_PIN HIGH ;;
   digitalWrite MOTOR3_PIN HIGH ;;
   digitalWrite MOTOR4_PIN HIGH ;;
   pixel_setPixelColor 0 (Color 0 255 255) ;;
   pixel_show ;;
   delay DURATION_ON ;;
   stopAllMotors ;;
   delay DURATION_OFF)%proc.

(** The [switch (c)] of [loop]: maps the received command to its motion
    function. *)
Definition switch_command (c : ascii) : proc :=
  match c with
  | "1"%char => upPulse
  | "2"%char => rightPulse
  | "3"%char => leftPulse
  | "4"%char => downPulse
  | "5"%char => clockwisePulse
  | "6"%char => counterClockwisePulse
  | "7"%char => allMotorsPulse
  | _ =>
      (DebugLog "Invalid command received. Stopping all motors." ;;
       stopAllMotors)%proc
  end.

Definition max_attempts : Z := 20.

(** [while (!Serial) delay(10);] of [setup]. *)
Fixpoint wait_Serial (fuel : nat) : M unit :=
  match fuel with
  | O => out_of_fuel
  | S fuel' =>
      (up <- Serial_ready ;;
       if up : bool then ret tt
       else (call (delay 10) ;; wait_Serial fuel'))%sketch
  end.

(** The waiting loop after [WiFi.begin], written twice in the sketch (in
    [setup] and in [loop]) with a different log line:
    [while (WiFi.status() != WL_CONNECTED && attempt_count < max_attempts)].
    The result is the final [attempt_count]. *)
Fixpoint wait_connected (fuel : nat) (message : string) (attempt_count : Z)
  : M Z :=
  match fuel with
  | O => out_of_fuel
  | S fuel' =>
      (st <- WiFi_status ;;
       if (negb (is_connected st) && (attempt_count <? max_attempts)%Z)%bool
       then
         (call (pixel_setPixelColor 0 (Color 255 255 0)) ;;
          call pixel_show ;;
          call (DebugLog message) ;;
          call (delay 500) ;;
          wait_connected fuel' message (attempt_count + 1)%Z)
       else ret attempt_count)%sketch
  end.

(** The last part of [setup], from the comment [// Connect to Wi-Fi] on:
    join the network, wait for the connection, show the outcome. *)
Definition connect_WiFi (fuel : nat) : M unit :=
  (call (DebugLog "Connecting to Wi-Fi...") ;;
   call (WiFi_begin ssid password) ;;
   _ <- wait_connected fuel "Attempting to connect..." 0 ;;
   st <- WiFi_status ;;
   (if is_connected st
    then
      (call (DebugLog "Connected to Wi-Fi!") ;;
       ip <- WiFi_localIP ;;
       call (DebugLog ip) ;;
       call (pixel_setPixelColor 0 (Color 0 255 0)) ;;
       call server_begin ;;
       call (DebugLog "Server started."))
    else
      (call (DebugLog "Failed to connect to Wi-Fi.") ;;
       call (pixel_setPixelColor 0 (Color 255 0 0)))) ;;
   call pixel_show ;;
   call (delay 1000))%sketch.

Definition setup (fuel : nat) : M unit :=
  ((if debug_mode
    then (call (Serial_begin 115200) ;; wait_Serial fuel)
    else ret tt) ;;
   call (DebugLog "Hello, world from QT Py S3!") ;;
   call (pinMode NEOPIXEL_POWER OUTPUT) ;;
   call (digitalWrite NEOPIXEL_POWER HIGH) ;;
   call pixel_begin ;;
   call (pixel_setBrightness 50) ;;
   call (DebugLog "Initiating Motors") ;;
   call (pinMode MOTOR1_PIN OUTPUT) ;;
   call (pinMode MOTOR2_PIN OUTPUT) ;;
   call (pinMode MOTOR3_PIN OUTPUT) ;;
   call (pinMode MOTOR4_PIN OUTPUT) ;;
   call stopAllMotors ;;
   connect_WiFi fuel)%sketch.

(** [while (client.connected()) { if (client.available()) { ...; break; } }]
    of [loop]; [i] counts the polls of this client. *)
Fixpoint serve_client (fuel : nat) (cl : client) (i : nat) : M unit :=
  match fuel with
  | O => out_of_fuel
  | S fuel' =>
      match cl i with
      | Gone => ret tt
      | Pending => serve_client fuel' cl (S i)
      | Byte c =>
          (call (DebugLog "Received command:") ;;
           call (switch_command c) ;;
           call client_flush)%sketch
      end
  end.

(** First part of [loop]: [// Check for incoming client connections]. *)
Definition check_clients (fuel : nat) : M unit :=
  (incoming <- server_available ;;
   match incoming with
   | Some cl =>
       (call (DebugLog "Client connected.") ;;
        serve_client fuel cl 0 ;;
        call (delay 10) ;;
        call client_stop ;;
        call (DebugLog "Client disconnected."))
   | None => ret tt
   end)%sketch.

(** Second part of [loop]: [// Check Wi-Fi connection status and attempt
    reconnection if disconnected]. *)
Definition check_WiFi (fuel : nat) : M unit :=
  (st <- WiFi_status ;;
   if negb (is_connected st)
   then
     (call (DebugLog "Wi-Fi disconnected. Attempting to reconnect...") ;;
      call (pixel_setPixelColor 0 (Color 255 0 0)) ;;
      call pixel_show ;;
      call (WiFi_begin ssid password) ;;
      _ <- wait_connected fuel "Reconnecting..." 0 ;;
      st' <- WiFi_status ;;
      (if is_connected st'
       then
         (call (DebugLog "Reconnected to Wi-Fi!") ;;
          call (pixel_setPixelColor 0 (Color 0 255 0)))
       else
         (call (DebugLog "Failed to reconnect to Wi-Fi.") ;;
          call (pixel_setPixelColor 0 (Color 255 0 0)))) ;;
      call pixel_show ;;
      call (delay 10))
   else ret tt)%sketch.

Definition loop (fuel : nat) : M unit :=
  (check_clients fuel ;;
   check_WiFi fuel ;;
   call (delay 5))%sketch.

End Sketch.

(** The value the sketch gives to the global. *)
Definition debug_mode : bool := false.

End Wristband.

(* ===================================================================== *)
(** * The LED-control sketch (Arduino_LED_Communication.ino) *)
(* ===================================================================== *)

Module LedComm.
Import Arduino.

Local Open Scope string_scope.

Definition ssid : string := "Xiaomi_7842".
Definition password : string := "12345678".

Section Sketch.

(** The global [debug_mode], [false] in the sketch. *)
Variable debug_mode : bool.

Definition DebugLog (message : string) : proc :=
  if debug_mode then Serial_println message else skip.

Definition max_attempts : Z := 20.

(** [while (!Serial) delay(10);] of [setup]. *)
Fixpoint wait_Serial (fuel : nat) : M unit :=
  match fuel with
  | O => out_of_fuel
  | S fuel' =>
      (up <- Serial_ready ;;
       if up : bool then ret tt
       else (call (delay 10) ;; wait_Serial fuel'))%sketch
  end.

(** [while (WiFi.status() != WL_CONNECTED && attempt_count < max_attempts)]
    of [setup] and of [loop]. *)
Fixpoint wait_connected (fuel : nat) (message : string) (attempt_count : Z)
  : M Z :=
  match fuel with
  | O => out_of_fuel
  | S fuel' =>
      (st <- WiFi_status ;;
       if (negb (is_connected st) && (attempt_count <? max_attempts)%Z)%bool
       then
         (call (pixel_setPixelColor 0 (Color 255 255 0)) ;;
          call pixel_show ;;
          call (DebugLog message) ;;
          call (delay 500) ;;
          wait_connected fuel' message (attempt_count + 1)%Z)
       else ret attempt_count)%sketch
  end.

Definition setup (fuel : nat) : M unit :=
  ((if debug_mode
    then (call (Serial_begin 115200) ;; wait_Serial fuel)
    else ret tt) ;;
   call (DebugLog "Hello, world from QT Py S3!") ;;
   call (pinMode NEOPIXEL_POWER OUTPUT) ;;
   call (digitalWrite NEOPIXEL_POWER HIGH) ;;
   call pixel_begin ;;
   call (pixel_setBrightness 50) ;;
   call (DebugLog "Connecting to Wi-Fi...") ;;
   call (WiFi_begin ssid password) ;;
   _ <- wait_connected fuel "Attempting to connect..." 0 ;;
   st <- WiFi_status ;;
   (if is_connected st
    then
      (call (DebugLog "Connected to Wi-Fi!") ;;
       ip <- WiFi_localIP ;;
       call (DebugLog ip) ;;
       call (pixel_setPixelColor 0 (Color 0 255 0)) ;;
       call server_begin ;;
       call (DebugLog "Server started."))
    else
      (call (DebugLog "Failed to connect to Wi-Fi.") ;;
       call (pixel_setPixelColor 0 (Color 255 0 0)))) ;;
   call pixel_show ;;
   call (delay 1000))%sketch.

(** The [if (c == 'R') ... else if ... else ...] chain of [loop]. *)
Definition color_command (c : ascii) : proc :=
  if Ascii.eqb c "R" then
    (pixel_setPixelColor 0 (Color 255 0 0) ;;
     pixel_show ;;
     DebugLog "Set color: Red")%proc
  else if Ascii.eqb c "G" then
    (pixel_setPixelColor 0 (Color 0 255 0) ;;
     pixel_show ;;
     DebugLog "Set color: Green")%proc
  else if Ascii.eqb c "B" then
    (pixel_setPixelColor 0 (Color 0 0 255) ;;
     pixel_show ;;
     DebugLog "Set color: Blue")%proc
  else
    DebugLog "Invalid command.".

(** What [loop] does with a byte it has read, up to the [break]. *)
Definition handle_byte (c : ascii) : proc :=
  (color_command c ;;
   pixel_show ;;
   delay 10 ;;
   DebugLog "Color update sent to NeoPixel." ;;
   client_flush)%proc.

(** [while (client.connected()) { if (client.available()) { ...; break; } }] *)
Fixpoint serve_client (fuel : nat) (cl : client) (i : nat) : M unit :=
  match fuel with
  | O => out_of_fuel
  | S fuel' =>
      match cl i with
      | Gone => ret tt
      | Pending => serve_client fuel' cl (S i)
      | Byte c => call (handle_byte c)
      end
  end.

Definition loop (fuel : nat) : M unit :=
  (incoming <- server_available ;;
   match incoming with
   | Some cl =>
       (call (DebugLog "Client connected.") ;;
        serve_client fuel cl 0 ;;
        call (delay 10) ;;
        call client_stop ;;
        call (DebugLog "Client disconnected."))
   | None => ret tt
   end ;;
   st <- WiFi_status ;;
   (if negb (is_connected st)
    then
      (call (DebugLog "Wi-Fi disconnected. Attempting to reconnect...") ;;
       call (pixel_setPixelColor 0 (Color 255 0 0)) ;;
       call pixel_show ;;
       call (WiFi_begin ssid password) ;;
       _ <- wait_connected fuel "Reconnecting..." 0 ;;
       st' <- WiFi_status ;;
       (if is_connected st'
        then
          (call (DebugLog "Reconnected to Wi-Fi!") ;;
           call (pixel_setPixelColor 0 (Color 0 255 0)))
        else
          (call (DebugLog "Failed to reconnect to Wi-Fi.") ;;
           call (pixel_setPixelColor 0 (Color 255 0 0)))) ;;
       call pixel_show ;;
       call (delay 10))
    else ret tt) ;;
   call (delay 500))%sketch.

End Sketch.

(** The value the sketch gives to the global. *)
Definition debug_mode : bool := false.

End LedComm.

(* ===================================================================== *)
(** * Observing a run *)
(* ===================================================================== *)

Module Observe.
Import Arduino.

(** The output pin of actuator [k] (1..4). *)
Definition motor_pin (k : Z) : option pin :=
  match k with
  | 1 => Some MOTOR1_PIN
  | 2 => Some MOTOR2_PIN
  | 3 => Some MOTOR3_PIN
  | 4 => Some MOTOR4_PIN
  | _ => None
  end.

Definition is_energized (s : board) (k : Z) : bool :=
  match motor_pin k with
  | Some p => level_eqb (gpio s p) HIGH
  | None => false
  end.

(** The actuators that are energized, in increasing order of index. *)
Definition energized (s : board) : list Z :=
  filter (is_energized s) [1; 2; 3; 4].

(** The levels of the four actuator outputs. *)
Definition actuators (s : board) : list level :=
  [gpio s MOTOR1_PIN; gpio s MOTOR2_PIN; gpio s MOTOR3_PIN; gpio s MOTOR4_PIN].

Definition all_idle (s : board) : Prop :=
  actuators s = [LOW; LOW; LOW; LOW].

(** The effects a procedure appends to the trace, oldest first. *)
Definition quiet (s : board) : board :=
  mkBoard (gpio s) (pixel_buffer s) (pixel_shown s) (pixel_brightness s)
          (serial_out s) (env s) (wifi_polls s) (serial_polls s) (accepts s)
          [].

Definition emitted (p : proc) (s : board) : list effect :=
  rev (trace (p (quiet s))).

Definition emitted_by {A} (m : M A) (s : board) : list effect :=
  match m (quiet s) with
  | Some (_, s') => rev (trace s')
  | None => []
  end.

(** Replaying effects on a board. *)
Definition replay (s : board) (es : list effect) : board :=
  fold_left (fun b e => emit e b) es s.

(** The boards passed through while the effects [es] happen, one per
    effect (the board right after it). *)
Fixpoint states_after (s : board) (es : list effect) : list board :=
  match es with
  | [] => []
  | e :: es' => emit e s :: states_after (emit e s) es'
  end.

(** One blocking wait of a run: which actuators are energized and which
    colour the indicator shows while the sketch sits in [delay ms]. *)
Record phase : Type := mkPhase {
  ph_energized : list Z;
  ph_colour : Z;
  ph_ms : Z
}.

Fixpoint timeline (s : board) (es : list effect) : list phase :=
  match es with
  | [] => []
  | e :: es' =>
      let s' := emit e s in
      match e with
      | E_delay ms =>
          mkPhase (energized s') (pixel_shown s') ms :: timeline s' es'
      | _ => timeline s' es'
      end
  end.

Definition is_println (e : effect) : bool :=
  match e with
  | E_println _ => true
  | _ => false
  end.

(** The trace without the diagnostics. *)
Definition hardware (es : list effect) : list effect :=
  filter (fun e => negb (is_println e)) es.

Definition printed (es : list effect) : list string :=
  flat_map (fun e => match e with E_println m => [m] | _ => [] end) es.

Definition is_delay (ms : Z) (e : effect) : bool :=
  match e with
  | E_delay d => d =? ms
  | _ => false
  end.

Definition is_WiFi_begin (e : effect) : bool :=
  match e with
  | E_WiFi_begin _ _ => true
  | _ => false
  end.

Definition count (f : effect -> bool) (es : list effect) : nat :=
  List.length (filter f es).

(** Writes that energize an actuator. *)
Definition is_activation (e : effect) : bool :=
  match e with
  | E_digitalWrite MOTOR1_PIN HIGH
  | E_digitalWrite MOTOR2_PIN HIGH
  | E_digitalWrite MOTOR3_PIN HIGH
  | E_digitalWrite MOTOR4_PIN HIGH => true
  | _ => false
  end.

(** The number of answers other than [WL_CONNECTED] that [feed] gives in a
    row from its [start]-th answer on, counted up to [bound]. *)
Fixpoint leading_failures (feed : nat -> wl_status_t) (start bound : nat)
  : nat :=
  match bound with
  | O => O
  | S bound' =>
      if is_connected (feed start) then O
      else S (leading_failures feed (S start) bound')
  end.

Definition red : Z := Color 255 0 0.
Definition green : Z := Color 0 255 0.
Definition blue : Z := Color 0 0 255.
Definition yellow : Z := Color 255 255 0.
Definition cyan : Z := Color 0 255 255.
Definition white : Z := Color 255 255 255.

(** Commands of the wristband sketch. *)
Definition is_motion_command (c : ascii) : bool :=
  let n := N_of_ascii c in
  (49 <=? n)%N && (n <=? 55)%N.

End Observe.

(* ===================================================================== *)
(** * The sequencer of the specification, as a table and one executor *)
(* ===================================================================== *)

Module MotionTable.
Import Arduino Observe.

(** A set of actuators to energize together, the indicator colour that
    goes with it, an on-duration and an off-duration. *)
Record MotionStep : Type := mkStep {
  step_actuators : list Z;
  step_colour : Z;
  on_duration : Z;
  off_duration : Z
}.

(** An ordered sequence of steps; the idle-all definition has none. *)
Definition MotionDefinition : Type := list MotionStep.

Definition idle_colour : Z := white.

Definition pulse (ks : list Z) (colour : Z) : MotionStep :=
  mkStep ks colour 200 80.

Definition up : MotionDefinition := [pulse [1] red].
Definition right : MotionDefinition := [pulse [2] green].
Definition left : MotionDefinition := [pulse [3] blue].
Definition down : MotionDefinition := [pulse [4] yellow].
Definition clockwise : MotionDefinition :=
  [pulse [1] red; pulse [2] green; pulse [4] yellow; pulse [3] blue].
Definition counterclockwise : MotionDefinition :=
  [pulse [1] red; pulse [3] blue; pulse [4] yellow; pulse [2] green].
Definition all_simultaneous : MotionDefinition := [pulse [1; 2; 3; 4] cyan].
Definition idle_all : MotionDefinition := [].

(** The command resolver. *)
Definition resolve (symbol : ascii) : MotionDefinition :=
  if Ascii.eqb symbol "1" then up
  else if Ascii.eqb symbol "2" then right
  else if Ascii.eqb symbol "3" then left
  else if Ascii.eqb symbol "4" then down
  else if Ascii.eqb symbol "5" then clockwise
  else if Ascii.eqb symbol "6" then counterclockwise
  else if Ascii.eqb symbol "7" then all_simultaneous
  else idle_all.

Definition actuator_pins : list (Z * pin) :=
  [(1, MOTOR1_PIN); (2, MOTOR2_PIN); (3, MOTOR3_PIN); (4, MOTOR4_PIN)].

Definition named (ks : list Z) (k : Z) : bool :=
  existsb (Z.eqb k) ks.

(** (1) energize exactly the named actuators, de-energize the others. *)
Definition energize_exactly (ks : list Z) : list effect :=
  map (fun kp => E_digitalWrite (snd kp)
                   (if named ks (fst kp) then HIGH else LOW))
      actuator_pins.

Definition set_indicator (colour : Z) : list effect :=
  [E_setPixelColor 0 colour; E_show].

(** (4) de-energize all actuators and show the idle colour. *)
Definition de_energize_all : list effect :=
  energize_exactly [] ++ set_indicator idle_colour.

(** The five parts of one step, in order. *)
Definition step_effects (st : MotionStep) : list effect :=
  energize_exactly (step_actuators st)
  ++ set_indicator (step_colour st)
  ++ [E_delay (on_duration st)]
  ++ de_energize_all
  ++ [E_delay (off_duration st)].

(** The sequencer: the steps in order; a definition without steps
    de-energizes at once. *)
Definition execute (d : MotionDefinition) : list effect :=
  match d with
  | [] => de_energize_all
  | _ => flat_map step_effects d
  end.

End MotionTable.

(* ===================================================================== *)
(** * Boards and environments used as concrete instances *)
(* ===================================================================== *)

Module Instances.
Import Arduino.

(** No access point in range, console up at once, nobody connects. *)
Definition nobody_home : world :=
  mkWorld (fun _ => WL_DISCONNECTED) (fun _ => true) (fun _ => None)
          "0.0.0.0"%string.

(** The access point answers from the [n]-th status poll on. *)
Definition joins_at (n : nat) : world :=
  mkWorld (fun i => if (n <=? i)%nat then WL_CONNECTED else WL_DISCONNECTED)
          (fun _ => true) (fun _ => None) "192.168.31.7"%string.

(** The network is up and each accepted client sends [c] at once. *)
Definition sender (c : ascii) : world :=
  mkWorld (fun _ => WL_CONNECTED) (fun _ => true)
          (fun _ => Some (fun _ => Byte c)) "192.168.31.7"%string.

(** The board after reset: outputs low, pixel dark. *)
Definition power_on (w : world) : board :=
  mkBoard (fun _ => LOW) 0 0 255 [] w 0 0 0 [].

(** A board on which actuator 2 was left energized. *)
Definition motor2_stuck (w : world) : board :=
  mkBoard (fun p => match p with MOTOR2_PIN => HIGH | _ => LOW end)
          0 0 255 [] w 0 0 0 [].

End Instances.

(* ===================================================================== *)
(** * Runs in closed form *)
(* ===================================================================== *)

(** The effects of each part of the wristband sketch written out as lists,
    the statement that a piece of code runs to completion with given
    effects, and the vocabulary of the properties proved below. *)

Module Runs.
Import Arduino Wristband Observe MotionTable Instances.

(** ** Actuators along a run *)

(** Two boards with the same actuator outputs. *)
Definition agree (a b : board) : Prop := actuators a = actuators b.

(** The board [s] with its four actuator outputs forced low. *)
Definition calmed (s : board) : board :=
  mkBoard (fun p => match p with NEOPIXEL_POWER => gpio s p | _ => LOW end)
          (pixel_buffer s) (pixel_shown s) (pixel_brightness s)
          (serial_out s) (env s) (wifi_polls s) (serial_polls s) (accepts s)
          (trace s).

(** At most one actuator in a list of energized ones. *)
Definition at_most_one (ks : list Z) : Prop := (List.length ks <= 1)%nat.

Definition at_most_oneb (ks : list Z) : bool := (List.length ks <=? 1)%nat.

(** ** Indicator colours *)

(** The three components of a packed colour. *)
Definition rgb (c : Z) : Z * Z * Z := (red_of c, green_of c, blue_of c).

(** The colour that goes with a set of energized actuators. *)
Definition indicator_rgb (ks : list Z) : option (Z * Z * Z) :=
  match ks with
  | [] => Some (255, 255, 255)
  | [1] => Some (255, 0, 0)
  | [2] => Some (0, 255, 0)
  | [3] => Some (0, 0, 255)
  | [4] => Some (255, 255, 0)
  | [1; 2; 3; 4] => Some (0, 255, 255)
  | _ => None
  end.

(** A blocking phase with its colour in components. *)
Definition phase_rgb (ph : phase) : list Z * (Z * Z * Z) :=
  (ph_energized ph, rgb (ph_colour ph)).

(** ** Effects of the wristband sketch, part by part *)

(** What [DebugLog] emits. *)
Definition log (dbg : bool) (msg : string) : list effect :=
  if dbg then [E_println msg] else [].

(** [m] started on [s] returns [a], and its effects are [es]. *)
Definition runs {A} (m : M A) (s : board) (es : list effect) (a : A) : Prop :=
  m s = Some (a, replay s es).

(** Status polls. *)
Definition is_WiFi_status (e : effect) : bool :=
  match e with
  | E_WiFi_status _ => true
  | _ => false
  end.

(** The effects of [k] rounds of the waiting loop that starts with the
    [start]-th status poll. *)
Fixpoint wait_events (dbg : bool) (msg : string) (feed : nat -> wl_status_t)
         (start k : nat) : list effect :=
  match k with
  | O => []
  | S k' =>
      [E_WiFi_status (feed start); E_setPixelColor 0 yellow; E_show]
      ++ log dbg msg ++ [E_delay 500]
      ++ wait_events dbg msg feed (S start) k'
  end.

(** What [connect_WiFi] does with the final status [st]. *)
Definition connect_outcome (dbg : bool) (ip : string) (st : wl_status_t)
  : list effect :=
  if is_connected st
  then log dbg "Connected to Wi-Fi!" ++ [] ++ log dbg ip
       ++ [E_setPixelColor 0 green] ++ [E_server_begin]
       ++ log dbg "Server started."
  else log dbg "Failed to connect to Wi-Fi." ++ [E_setPixelColor 0 red].

(** The effects of [connect_WiFi] when the environment is [w] and [p0]
    status polls have been made before. *)
Definition connect_events (dbg : bool) (w : world) (p0 : nat) : list effect :=
  let feed := wifi_feed w in
  let k := leading_failures feed p0 20 in
  log dbg "Connecting to Wi-Fi..."
  ++ [E_WiFi_begin ssid password]
  ++ (wait_events dbg "Attempting to connect..." feed p0 k
      ++ [E_WiFi_status (feed (p0 + k)%nat)])
  ++ [E_WiFi_status (feed (p0 + k + 1)%nat)]
  ++ connect_outcome dbg (local_ip w) (feed (p0 + k + 1)%nat)
  ++ [E_show] ++ [E_delay 1000].

(** What [check_WiFi] does with the final status [st]. *)
Definition reconnect_outcome (dbg : bool) (st : wl_status_t) : list effect :=
  if is_connected st
  then log dbg "Reconnected to Wi-Fi!" ++ [E_setPixelColor 0 green]
  else log dbg "Failed to reconnect to Wi-Fi." ++ [E_setPixelColor 0 red].

(** The effects of [check_WiFi] when [p0] status polls have been made
    before. *)
Definition check_events (dbg : bool) (w : world) (p0 : nat) : list effect :=
  let feed := wifi_feed w in
  let k := leading_failures feed (S p0) 20 in
  [E_WiFi_status (feed p0)]
  ++ (if negb (is_connected (feed p0))
      then
        log dbg "Wi-Fi disconnected. Attempting to reconnect..."
        ++ [E_setPixelColor 0 red] ++ [E_show]
        ++ [E_WiFi_begin ssid password]
        ++ (wait_events dbg "Reconnecting..." feed (S p0) k
            ++ [E_WiFi_status (feed (S p0 + k)%nat)])
        ++ [E_WiFi_status (feed (S p0 + k + 1)%nat)]
        ++ reconnect_outcome dbg (feed (S p0 + k + 1)%nat)
        ++ [E_show] ++ [E_delay 10]
      else []).

(** The first answer other than [Pending] among the polls [i], [i+1], ...
    of a client, looking at [fuel] polls at most. *)
Fixpoint first_answer (cl : client) (i fuel : nat) : option client_poll :=
  match fuel with
  | O => None
  | S fuel' =>
      match cl i with
      | Pending => first_answer cl (S i) fuel'
      | r => Some r
      end
  end.

(** The effects of handling [c]; they are the same from every board. *)
Definition command_events (dbg : bool) (c : ascii) : list effect :=
  emitted (switch_command dbg c) (power_on nobody_home).

(** The effects of [stopAllMotors]. *)
Definition stop_events (dbg : bool) : list effect :=
  de_energize_all ++ log dbg "All motors stopped.".

(** The effects of [serve_client], by the first answer of the client. *)
Definition serve_events (dbg : bool) (r : option client_poll) : list effect :=
  match r with
  | Some (Byte c) =>
      log dbg "Received command:" ++ command_events dbg c ++ [E_client_flush]
  | _ => []
  end.

(** The effects of [check_clients] when [a0] clients were accepted
    before. *)
Definition check_clients_events (dbg : bool) (w : world) (a0 fuel : nat)
  : list effect :=
  match server_feed w a0 with
  | None => [E_server_available false]
  | Some cl =>
      [E_server_available true]
      ++ log dbg "Client connected."
      ++ serve_events dbg (first_answer cl 0 fuel)
      ++ [E_delay 10] ++ [E_client_stop]
      ++ log dbg "Client disconnected."
  end.

(** The client accepted next, if any, sends a byte or leaves within [fuel]
    polls. *)
Definition client_answers (w : world) (a0 fuel : nat) : Prop :=
  match server_feed w a0 with
  | None => True
  | Some cl => first_answer cl 0 fuel <> None
  end.

(** The effects of one turn of [loop]. *)
Definition loop_events (dbg : bool) (w : world) (a0 p0 fuel : nat)
  : list effect :=
  check_clients_events dbg w a0 fuel ++ check_events dbg w p0 ++ [E_delay 5].

(** The number of tests of [Serial] that fail in a row from the [start]-th
    on, counted up to [bound]. *)
Fixpoint leading_down (feed : nat -> bool) (start bound : nat) : nat :=
  match bound with
  | O => O
  | S bound' =>
      if feed start then O else S (leading_down feed (S start) bound')
  end.

(** The effects of [wait_Serial] when the console comes up at the
    [j]-th test. *)
Fixpoint serial_events (j : nat) : list effect :=
  match j with
  | O => [E_Serial_test true]
  | S j' => [E_Serial_test false] ++ [E_delay 10] ++ serial_events j'
  end.

(** With [debug_mode] on, the console comes up within [fuel] tests. *)
Definition console_comes_up (dbg : bool) (w : world) (q0 fuel : nat) : Prop :=
  dbg = true -> (leading_down (serial_feed w) q0 fuel < fuel)%nat.

(** The effects of [setup]. *)
Definition setup_events (dbg : bool) (w : world) (p0 q0 fuel : nat)
  : list effect :=
  (if dbg
   then [E_Serial_begin 115200]
        ++ serial_events (leading_down (serial_feed w) q0 fuel)
   else [])
  ++ log dbg "Hello, world from QT Py S3!"
  ++ [E_pinMode NEOPIXEL_POWER OUTPUT]
  ++ [E_digitalWrite NEOPIXEL_POWER HIGH]
  ++ [E_pixel_begin]
  ++ [E_setBrightness 50]
  ++ log dbg "Initiating Motors"
  ++ [E_pinMode MOTOR1_PIN OUTPUT]
  ++ [E_pinMode MOTOR2_PIN OUTPUT]
  ++ [E_pinMode MOTOR3_PIN OUTPUT]
  ++ [E_pinMode MOTOR4_PIN OUTPUT]
  ++ stop_events dbg
  ++ connect_events dbg w p0.

(** Writes to one of the four actuator pins. *)
Definition is_motor_write (e : effect) : bool :=
  match e with
  | E_digitalWrite NEOPIXEL_POWER _ => false
  | E_digitalWrite _ _ => true
  | _ => false
  end.

Definition motors_untouched (es : list effect) : bool :=
  forallb (fun e => negb (is_motor_write e)) es.

(** ** The LED-control sketch *)

(** The colour a byte asks for, given the colour written last. *)
Definition commanded_colour (c : ascii) (last : Z) : Z :=
  if Ascii.eqb c "R" then red
  else if Ascii.eqb c "G" then green
  else if Ascii.eqb c "B" then blue
  else last.

(** The console line that goes with a byte. *)
Definition verdict (c : ascii) : string :=
  if Ascii.eqb c "R" then "Set color: Red"
  else if Ascii.eqb c "G" then "Set color: Green"
  else if Ascii.eqb c "B" then "Set color: Blue"
  else "Invalid command.".

Definition is_setPixelColor (e : effect) : bool :=
  match e with
  | E_setPixelColor _ _ => true
  | _ => false
  end.

(** The pixel shows the colour written last. *)
Definition in_sync (s : board) : Prop := pixel_shown s = pixel_buffer s.

(** If [m] starts on a board with [P] and returns, the board it leaves
    has [Q]. *)
Definition triple {A} (P : board -> Prop) (m : M A) (Q : board -> Prop)
  : Prop :=
  forall (s : board) (a : A) (s' : board), P s -> m s = Some (a, s') -> Q s'.

Definition anything (s : board) : Prop := True.

End Runs.

(* ===================================================================== *)
(** * neopixel.ino *)
(* ===================================================================== *)

Module Neopixel.
Import Arduino.

Local Open Scope string_scope.

(** [while (!Serial) delay(10);] of [setup]. *)
Fixpoint wait_Serial (fuel : nat) : M unit :=
  match fuel with
  | O => out_of_fuel
  | S fuel' =>
      (up <- Serial_ready ;;
       if up : bool then ret tt
       else (call (delay 10) ;; wait_Serial fuel'))%sketch
  end.

Definition setup (fuel : nat) : M unit :=
  (call (Serial_begin 115200) ;;
   wait_Serial fuel ;;
   call (Serial_println "Hello, world from QT Py S3!") ;;
   call (pinMode NEOPIXEL_POWER OUTPUT) ;;
   call (digitalWrite NEOPIXEL_POWER HIGH) ;;
   call pixel_begin ;;
   call (pixel_setBrightness 50) ;;
   call (pixel_setPixelColor 0 (Color 255 0 0)) ;;
   call pixel_show ;;
   call (delay 1000))%sketch.

(** Cycle the onboard NeoPixel through colors. *)
Definition loop : proc :=
  (pixel_setPixelColor 0 (Color 0 255 0) ;;
   pixel_show ;;
   Serial_println "NeoPixel: Green" ;;
   delay 1000 ;;
   pixel_setPixelColor 0 (Color 0 0 255) ;;
   pixel_show ;;
   Serial_println "NeoPixel: Blue" ;;
   delay 1000 ;;
   pixel_setPixelColor 0 (Color 255 255 0) ;;
   pixel_show ;;
   Serial_println "NeoPixel: Yellow" ;;
   delay 1000)%proc.

End Neopixel.

(* ===================================================================== *)
(** * debuglog.ino *)
(* ===================================================================== *)

Module DebugLogSketch.
Import Arduino.

Local Open Scope string_scope.

Section Sketch.

(** The global [debug_mode], [true] in this sketch. *)
Variable debug_mode : bool.

Definition DebugLog (message : string) : proc :=
  if debug_mode then Serial_println message else skip.

(** [while (!Serial) delay(10);] of [setup]. *)
Fixpoint wait_Serial (fuel : nat) : M unit :=
  match fuel with
  | O => out_of_fuel
  | S fuel' =>
      (up <- Serial_ready ;;
       if up : bool then ret tt
       else (call (delay 10) ;; wait_Serial fuel'))%sketch
  end.

Definition setup (fuel : nat) : M unit :=
  ((if debug_mode
    then (call (Serial_begin 115200) ;; wait_Serial fuel)
    else ret tt) ;;
   call (DebugLog "Hello, world from QT Py S3!") ;;
   call (pinMode NEOPIXEL_POWER OUTPUT) ;;
   call (digitalWrite NEOPIXEL_POWER HIGH) ;;
   call pixel_begin ;;
   call (pixel_setBrightness 50) ;;
   call (pixel_setPixelColor 0 (Color 255 0 0)) ;;
   call pixel_show ;;
   call (delay 1000))%sketch.

Definition loop : proc :=
  (pixel_setPixelColor 0 (Color 0 255 0) ;;
   pixel_show ;;
   DebugLog "NeoPixel: Green" ;;
   delay 1000 ;;
   pixel_setPixelColor 0 (Color 0 0 255) ;;
   pixel_show ;;
   DebugLog "NeoPixel: Blue" ;;
   delay 1000 ;;
   pixel_setPixelColor 0 (Color 255 255 0) ;;
   pixel_show ;;
   DebugLog "NeoPixel: Yellow" ;;
   delay 1000)%proc.

End Sketch.

(** The value the sketch gives to the global. *)
Definition debug_mode : bool := true.

End DebugLogSketch.

(* ===================================================================== *)
(** * A sketch at work: [setup] once, then [loop] again and again *)
(* ===================================================================== *)

Module Session.
Import Arduino Observe MotionTable Instances Runs.

(** The first [n] calls of [loop] that the Arduino core makes. *)
Fixpoint turns (body : M unit) (n : nat) : M unit :=
  match n with
  | O => ret tt
  | S n' => (body ;; turns body n')%sketch
  end.

(** [setup] followed by [n] calls of [loop]. *)
Definition sketch (setup body : M unit) (n : nat) : M unit :=
  (setup ;; turns body n)%sketch.

(** The time spent in [delay], in milliseconds. *)
Fixpoint total_delay (es : list effect) : Z :=
  match es with
  | [] => 0
  | E_delay ms :: es' => ms + total_delay es'
  | _ :: es' => total_delay es'
  end.

Definition is_server_begin (e : effect) : bool :=
  match e with
  | E_server_begin => true
  | _ => false
  end.

Definition is_client_stop (e : effect) : bool :=
  match e with
  | E_client_stop => true
  | _ => false
  end.

Definition is_client_flush (e : effect) : bool :=
  match e with
  | E_client_flush => true
  | _ => false
  end.

(** Calls on the serial console. *)
Definition is_console (e : effect) : bool :=
  match e with
  | E_Serial_begin _ | E_Serial_test _ | E_println _ => true
  | _ => false
  end.

Definition is_pin_write (e : effect) : bool :=
  match e with
  | E_digitalWrite _ _ => true
  | _ => false
  end.

(** Calls that leave the output pins and the brightness alone. *)
Definition keeps_settings (e : effect) : bool :=
  match e with
  | E_digitalWrite _ _ | E_setBrightness _ => false
  | _ => true
  end.

(** Calls that leave the pixel alone. *)
Definition keeps_pixel (e : effect) : bool :=
  match e with
  | E_setPixelColor _ _ | E_show => false
  | _ => true
  end.

(** The console never comes up. *)
Definition deaf_console : world :=
  mkWorld (fun _ => WL_CONNECTED) (fun _ => false) (fun _ => None)
          "192.168.31.7"%string.

(** The network is up and a client connects that never sends a byte. *)
Definition mute_client : world :=
  mkWorld (fun _ => WL_CONNECTED) (fun _ => true)
          (fun _ => Some (fun _ => Pending)) "192.168.31.7"%string.

(** The network is up and each client leaves without sending a byte. *)
Definition shy_client : world :=
  mkWorld (fun _ => WL_CONNECTED) (fun _ => true)
          (fun _ => Some (fun _ => Gone)) "192.168.31.7"%string.

(** Every client the environment hands out sends a byte or leaves within
    [fuel] polls. *)
Definition clients_answer (w : world) (fuel : nat) : Prop :=
  forall a0 : nat, client_answers w a0 fuel.

(** The client never sends and never leaves. *)
Definition silent (cl : client) : Prop := forall i : nat, cl i = Pending.

(** What stays of the board between two turns of the wristband's [loop]. *)
Definition wristband_ready (s : board) : Prop :=
  all_idle s
  /\ gpio s NEOPIXEL_POWER = HIGH
  /\ pixel_brightness s = 50
  /\ pixel_shown s = pixel_buffer s.

(** Two boards that differ in nothing but the console and the trace. *)
Definition same_hardware (a b : board) : Prop :=
  gpio a = gpio b
  /\ pixel_buffer a = pixel_buffer b
  /\ pixel_shown a = pixel_shown b
  /\ pixel_brightness a = pixel_brightness b.

(** Commands handled one after the other. *)
Definition handle_commands (dbg : bool) (cs : list ascii) (s : board)
  : board :=
  fold_left (fun b c => Wristband.switch_command dbg c b) cs s.

(** Phases in which an actuator runs. *)
Definition is_on_phase (ph : phase) : bool :=
  match ph_energized ph with
  | [] => false
  | _ => true
  end.

(** ** The LED-control sketch in closed form *)

(** The first part of the LED sketch's [loop], up to the status check. *)
Definition led_check_clients (dbg : bool) (fuel : nat) : M unit :=
  (incoming <- server_available ;;
   match incoming with
   | Some cl =>
       (call (LedComm.DebugLog dbg "Client connected.") ;;
        LedComm.serve_client dbg fuel cl 0 ;;
        call (delay 10) ;;
        call client_stop ;;
        call (LedComm.DebugLog dbg "Client disconnected."))
   | None => ret tt
   end)%sketch.

(** What stays of the board between two turns of the LED sketch's
    [loop]. *)
Definition led_ready (s : board) : Prop :=
  gpio s NEOPIXEL_POWER = HIGH
  /\ pixel_brightness s = 50
  /\ pixel_shown s = pixel_buffer s.

(** The effects of handling [c]; they are the same from every board. *)
Definition led_byte_events (dbg : bool) (c : ascii) : list effect :=
  emitted (LedComm.handle_byte dbg c) (power_on nobody_home).

Definition led_serve_events (dbg : bool) (r : option client_poll)
  : list effect :=
  match r with
  | Some (Byte c) => led_byte_events dbg c
  | _ => []
  end.

Definition led_check_clients_events (dbg : bool) (w : world) (a0 fuel : nat)
  : list effect :=
  match server_feed w a0 with
  | None => [E_server_available false]
  | Some cl =>
      [E_server_available true]
      ++ log dbg "Client connected."
      ++ led_serve_events dbg (first_answer cl 0 fuel)
      ++ [E_delay 10] ++ [E_client_stop]
      ++ log dbg "Client disconnected."
  end.

(** The effects of one turn of the LED sketch's [loop]. *)
Definition led_loop_events (dbg : bool) (w : world) (a0 p0 fuel : nat)
  : list effect :=
  led_check_clients_events dbg w a0 fuel
  ++ check_events dbg w p0 ++ [E_delay 500].

(** The effects of the LED sketch's [setup]. *)
Definition led_setup_events (dbg : bool) (w : world) (p0 q0 fuel : nat)
  : list effect :=
  (if dbg
   then [E_Serial_begin 115200]
        ++ serial_events (leading_down (serial_feed w) q0 fuel)
   else [])
  ++ log dbg "Hello, world from QT Py S3!"
  ++ [E_pinMode NEOPIXEL_POWER OUTPUT]
  ++ [E_digitalWrite NEOPIXEL_POWER HIGH]
  ++ [E_pixel_begin]
  ++ [E_setBrightness 50]
  ++ connect_events dbg w p0.




(** The colour and the length of a phase. *)
Definition phase_colour (ph : phase) : Z * Z := (ph_colour ph, ph_ms ph).

(** One turn of the colour cycle: green, blue, yellow, a second each. *)
Definition cycle_colours : list (Z * Z) :=
  [(green, 1000); (blue, 1000); (yellow, 1000)].

(** The effects of one turn of neopixel.ino's [loop]. *)
Definition cycle_events : list effect :=
  [ E_setPixelColor 0 green; E_show; E_println "NeoPixel: Green";
    E_delay 1000;
    E_setPixelColor 0 blue; E_show; E_println "NeoPixel: Blue";
    E_delay 1000;
    E_setPixelColor 0 yellow; E_show; E_println "NeoPixel: Yellow";
    E_delay 1000 ].

(** The effects of neopixel.ino's [setup] when the console comes up at the
    [j]-th test. *)
Definition neopixel_setup_events (j : nat) : list effect :=
  [E_Serial_begin 115200]
  ++ serial_events j
  ++ [ E_println "Hello, world from QT Py S3!";
       E_pinMode NEOPIXEL_POWER OUTPUT;
       E_digitalWrite NEOPIXEL_POWER HIGH;
       E_pixel_begin;
       E_setBrightness 50;
       E_setPixelColor 0 red;
       E_show;
       E_delay 1000 ].

(** The station drops once, at the first status poll, and each client
    sends [c] at once. *)
Definition drops_once (c : ascii) : world :=
  mkWorld (fun i => if (i =? 0)%nat then WL_DISCONNECTED else WL_CONNECTED)
          (fun _ => true) (fun _ => Some (fun _ => Byte c))
          "192.168.31.7"%string.

(** The console comes up at the [n]-th test. *)
Definition console_at (n : nat) : world :=
  mkWorld (fun _ => WL_CONNECTED) (fun i => (n <=? i)%nat) (fun _ => None)
          "192.168.31.7"%string.

End Session.

(* ===================================================================== *)
(** * Properties of the wristband sequencer *)
(* ===================================================================== *)

Module WristbandProps.
Import Arduino Wristband Observe MotionTable Instances Runs.

Ltac each_char c :=
  destruct c as [[] [] [] [] [] [] [] []].

(** ** The switch, case by case *)

Lemma switch_command_default (dbg : bool) (c : ascii) :
  is_motion_command c = false ->
  switch_command dbg c =
    (DebugLog dbg "Invalid command received. Stopping all motors."%string ;;
     stopAllMotors dbg)%proc.
Proof. each_char c; intros H; try reflexivity; discriminate H. Qed.

Lemma motion_command_cases (c : ascii) :
  is_motion_command c = true ->
  In c ["1"; "2"; "3"; "4"; "5"; "6"; "7"]%char.
Proof. each_char c; intros H; try discriminate H; simpl; tauto. Qed.

Lemma resolve_default (c : ascii) :
  is_motion_command c = false -> resolve c = idle_all.
Proof. each_char c; intros H; try reflexivity; discriminate H. Qed.

(** Splits a goal about [switch_command dbg c] into the seven commands and
    the default branch, for both values of [debug_mode]. *)
Ltac by_command dbg c :=
  let E := fresh "E" in
  destruct (is_motion_command c) eqn:E;
  [ apply motion_command_cases in E; simpl in E;
    destruct dbg; intuition subst
  | rewrite (switch_command_default dbg c E); destruct dbg ].

(** ** The trace is a faithful record *)

(** What a command appends to the trace does not depend on what the trace
    already holds, and replaying it gives the board the command leaves. *)
Lemma switch_command_trace (dbg : bool) (c : ascii) (s : board) :
  trace (switch_command dbg c s)
  = rev (emitted (switch_command dbg c) s) ++ trace s.
Proof. by_command dbg c; vm_compute; reflexivity. Qed.

Lemma switch_command_replay (dbg : bool) (c : ascii) (s : board) :
  replay s (emitted (switch_command dbg c) s) = switch_command dbg c s.
Proof. by_command dbg c; vm_compute; reflexivity. Qed.

Lemma stopAllMotors_replay (dbg : bool) (s : board) :
  replay s (emitted (stopAllMotors dbg) s) = stopAllMotors dbg s.
Proof. destruct dbg; vm_compute; reflexivity. Qed.

(** ** Two runs written out *)

Example upPulse_effects :
  emitted (switch_command false "1") (motor2_stuck nobody_home)
  = [ E_digitalWrite MOTOR1_PIN HIGH; E_digitalWrite MOTOR2_PIN LOW;
      E_digitalWrite MOTOR3_PIN LOW; E_digitalWrite MOTOR4_PIN LOW;
      E_setPixelColor 0 16711680; E_show; E_delay 200;
      E_digitalWrite MOTOR1_PIN LOW; E_digitalWrite MOTOR2_PIN LOW;
      E_digitalWrite MOTOR3_PIN LOW; E_digitalWrite MOTOR4_PIN LOW;
      E_setPixelColor 0 16777215; E_show; E_delay 80 ].
Proof. vm_compute. reflexivity. Qed.

Example invalid_command_effects :
  emitted (switch_command true "9") (power_on nobody_home)
  = [ E_println "Invalid command received. Stopping all motors.";
      E_digitalWrite MOTOR1_PIN LOW; E_digitalWrite MOTOR2_PIN LOW;
      E_digitalWrite MOTOR3_PIN LOW; E_digitalWrite MOTOR4_PIN LOW;
      E_setPixelColor 0 16777215; E_show;
      E_println "All motors stopped." ].
Proof. vm_compute. reflexivity. Qed.

(** C1: command '5' runs the actuators in the order 1, 2, 4, 3 and command
    '6' in the order 1, 3, 4, 2.  Whatever the board was before, the run
    blocks eight times: four on-phases of 200 ms, each with exactly the one
    actuator of the step energized, each followed by an idle gap of 80 ms
    with no actuator energized; the writes that energize an actuator are
    exactly four, in that order. *)
Theorem C1_rotation_sequences (dbg : bool) (s : board) :
  timeline s (emitted (switch_command dbg "5") s)
  = [ mkPhase [1] red 200; mkPhase [] white 80;
      mkPhase [2] green 200; mkPhase [] white 80;
      mkPhase [4] yellow 200; mkPhase [] white 80;
      mkPhase [3] blue 200; mkPhase [] white 80 ]
  /\ filter is_activation (emitted (switch_command dbg "5") s)
     = [ E_digitalWrite MOTOR1_PIN HIGH; E_digitalWrite MOTOR2_PIN HIGH;
         E_digitalWrite MOTOR4_PIN HIGH; E_digitalWrite MOTOR3_PIN HIGH ]
  /\ timeline s (emitted (switch_command dbg "6") s)
     = [ mkPhase [1] red 200; mkPhase [] white 80;
         mkPhase [3] blue 200; mkPhase [] white 80;
         mkPhase [4] yellow 200; mkPhase [] white 80;
         mkPhase [2] green 200; mkPhase [] white 80 ]
  /\ filter is_activation (emitted (switch_command dbg "6") s)
     = [ E_digitalWrite MOTOR1_PIN HIGH; E_digitalWrite MOTOR3_PIN HIGH;
         E_digitalWrite MOTOR4_PIN HIGH; E_digitalWrite MOTOR2_PIN HIGH ].
Proof. destruct dbg; repeat split; vm_compute; reflexivity. Qed.

(** C2: after any command has been handled (one of '1'..'7' or any other
    byte, which takes the idle-all default), the four actuator outputs are
    low, whatever they were before; the same holds after [stopAllMotors]. *)
Theorem C2_idle_after_every_command (dbg : bool) (c : ascii) (s : board) :
  all_idle (switch_command dbg c s)
  /\ energized (switch_command dbg c s) = []
  /\ all_idle (stopAllMotors dbg s).
Proof.
  repeat split; try (destruct dbg; vm_compute; reflexivity);
    by_command dbg c; vm_compute; reflexivity.
Qed.

(** C3: the mapping of the switch.  '1', '2', '3', '4' run the pulse of
    actuator 1, 2, 3, 4 alone and '7' the pulse of all four together (one
    on-phase, one idle gap); the effects a symbol produces are the same
    from every board, so a symbol always stands for the same motion; every
    symbol is mapped (the function is defined on all of [ascii]). *)
Theorem C3_command_mapping (dbg : bool) (s : board) :
  (switch_command dbg "1" = upPulse dbg
   /\ timeline s (emitted (switch_command dbg "1") s)
      = [mkPhase [1] red 200; mkPhase [] white 80])
  /\ (switch_command dbg "2" = rightPulse dbg
      /\ timeline s (emitted (switch_command dbg "2") s)
         = [mkPhase [2] green 200; mkPhase [] white 80])
  /\ (switch_command dbg "3" = leftPulse dbg
      /\ timeline s (emitted (switch_command dbg "3") s)
         = [mkPhase [3] blue 200; mkPhase [] white 80])
  /\ (switch_command dbg "4" = downPulse dbg
      /\ timeline s (emitted (switch_command dbg "4") s)
         = [mkPhase [4] yellow 200; mkPhase [] white 80])
  /\ (switch_command dbg "7" = allMotorsPulse dbg
      /\ timeline s (emitted (switch_command dbg "7") s)
         = [mkPhase [1; 2; 3; 4] cyan 200; mkPhase [] white 80])
  /\ (forall (c : ascii) (s1 s2 : board),
        emitted (switch_command dbg c) s1 = emitted (switch_command dbg c) s2)
  /\ (forall (c : ascii) (s0 : board),
        replay s0 (emitted (switch_command dbg c) s0)
        = switch_command dbg c s0).
Proof.
  repeat split; try (destruct dbg; vm_compute; reflexivity).
  - intros c s1 s2. by_command dbg c; vm_compute; reflexivity.
  - intros c s0. apply switch_command_replay.
Qed.

(** The hardware effects of a byte are those of the definition it
    resolves to. *)
Lemma switch_command_hardware (dbg : bool) (c : ascii) (s : board) :
  hardware (emitted (switch_command dbg c) s) = execute (resolve c).
Proof.
  destruct (is_motion_command c) eqn:E.
  - apply motion_command_cases in E; simpl in E.
    destruct dbg; intuition subst; vm_compute; reflexivity.
  - rewrite (switch_command_default dbg c E), (resolve_default c E).
    destruct dbg; vm_compute; reflexivity.
Qed.

(** C5: the code refines the table-driven sequencer.  Without the
    diagnostics, the effects of handling a symbol are exactly those of
    executing the definition the symbol resolves to: for each step in the
    defined order, the four pin writes that energize exactly the named
    actuators, the step colour staged and shown, the on-duration wait, the
    four writes that de-energize all actuators, the idle colour staged and
    shown, the off-duration wait; one step is complete before the next
    starts.  With [debug_mode] off (the value in the sketch) nothing else
    is emitted at all. *)
Theorem C5_refines_sequencer (dbg : bool) (c : ascii) (s : board) :
  hardware (emitted (switch_command dbg c) s) = execute (resolve c)
  /\ emitted (switch_command debug_mode c) s = execute (resolve c)
  /\ (forall st : MotionStep,
        step_effects st
        = [ E_digitalWrite MOTOR1_PIN
              (if named (step_actuators st) 1 then HIGH else LOW);
            E_digitalWrite MOTOR2_PIN
              (if named (step_actuators st) 2 then HIGH else LOW);
            E_digitalWrite MOTOR3_PIN
              (if named (step_actuators st) 3 then HIGH else LOW);
            E_digitalWrite MOTOR4_PIN
              (if named (step_actuators st) 4 then HIGH else LOW);
            E_setPixelColor 0 (step_colour st); E_show;
            E_delay (on_duration st);
            E_digitalWrite MOTOR1_PIN LOW; E_digitalWrite MOTOR2_PIN LOW;
            E_digitalWrite MOTOR3_PIN LOW; E_digitalWrite MOTOR4_PIN LOW;
            E_setPixelColor 0 white; E_show;
            E_delay (off_duration st) ])
  /\ (is_motion_command c = true ->
      execute (resolve c) = flat_map step_effects (resolve c)
      /\ resolve c <> []).
Proof.
  split; [apply switch_command_hardware |].
  split; [| split; [intros st; reflexivity |]]; repeat split.
  - destruct (is_motion_command c) eqn:E.
    + apply motion_command_cases in E; simpl in E; intuition subst;
        vm_compute; reflexivity.
    + unfold debug_mode.
      rewrite (switch_command_default false c E), (resolve_default c E).
      vm_compute; reflexivity.
  - apply motion_command_cases in H; simpl in H; intuition subst;
      vm_compute; reflexivity.
  - apply motion_command_cases in H; simpl in H; intuition subst;
      discriminate.
Qed.

Lemma C5_refines_sequencer_witness :
  is_motion_command "5" = true
  /\ execute (resolve "5") = flat_map step_effects (resolve "5")
  /\ resolve "5" <> [].
Proof.
  split; [reflexivity |].
  apply (C5_refines_sequencer false "5" (power_on nobody_home)).
  vm_compute; reflexivity.
Defined.

(** C6: the idle-all action is idempotent.  Running [stopAllMotors] twice
    leaves every actuator idle after the first and after the second run,
    and the second run changes no output pin and not the indicator; the
    same holds for two invalid commands in a row, which take the default
    branch of the switch. *)
Theorem C6_idle_all_idempotent (dbg : bool) (s : board) :
  (let s1 := stopAllMotors dbg s in
   let s2 := stopAllMotors dbg s1 in
   all_idle s1 /\ all_idle s2
   /\ actuators s2 = actuators s1
   /\ (forall p : pin, gpio s2 p = gpio s1 p)
   /\ pixel_shown s2 = pixel_shown s1)
  /\ (forall c c' : ascii,
        is_motion_command c = false ->
        is_motion_command c' = false ->
        let s1 := switch_command dbg c s in
        let s2 := switch_command dbg c' s1 in
        all_idle s1 /\ all_idle s2
        /\ actuators s2 = actuators s1
        /\ (forall p : pin, gpio s2 p = gpio s1 p)
        /\ pixel_shown s2 = pixel_shown s1).
Proof.
  split.
  - cbv zeta. repeat split; try (destruct dbg; vm_compute; reflexivity).
    intros p. destruct dbg, p; vm_compute; reflexivity.
  - intros c c' Hc Hc'. cbv zeta.
    rewrite (switch_command_default dbg c Hc),
            (switch_command_default dbg c' Hc').
    repeat split; try (destruct dbg; vm_compute; reflexivity).
    intros p. destruct dbg, p; vm_compute; reflexivity.
Qed.

Lemma C6_idle_all_idempotent_witness :
  let s := motor2_stuck nobody_home in
  let s1 := switch_command false "9" s in
  let s2 := switch_command false "x" s1 in
  actuators s = [LOW; HIGH; LOW; LOW]
  /\ all_idle s1 /\ all_idle s2
  /\ actuators s2 = actuators s1
  /\ (forall p : pin, gpio s2 p = gpio s1 p)
  /\ pixel_shown s2 = pixel_shown s1.
Proof.
  split; [reflexivity |].
  apply (proj2 (C6_idle_all_idempotent false (motor2_stuck nobody_home))
               "9"%char "x"%char); reflexivity.
Defined.

(** ** Boards that agree on the actuator outputs *)

Lemma emit_agree (e : effect) (a b : board) :
  agree a b -> agree (emit e a) (emit e b).
Proof.
  unfold agree, actuators. intros H. injection H as H1 H2 H3 H4.
  destruct e as [ | p v | | | | | | | | | | | | | | ]; simpl;
    try (rewrite H1, H2, H3, H4; reflexivity).
  unfold write_pin. destruct p; simpl; rewrite ?H1, ?H2, ?H3, ?H4;
    reflexivity.
Qed.

Lemma energized_agree (a b : board) : agree a b -> energized a = energized b.
Proof.
  unfold agree, actuators, energized, is_energized. intros H.
  injection H as H1 H2 H3 H4. simpl. rewrite H1, H2, H3, H4. reflexivity.
Qed.

Lemma states_after_agree (P : list Z -> Prop) (es : list effect) :
  forall a b : board,
    agree a b ->
    Forall (fun x => P (energized x)) (states_after a es) ->
    Forall (fun x => P (energized x)) (states_after b es).
Proof.
  induction es as [| e es IH]; intros a b Hab Ha; simpl in *.
  - constructor.
  - inversion Ha as [| x l Hx Hl]; subst. constructor.
    + rewrite <- (energized_agree _ _ (emit_agree e a b Hab)). exact Hx.
    + apply (IH (emit e a)); [apply emit_agree; exact Hab | exact Hl].
Qed.

Lemma calmed_agree (s : board) : all_idle s -> agree (calmed s) s.
Proof. unfold all_idle, agree. intros H. rewrite H. reflexivity. Qed.

Lemma at_most_one_run (es : list effect) (s : board) :
  all_idle s ->
  forallb (fun x => at_most_oneb (energized x)) (states_after (calmed s) es)
  = true ->
  Forall (fun x => at_most_one (energized x)) (states_after s es).
Proof.
  intros Hs Hb.
  apply (states_after_agree at_most_one es (calmed s) s (calmed_agree s Hs)).
  apply Forall_forall. intros x Hx.
  rewrite forallb_forall in Hb. specialize (Hb x Hx).
  unfold at_most_oneb in Hb. apply Nat.leb_le in Hb. exact Hb.
Qed.

(** C9: starting from idle outputs (the state [setup] establishes and
    every command restores), the handling of any byte other than '7' -- in
    particular of '1' .. '6' -- never has more than one actuator energized,
    at any point between two library calls: its pin writes are those of
    steps that each name one actuator, which write the named pin high and
    the other three low.  Handling '7' passes through a board with all
    four energized. *)
Theorem C9_one_actuator_at_a_time (dbg : bool) (s : board) :
  all_idle s ->
  (forall c : ascii,
      c <> "7"%char ->
      Forall (fun x => at_most_one (energized x))
             (states_after s (emitted (switch_command dbg c) s))
      /\ hardware (emitted (switch_command dbg c) s) = execute (resolve c)
      /\ Forall (fun st => List.length (step_actuators st) = 1%nat)
                (resolve c))
  /\ In [1; 2; 3; 4]
        (map energized (states_after s (emitted (switch_command dbg "7") s))).
Proof.
  intros Hs. split.
  - intros c Hc. split; [| split].
    + apply at_most_one_run; [exact Hs |].
      by_command dbg c; try congruence; vm_compute; reflexivity.
    + apply switch_command_hardware.
    + destruct (is_motion_command c) eqn:E.
      * apply motion_command_cases in E; simpl in E.
        intuition subst; try congruence; repeat constructor.
      * rewrite (resolve_default c E). constructor.
  - destruct dbg; vm_compute; tauto.
Qed.

Lemma C9_one_actuator_at_a_time_witness :
  all_idle (power_on nobody_home)
  /\ Forall (fun x => at_most_one (energized x))
            (states_after (power_on nobody_home)
               (emitted (switch_command false "5") (power_on nobody_home)))
  /\ In [1; 2; 3; 4]
        (map energized
           (states_after (power_on nobody_home)
              (emitted (switch_command false "7") (power_on nobody_home)))).
Proof.
  split; [reflexivity |].
  destruct (C9_one_actuator_at_a_time false (power_on nobody_home) eq_refl)
    as [H1 H7].
  split; [apply (H1 "5"%char); discriminate | exact H7].
Defined.

(** The idle hypothesis of C9 cannot be dropped: with actuator 2 left
    energized, the first write of [upPulse] makes two actuators run. *)
Remark one_at_a_time_needs_idle :
  map energized
      (states_after (motor2_stuck nobody_home)
         (emitted (switch_command false "1") (motor2_stuck nobody_home)))
  = [[1; 2]; [1]; [1]; [1]; [1]; [1]; [1]; []; []; []; []; []; []; []].
Proof. vm_compute. reflexivity. Qed.

(** ** Indicator colours *)

(** Packing a colour and taking it apart gives the components back. *)
Lemma land_255 (x : Z) : Z.land x 255 = x mod 256.
Proof. change 255 with (Z.ones 8). rewrite Z.land_ones by lia. reflexivity. Qed.

Lemma byte_land (x : Z) : 0 <= x < 256 -> Z.land x 255 = x.
Proof. intros H. rewrite land_255. apply Z.mod_small. exact H. Qed.

Lemma Color_components (r g b : Z) :
  0 <= r < 256 -> 0 <= g < 256 -> 0 <= b < 256 ->
  rgb (Color r g b) = (r, g, b).
Proof.
  intros Hr Hg Hb. unfold rgb, red_of, green_of, blue_of, Color.
  rewrite (byte_land r Hr), (byte_land g Hg), (byte_land b Hb).
  rewrite !Z.shiftr_lor, !Z.land_lor_distr_l.
  rewrite !Z.shiftr_shiftl_l by lia.
  change (16 - 16) with 0. change (8 - 16) with (-8). change (8 - 8) with 0.
  rewrite !Z.shiftl_0_r.
  rewrite (Z.shiftl_div_pow2 g (-8)) by lia.
  rewrite !Z.shiftr_div_pow2 by lia. rewrite !Z.shiftl_mul_pow2 by lia.
  rewrite !land_255.
  change (2 ^ 16) with 65536. change (2 ^ 8) with 256.
  change (2 ^ (- (-8))) with 256.
  rewrite (Z.div_small g 256), (Z.div_small b 65536), (Z.div_small b 256)
    by lia.
  rewrite !Z.lor_0_r.
  replace (r * 65536) with ((r * 256) * 256) by lia.
  rewrite !Z.mod_mul by lia.
  rewrite ?Z.lor_0_l, ?Z.lor_0_r.
  rewrite !Z.mod_small by lia. reflexivity.
Qed.

(** C10: [stopAllMotors] stages and shows white (255,255,255); while the
    sketch blocks in any command, the indicator shows red with actuator 1
    alone, green with 2, blue with 3, yellow with 4, cyan with all four and
    white with none; each of these colours occurs. *)
Theorem C10_indicator_colours (dbg : bool) (s : board) :
  rgb (pixel_buffer (stopAllMotors dbg s)) = (255, 255, 255)
  /\ rgb (pixel_shown (stopAllMotors dbg s)) = (255, 255, 255)
  /\ (forall c : ascii,
        Forall (fun ph => Some (rgb (ph_colour ph))
                          = indicator_rgb (ph_energized ph))
               (timeline s (emitted (switch_command dbg c) s)))
  /\ map phase_rgb (timeline s (emitted (upPulse dbg) s))
     = [([1], (255, 0, 0)); ([], (255, 255, 255))]
  /\ map phase_rgb (timeline s (emitted (rightPulse dbg) s))
     = [([2], (0, 255, 0)); ([], (255, 255, 255))]
  /\ map phase_rgb (timeline s (emitted (leftPulse dbg) s))
     = [([3], (0, 0, 255)); ([], (255, 255, 255))]
  /\ map phase_rgb (timeline s (emitted (downPulse dbg) s))
     = [([4], (255, 255, 0)); ([], (255, 255, 255))]
  /\ map phase_rgb (timeline s (emitted (allMotorsPulse dbg) s))
     = [([1; 2; 3; 4], (0, 255, 255)); ([], (255, 255, 255))].
Proof.
  repeat match goal with |- _ /\ _ => split end;
    try (destruct dbg; vm_compute; reflexivity).
  intros c.
  by_command dbg c; vm_compute; repeat constructor.
Qed.

(** ** Runs of code with loops *)

Lemma replay_app (s : board) (es1 es2 : list effect) :
  replay s (es1 ++ es2) = replay (replay s es1) es2.
Proof. unfold replay. apply fold_left_app. Qed.

Lemma runs_ret {A} (a : A) (s : board) : runs (ret a) s [] a.
Proof. reflexivity. Qed.

Lemma runs_bind {A B} (m : M A) (k : A -> M B) (s : board)
      (es1 es2 : list effect) (a : A) (b : B) :
  runs m s es1 a ->
  runs (k a) (replay s es1) es2 b ->
  runs (bind m k) s (es1 ++ es2) b.
Proof.
  unfold runs, bind. intros -> ->. rewrite replay_app. reflexivity.
Qed.

Lemma runs_emit (e : effect) (s : board) : runs (call (emit e)) s [e] tt.
Proof. reflexivity. Qed.

Lemma runs_DebugLog (dbg : bool) (msg : string) (s : board) :
  runs (call (DebugLog dbg msg)) s (log dbg msg) tt.
Proof. destruct dbg; reflexivity. Qed.

Lemma env_emit (e : effect) (s : board) : env (emit e s) = env s.
Proof. destruct e; reflexivity. Qed.

Lemma env_replay (es : list effect) :
  forall s : board, env (replay s es) = env s.
Proof.
  induction es as [| e es IH]; intros s; [reflexivity |].
  change (replay s (e :: es)) with (replay (emit e s) es).
  rewrite IH. apply env_emit.
Qed.

Lemma wifi_polls_emit (e : effect) (s : board) :
  wifi_polls (emit e s)
  = (wifi_polls s + (if is_WiFi_status e then 1 else 0))%nat.
Proof. destruct e; simpl; lia. Qed.

Lemma count_app (f : effect -> bool) (es1 es2 : list effect) :
  count f (es1 ++ es2) = (count f es1 + count f es2)%nat.
Proof. unfold count. rewrite filter_app, length_app. reflexivity. Qed.

Lemma wifi_polls_replay (es : list effect) :
  forall s : board,
    wifi_polls (replay s es) = (wifi_polls s + count is_WiFi_status es)%nat.
Proof.
  induction es as [| e es IH]; intros s.
  - simpl. unfold count. simpl. lia.
  - change (replay s (e :: es)) with (replay (emit e s) es).
    rewrite IH, wifi_polls_emit.
    change (e :: es) with ([e] ++ es). rewrite count_app.
    unfold count at 2. simpl. destruct (is_WiFi_status e); simpl; lia.
Qed.

Lemma runs_WiFi_status (s : board) :
  runs WiFi_status s [E_WiFi_status (wifi_feed (env s) (wifi_polls s))]
       (wifi_feed (env s) (wifi_polls s)).
Proof. reflexivity. Qed.

Lemma wait_connected_runs (dbg : bool) (msg : string) :
  forall (n fuel : nat) (a : Z) (s : board),
    n = Z.to_nat (max_attempts - a) ->
    (n < fuel)%nat ->
    let feed := wifi_feed (env s) in
    let k := leading_failures feed (wifi_polls s) n in
    runs (wait_connected dbg fuel msg a) s
         (wait_events dbg msg feed (wifi_polls s) k
          ++ [E_WiFi_status (feed (wifi_polls s + k)%nat)])
         (a + Z.of_nat k).
Proof.
  induction n as [| n IH]; intros fuel a s Hn Hfuel; cbv zeta;
    (destruct fuel as [| fuel]; [lia |]); unfold max_attempts in Hn.
  - simpl leading_failures. simpl wait_events. rewrite Nat.add_0_r, Z.add_0_r.
    unfold runs. simpl wait_connected. unfold bind, WiFi_status.
    replace (a <? max_attempts) with false
      by (symmetry; apply Z.ltb_ge; unfold max_attempts; lia).
    rewrite andb_false_r. reflexivity.
  - simpl leading_failures. unfold runs. simpl wait_connected.
    unfold bind at 1. unfold WiFi_status at 1.
    destruct (is_connected (wifi_feed (env s) (wifi_polls s))) eqn:Hc.
    + simpl. rewrite Nat.add_0_r, Z.add_0_r. reflexivity.
    + replace (a <? max_attempts) with true
        by (symmetry; apply Z.ltb_lt; unfold max_attempts; lia).
      cbn [negb andb].
      set (s1 := replay s ([E_WiFi_status (wifi_feed (env s) (wifi_polls s));
                            E_setPixelColor 0 yellow; E_show]
                           ++ log dbg msg ++ [E_delay 500])).
      assert (H1 : env s1 = env s) by apply env_replay.
      assert (H2 : wifi_polls s1 = S (wifi_polls s)).
      { unfold s1. rewrite wifi_polls_replay.
        destruct dbg; unfold count; simpl; lia. }
      assert (IH' := IH fuel (a + 1) s1 ltac:(unfold max_attempts; lia)
                         ltac:(lia)).
      cbv zeta in IH'. unfold runs in IH'. rewrite H1, H2 in IH'.
      transitivity (wait_connected dbg fuel msg (a + 1) s1).
      { unfold s1. destruct dbg; reflexivity. }
      rewrite IH'. f_equal. f_equal; [lia |].
      unfold s1. rewrite <- replay_app. f_equal.
      cbn [wait_events]. rewrite <- !app_assoc. cbn [app].
      rewrite Nat.add_succ_r. reflexivity.
Qed.

Lemma count_status_wait_events (dbg : bool) (msg : string)
      (feed : nat -> wl_status_t) (k : nat) :
  forall start : nat,
    count is_WiFi_status (wait_events dbg msg feed start k) = k.
Proof.
  induction k as [| k IH]; intros start; [reflexivity |].
  cbn [wait_events]. rewrite !count_app, IH.
  destruct dbg; reflexivity.
Qed.

Lemma count_delay_wait_events (dbg : bool) (msg : string)
      (feed : nat -> wl_status_t) (k : nat) :
  forall start : nat,
    count (is_delay 500) (wait_events dbg msg feed start k) = k.
Proof.
  induction k as [| k IH]; intros start; [reflexivity |].
  cbn [wait_events]. rewrite !count_app, IH.
  destruct dbg; reflexivity.
Qed.

Lemma count_begin_wait_events (dbg : bool) (msg : string)
      (feed : nat -> wl_status_t) (k : nat) :
  forall start : nat,
    count is_WiFi_begin (wait_events dbg msg feed start k) = 0%nat.
Proof.
  induction k as [| k IH]; intros start; [reflexivity |].
  cbn [wait_events]. rewrite !count_app, IH.
  destruct dbg; reflexivity.
Qed.

Lemma runs_WiFi_status_at (s : board) (w : world) (p : nat) :
  env s = w -> wifi_polls s = p ->
  runs WiFi_status s [E_WiFi_status (wifi_feed w p)] (wifi_feed w p).
Proof. intros <- <-. reflexivity. Qed.

Lemma runs_WiFi_localIP_at (s : board) (w : world) :
  env s = w -> runs WiFi_localIP s [] (local_ip w).
Proof. intros <-. reflexivity. Qed.

Lemma wait_connected_runs_at (dbg : bool) (msg : string) (fuel : nat)
      (s : board) (w : world) (p : nat) :
  env s = w -> wifi_polls s = p -> (20 < fuel)%nat ->
  runs (wait_connected dbg fuel msg 0) s
       (wait_events dbg msg (wifi_feed w) p
                    (leading_failures (wifi_feed w) p 20)
        ++ [E_WiFi_status
              (wifi_feed w (p + leading_failures (wifi_feed w) p 20)%nat)])
       (Z.of_nat (leading_failures (wifi_feed w) p 20)).
Proof.
  intros <- <- H.
  exact (wait_connected_runs dbg msg 20 fuel 0 s eq_refl H).
Qed.

(** Facts about the board reached by replaying effects. *)
Ltac board_facts :=
  rewrite ?replay_app, ?env_replay, ?wifi_polls_replay, ?count_app,
          ?count_status_wait_events;
  unfold log, count; simpl; try reflexivity; try lia.

Lemma connect_WiFi_runs (dbg : bool) (fuel : nat) (s : board) :
  (20 < fuel)%nat ->
  runs (connect_WiFi dbg fuel) s (connect_events dbg (env s) (wifi_polls s)) tt.
Proof.
  intros Hfuel. unfold connect_WiFi, connect_events. cbv zeta.
  eapply runs_bind; [apply runs_DebugLog |].
  eapply runs_bind; [apply runs_emit |].
  eapply runs_bind;
    [apply wait_connected_runs_at; [| | exact Hfuel];
     destruct dbg; board_facts |].
  eapply runs_bind;
    [apply runs_WiFi_status_at; destruct dbg; board_facts |].
  eapply runs_bind.
  - unfold connect_outcome.
    destruct (is_connected _).
    + eapply runs_bind; [apply runs_DebugLog |].
      eapply runs_bind;
        [apply runs_WiFi_localIP_at; rewrite !replay_app, !env_replay;
         reflexivity |].
      eapply runs_bind; [apply runs_DebugLog |].
      eapply runs_bind; [apply runs_emit |].
      eapply runs_bind; [apply runs_emit |].
      apply runs_DebugLog.
    + eapply runs_bind; [apply runs_DebugLog |]. apply runs_emit.
  - eapply runs_bind; apply runs_emit.
Qed.

Lemma check_WiFi_runs (dbg : bool) (fuel : nat) (s : board) :
  (20 < fuel)%nat ->
  runs (check_WiFi dbg fuel) s (check_events dbg (env s) (wifi_polls s)) tt.
Proof.
  intros Hfuel. unfold check_WiFi, check_events. cbv zeta.
  eapply runs_bind; [apply runs_WiFi_status |].
  destruct (is_connected (wifi_feed (env s) (wifi_polls s))); cbn [negb];
    [apply runs_ret |].
  eapply runs_bind; [apply runs_DebugLog |].
  eapply runs_bind; [apply runs_emit |].
  eapply runs_bind; [apply runs_emit |].
  eapply runs_bind; [apply runs_emit |].
  eapply runs_bind;
    [apply wait_connected_runs_at; [| | exact Hfuel];
     destruct dbg; board_facts |].
  eapply runs_bind;
    [apply runs_WiFi_status_at; destruct dbg; board_facts |].
  eapply runs_bind.
  - unfold reconnect_outcome. destruct (is_connected _);
      (eapply runs_bind; [apply runs_DebugLog |]); apply runs_emit.
  - eapply runs_bind; apply runs_emit.
Qed.

Lemma trace_emit (e : effect) (s : board) : trace (emit e s) = e :: trace s.
Proof. destruct e; reflexivity. Qed.

Lemma trace_replay (es : list effect) :
  forall s : board, trace (replay s es) = rev es ++ trace s.
Proof.
  induction es as [| e es IH]; intros s; [reflexivity |].
  change (replay s (e :: es)) with (replay (emit e s) es).
  rewrite IH, trace_emit. simpl. rewrite <- app_assoc. reflexivity.
Qed.

Lemma runs_exec {A} (m : M A) (s : board) (es : list effect) (a : A) :
  runs m s es a -> exec m s = Some (replay s es).
Proof. unfold runs, exec. intros ->. reflexivity. Qed.

Lemma runs_emitted_by {A} (m : M A) (s : board) (es : list effect) (a : A) :
  runs m (quiet s) es a -> emitted_by m s = es.
Proof.
  unfold runs, emitted_by. intros ->. rewrite trace_replay. simpl.
  rewrite app_nil_r. apply rev_involutive.
Qed.

Lemma leading_failures_le (feed : nat -> wl_status_t) (bound : nat) :
  forall start : nat, (leading_failures feed start bound <= bound)%nat.
Proof.
  induction bound as [| b IH]; intros start; simpl; [lia |].
  destruct (is_connected (feed start)); [lia |].
  specialize (IH (S start)). lia.
Qed.

Lemma leading_failures_before (feed : nat -> wl_status_t) (bound : nat) :
  forall start i : nat,
    (i < leading_failures feed start bound)%nat ->
    is_connected (feed (start + i)%nat) = false.
Proof.
  induction bound as [| b IH]; intros start i Hi; simpl in Hi; [lia |].
  destruct (is_connected (feed start)) eqn:Hc; [lia |].
  destruct i as [| i]; [rewrite Nat.add_0_r; exact Hc |].
  rewrite Nat.add_succ_r. apply (IH (S start) i). lia.
Qed.

Lemma leading_failures_stop (feed : nat -> wl_status_t) (bound : nat) :
  forall start : nat,
    (leading_failures feed start bound < bound)%nat ->
    is_connected (feed (start + leading_failures feed start bound)%nat) = true.
Proof.
  induction bound as [| b IH]; intros start Hlt; simpl in *; [lia |].
  destruct (is_connected (feed start)) eqn:Hc.
  - rewrite Nat.add_0_r. exact Hc.
  - rewrite Nat.add_succ_r. apply (IH (S start)). lia.
Qed.

Lemma leading_failures_all (feed : nat -> wl_status_t) (bound : nat) :
  forall start : nat,
    (forall i : nat, (i < bound)%nat ->
                     is_connected (feed (start + i)%nat) = false) ->
    leading_failures feed start bound = bound.
Proof.
  induction bound as [| b IH]; intros start H; simpl; [reflexivity |].
  rewrite <- (Nat.add_0_r start) at 1. rewrite (H 0%nat) by lia.
  f_equal. apply IH. intros i Hi.
  replace (S start + i)%nat with (start + S i)%nat by lia.
  apply H. lia.
Qed.

Lemma shown_after_outcome (s : board) (front tail : list effect) (c : Z) :
  (forall b : board, pixel_shown (replay b tail) = c) ->
  pixel_shown (replay s (front ++ tail)) = c.
Proof. intros H. rewrite replay_app. apply H. Qed.

Lemma connect_shown (dbg : bool) (s : board) :
  let feed := wifi_feed (env s) in
  let k := leading_failures feed (wifi_polls s) 20 in
  pixel_shown (replay s (connect_events dbg (env s) (wifi_polls s)))
  = if is_connected (feed (wifi_polls s + k + 1)%nat) then green else red.
Proof.
  cbv zeta. unfold connect_events. cbv zeta.
  rewrite !app_assoc. rewrite <- (app_assoc _ _ [E_show]).
  rewrite <- (app_assoc _ _ [E_delay 1000]).
  apply shown_after_outcome. intros b.
  unfold connect_outcome. destruct (is_connected _); destruct dbg;
    vm_compute; reflexivity.
Qed.

Lemma check_shown (dbg : bool) (s : board) :
  let feed := wifi_feed (env s) in
  let k := leading_failures feed (S (wifi_polls s)) 20 in
  is_connected (feed (wifi_polls s)) = false ->
  pixel_shown (replay s (check_events dbg (env s) (wifi_polls s)))
  = if is_connected (feed (S (wifi_polls s) + k + 1)%nat) then green else red.
Proof.
  cbv zeta. intros Hd. unfold check_events. cbv zeta. rewrite Hd. cbn [negb].
  rewrite !app_assoc. rewrite <- (app_assoc _ _ [E_show]).
  rewrite <- (app_assoc _ _ [E_delay 10]).
  apply shown_after_outcome. intros b. clear Hd.
  unfold reconnect_outcome. destruct (is_connected _); destruct dbg;
    vm_compute; reflexivity.
Qed.

Lemma connect_counts (dbg : bool) (w : world) (p0 : nat) :
  count (is_delay 500) (connect_events dbg w p0)
  = leading_failures (wifi_feed w) p0 20
  /\ count is_WiFi_begin (connect_events dbg w p0) = 1%nat.
Proof.
  unfold connect_events, connect_outcome. cbv zeta.
  rewrite !count_app, count_delay_wait_events, count_begin_wait_events.
  destruct (is_connected _); destruct dbg; unfold log, count; simpl; lia.
Qed.

Lemma check_counts (dbg : bool) (w : world) (p0 : nat) :
  is_connected (wifi_feed w p0) = false ->
  count (is_delay 500) (check_events dbg w p0)
  = leading_failures (wifi_feed w) (S p0) 20
  /\ count is_WiFi_begin (check_events dbg w p0) = 1%nat.
Proof.
  intros Hd. unfold check_events, reconnect_outcome. cbv zeta.
  rewrite Hd. cbn [negb]. clear Hd.
  rewrite !count_app, count_delay_wait_events, count_begin_wait_events.
  destruct (is_connected _); destruct dbg; unfold log, count; simpl; lia.
Qed.

(** C7, amended: the wait for the network is bounded, at startup
    ([connect_WiFi], the last part of [setup]) and on disconnect detection
    ([check_WiFi], in [loop]).  With fuel for 21 status polls both return,
    whatever the network answers.  The number of waits of 500 ms equals the
    number [k] of status polls that fail in a row, cut at 20: the wait
    stops at the first poll that reports the connection and never exceeds
    20 rounds.  [WiFi.begin] is called once and not again; [check_WiFi]
    calls it only when its own status check finds the station
    disconnected, and does nothing else otherwise.  After the wait the
    status is polled once more, and that poll alone decides the indicator:
    green when it reports the connection, also after all 20 rounds were
    used, and red otherwise; in particular the indicator ends red when
    none of the status polls of the run reports the connection. *)
Theorem C7_bounded_join_retry (dbg : bool) (fuel : nat) (s : board) :
  (20 < fuel)%nat ->
  let feed := wifi_feed (env s) in
  let p0 := wifi_polls s in
  (let k := leading_failures feed p0 20 in
   let es := emitted_by (connect_WiFi dbg fuel) s in
   exists s' : board,
     exec (connect_WiFi dbg fuel) s = Some s'
     /\ es = connect_events dbg (env s) p0
     /\ count (is_delay 500) es = k
     /\ (k <= 20)%nat
     /\ count is_WiFi_begin es = 1%nat
     /\ (forall i : nat, (i < k)%nat ->
                         is_connected (feed (p0 + i)%nat) = false)
     /\ ((k < 20)%nat -> is_connected (feed (p0 + k)%nat) = true)
     /\ pixel_shown s'
        = (if is_connected (feed (p0 + k + 1)%nat) then green else red)
     /\ ((forall i : nat, (i <= 21)%nat ->
                          is_connected (feed (p0 + i)%nat) = false) ->
         k = 20%nat /\ pixel_shown s' = red))
  /\
  (let k := leading_failures feed (S p0) 20 in
   let es := emitted_by (check_WiFi dbg fuel) s in
   exists s' : board,
     exec (check_WiFi dbg fuel) s = Some s'
     /\ es = check_events dbg (env s) p0
     /\ (is_connected (feed p0) = true -> es = [E_WiFi_status (feed p0)])
     /\ (is_connected (feed p0) = false ->
         count (is_delay 500) es = k
         /\ (k <= 20)%nat
         /\ count is_WiFi_begin es = 1%nat
         /\ (forall i : nat, (i < k)%nat ->
                             is_connected (feed (S p0 + i)%nat) = false)
         /\ ((k < 20)%nat -> is_connected (feed (S p0 + k)%nat) = true)
         /\ pixel_shown s'
            = (if is_connected (feed (S p0 + k + 1)%nat) then green else red)
         /\ ((forall i : nat, (i <= 22)%nat ->
                              is_connected (feed (p0 + i)%nat) = false) ->
             k = 20%nat /\ pixel_shown s' = red))).
Proof.
  intros Hfuel. cbv zeta. split.
  - exists (replay s (connect_events dbg (env s) (wifi_polls s))).
    pose proof (connect_counts dbg (env s) (wifi_polls s)) as [Hd Hb].
    rewrite (runs_emitted_by _ s _ tt (connect_WiFi_runs dbg fuel (quiet s) Hfuel)).
    change (env (quiet s)) with (env s).
    change (wifi_polls (quiet s)) with (wifi_polls s).
    split; [apply (runs_exec _ _ _ tt), connect_WiFi_runs, Hfuel |].
    split; [reflexivity |].
    split; [exact Hd |].
    split; [apply leading_failures_le |].
    split; [exact Hb |].
    split; [apply leading_failures_before |].
    split; [apply leading_failures_stop |].
    split; [apply connect_shown |].
    intros Hall.
    assert (Hk : leading_failures (wifi_feed (env s)) (wifi_polls s) 20
                 = 20%nat)
      by (apply leading_failures_all; intros; apply Hall; lia).
    split; [exact Hk |].
    rewrite connect_shown, Hk, <- Nat.add_assoc, Hall by lia. reflexivity.
  - exists (replay s (check_events dbg (env s) (wifi_polls s))).
    rewrite (runs_emitted_by _ s _ tt (check_WiFi_runs dbg fuel (quiet s) Hfuel)).
    change (env (quiet s)) with (env s).
    change (wifi_polls (quiet s)) with (wifi_polls s).
    split; [apply (runs_exec _ _ _ tt), check_WiFi_runs, Hfuel |].
    split; [reflexivity |].
    split.
    { intros Hc. unfold check_events. cbv zeta. rewrite Hc. reflexivity. }
    intros Hc.
    pose proof (check_counts dbg (env s) (wifi_polls s) Hc) as [Hd Hb].
    split; [exact Hd |].
    split; [apply leading_failures_le |].
    split; [exact Hb |].
    split; [apply leading_failures_before |].
    split; [apply leading_failures_stop |].
    split; [apply check_shown; exact Hc |].
    intros Hall.
    assert (Hk : leading_failures (wifi_feed (env s)) (S (wifi_polls s)) 20
                 = 20%nat).
    { apply leading_failures_all. intros i Hi.
      replace (S (wifi_polls s) + i)%nat with (wifi_polls s + S i)%nat by lia.
      apply Hall. lia. }
    split; [exact Hk |].
    rewrite (check_shown dbg s Hc), Hk.
    replace (S (wifi_polls s) + 20 + 1)%nat with (wifi_polls s + 22)%nat by lia.
    rewrite Hall by lia. reflexivity.
Qed.

Lemma C7_bounded_join_retry_witness :
  (20 < 21)%nat
  /\ (exists s' : board,
         exec (connect_WiFi false 21) (power_on nobody_home) = Some s'
         /\ count (is_delay 500)
                  (emitted_by (connect_WiFi false 21) (power_on nobody_home))
            = 20%nat
         /\ pixel_shown s' = red)
  /\ (exists s' : board,
         exec (connect_WiFi false 21) (power_on (joins_at 3)) = Some s'
         /\ count (is_delay 500)
                  (emitted_by (connect_WiFi false 21) (power_on (joins_at 3)))
            = 3%nat
         /\ pixel_shown s' = green).
Proof.
  split; [lia |]. split.
  - destruct (proj1 (C7_bounded_join_retry false 21 (power_on nobody_home)
                       ltac:(lia)))
      as (s' & Hx & _ & Hd & _ & _ & _ & _ & _ & Hall).
    exists s'. split; [exact Hx |]. split; [exact Hd |].
    apply Hall. intros i _. reflexivity.
  - destruct (proj1 (C7_bounded_join_retry false 21 (power_on (joins_at 3))
                       ltac:(lia)))
      as (s' & Hx & _ & Hd & _ & _ & _ & _ & Hs & _).
    exists s'. split; [exact Hx |]. split; [exact Hd |]. exact Hs.
Defined.

(** C7 as stated fails on its last clause.  When the station reports the
    connection only from the 22nd status poll on, the 20 rounds of the wait
    are all used and the poll that ends the wait still fails, yet the
    status check after the wait finds the connection: the run ends green,
    with the server started, at startup and in [loop] alike. *)
Lemma C7_exhausted_yet_green :
  forallb (fun i => negb (is_connected (wifi_feed (joins_at 21) i)))
          (List.seq 0 21) = true
  /\ is_connected (wifi_feed (joins_at 21) 21) = true
  /\ count (is_delay 500)
           (emitted_by (connect_WiFi false 21) (power_on (joins_at 21)))
     = 20%nat
  /\ option_map pixel_shown
                (exec (connect_WiFi false 21) (power_on (joins_at 21)))
     = Some green
  /\ count Session.is_server_begin
           (emitted_by (connect_WiFi false 21) (power_on (joins_at 21)))
     = 1%nat
  /\ green <> red
  /\ forallb (fun i => negb (is_connected (wifi_feed (joins_at 22) i)))
             (List.seq 0 22) = true
  /\ count (is_delay 500)
           (emitted_by (check_WiFi false 21) (power_on (joins_at 22)))
     = 20%nat
  /\ option_map pixel_shown
                (exec (check_WiFi false 21) (power_on (joins_at 22)))
     = Some green.
Proof.
  repeat match goal with |- _ /\ _ => split end;
    try (vm_compute; reflexivity).
  vm_compute. discriminate.
Qed.

(** ** The client loop and the whole of [setup] and [loop] *)

Lemma runs_stopAllMotors (dbg : bool) (s : board) :
  runs (call (stopAllMotors dbg)) s (stop_events dbg) tt.
Proof. unfold runs, call. destruct dbg; vm_compute; reflexivity. Qed.

Lemma runs_switch_command (dbg : bool) (c : ascii) (s : board) :
  runs (call (switch_command dbg c)) s (command_events dbg c) tt.
Proof.
  unfold runs, call, command_events.
  by_command dbg c; vm_compute; reflexivity.
Qed.

Lemma serve_client_runs (dbg : bool) (cl : client) :
  forall (fuel i : nat) (s : board) (r : client_poll),
    first_answer cl i fuel = Some r ->
    runs (serve_client dbg fuel cl i) s (serve_events dbg (Some r)) tt.
Proof.
  induction fuel as [| fuel IH]; intros i s r Hr; simpl in Hr;
    [discriminate |].
  simpl serve_client. destruct (cl i) as [| | c] eqn:Hcl.
  - injection Hr as <-. apply runs_ret.
  - apply IH. exact Hr.
  - injection Hr as <-. unfold serve_events.
    eapply runs_bind; [apply runs_DebugLog |].
    eapply runs_bind; [apply runs_switch_command |].
    apply runs_emit.
Qed.

Lemma check_clients_runs (dbg : bool) (fuel : nat) (s : board) :
  client_answers (env s) (accepts s) fuel ->
  runs (check_clients dbg fuel) s
       (check_clients_events dbg (env s) (accepts s) fuel) tt.
Proof.
  unfold client_answers, check_clients, check_clients_events. intros H.
  destruct (server_feed (env s) (accepts s)) as [cl |] eqn:Hf.
  - eapply (runs_bind _ _ _ [E_server_available true] _ (Some cl)).
    { unfold runs, server_available. rewrite Hf. reflexivity. }
    cbv beta iota.
    eapply runs_bind; [apply runs_DebugLog |].
    destruct (first_answer cl 0 fuel) as [r |] eqn:Hr; [| congruence].
    eapply runs_bind; [apply serve_client_runs; exact Hr |].
    eapply runs_bind; [apply runs_emit |].
    eapply runs_bind; [apply runs_emit |].
    apply runs_DebugLog.
  - rewrite <- (app_nil_r [E_server_available false]).
    eapply (runs_bind _ _ _ [E_server_available false] _ None).
    { unfold runs, server_available. rewrite Hf. reflexivity. }
    apply runs_ret.
Qed.

Lemma count_status_command_events (dbg : bool) (c : ascii) :
  count is_WiFi_status (command_events dbg c) = 0%nat.
Proof. unfold command_events. by_command dbg c; vm_compute; reflexivity. Qed.

Lemma count_status_check_clients (dbg : bool) (w : world) (a0 fuel : nat) :
  count is_WiFi_status (check_clients_events dbg w a0 fuel) = 0%nat.
Proof.
  unfold check_clients_events.
  destruct (server_feed w a0) as [cl |]; [| reflexivity].
  rewrite !count_app. unfold serve_events.
  destruct (first_answer cl 0 fuel) as [[| | c] |];
    rewrite ?count_app, ?count_status_command_events;
    destruct dbg; reflexivity.
Qed.

Lemma loop_runs (dbg : bool) (fuel : nat) (s : board) :
  (20 < fuel)%nat ->
  client_answers (env s) (accepts s) fuel ->
  runs (loop dbg fuel) s
       (loop_events dbg (env s) (accepts s) (wifi_polls s) fuel) tt.
Proof.
  intros Hfuel Hcl. unfold loop, loop_events.
  eapply runs_bind; [apply check_clients_runs; exact Hcl |].
  eapply runs_bind; [| apply runs_emit].
  pose proof (check_WiFi_runs dbg fuel
                (replay s (check_clients_events dbg (env s) (accepts s) fuel))
                Hfuel) as H.
  rewrite env_replay, wifi_polls_replay, count_status_check_clients,
          Nat.add_0_r in H.
  exact H.
Qed.

Lemma serial_polls_emit (e : effect) (s : board) :
  serial_polls (emit e s)
  = match e with
    | E_Serial_test _ => S (serial_polls s)
    | _ => serial_polls s
    end.
Proof. destruct e; reflexivity. Qed.

Lemma wait_Serial_runs :
  forall (fuel : nat) (s : board),
    (leading_down (serial_feed (env s)) (serial_polls s) fuel < fuel)%nat ->
    runs (wait_Serial fuel) s
         (serial_events
            (leading_down (serial_feed (env s)) (serial_polls s) fuel)) tt.
Proof.
  induction fuel as [| fuel IH]; intros s H; [simpl in H; lia |].
  simpl in H. simpl leading_down. simpl wait_Serial.
  destruct (serial_feed (env s) (serial_polls s)) eqn:Hup.
  - unfold runs, bind, Serial_ready. rewrite Hup. reflexivity.
  - cbn [serial_events].
    eapply (runs_bind _ _ _ [E_Serial_test false] _ false).
    { unfold runs, Serial_ready. rewrite Hup. reflexivity. }
    cbv beta iota.
    eapply runs_bind; [apply runs_emit |].
    pose proof (IH (replay (replay s [E_Serial_test false]) [E_delay 10]))
      as IH'.
    rewrite !env_replay in IH'.
    change (serial_polls
              (replay (replay s [E_Serial_test false]) [E_delay 10]))
      with (S (serial_polls s)) in IH'.
    apply IH'. lia.
Qed.

Lemma setup_runs (dbg : bool) (fuel : nat) (s : board) :
  (20 < fuel)%nat ->
  console_comes_up dbg (env s) (serial_polls s) fuel ->
  runs (setup dbg fuel) s
       (setup_events dbg (env s) (wifi_polls s) (serial_polls s) fuel) tt.
Proof.
  intros Hfuel Hup. unfold setup, setup_events.
  eapply runs_bind.
  { destruct dbg.
    - eapply runs_bind; [apply runs_emit |].
      apply (wait_Serial_runs fuel (replay s [E_Serial_begin 115200])).
      apply Hup. reflexivity.
    - apply runs_ret. }
  eapply runs_bind; [apply runs_DebugLog |].
  do 4 (eapply runs_bind; [apply runs_emit |]).
  eapply runs_bind; [apply runs_DebugLog |].
  do 4 (eapply runs_bind; [apply runs_emit |]).
  eapply runs_bind; [apply runs_stopAllMotors |].
  match goal with
  | |- runs _ ?b _ _ =>
      pose proof (connect_WiFi_runs dbg fuel b Hfuel) as H;
      replace (env b) with (env s) in H by (rewrite ?env_replay; reflexivity);
      replace (wifi_polls b) with (wifi_polls s) in H; [exact H |]
  end.
  rewrite !wifi_polls_replay.
  destruct dbg; unfold count; simpl.
  - assert (Hz : forall j, List.length (filter is_WiFi_status (serial_events j))
                           = 0%nat)
      by (induction j; simpl; auto).
    rewrite Hz. lia.
  - lia.
Qed.

(** ** The actuators between commands *)

Lemma actuators_emit (e : effect) (s : board) :
  is_motor_write e = false -> actuators (emit e s) = actuators s.
Proof.
  destruct e as [ | p v | | | | | | | | | | | | | | ]; try reflexivity.
  destruct p; simpl; intros H; try discriminate H; reflexivity.
Qed.

Lemma actuators_replay (es : list effect) :
  forall s : board,
    motors_untouched es = true -> actuators (replay s es) = actuators s.
Proof.
  induction es as [| e es IH]; intros s H; [reflexivity |].
  simpl in H. apply andb_prop in H. destruct H as [He Hes].
  change (replay s (e :: es)) with (replay (emit e s) es).
  rewrite (IH _ Hes). apply actuators_emit.
  destruct (is_motor_write e); [discriminate He | reflexivity].
Qed.

Lemma motors_untouched_app (es1 es2 : list effect) :
  motors_untouched (es1 ++ es2)
  = motors_untouched es1 && motors_untouched es2.
Proof. apply forallb_app. Qed.

Lemma motors_untouched_wait (dbg : bool) (msg : string)
      (feed : nat -> wl_status_t) (k : nat) :
  forall start : nat,
    motors_untouched (wait_events dbg msg feed start k) = true.
Proof.
  induction k as [| k IH]; intros start; [reflexivity |].
  cbn [wait_events]. rewrite !motors_untouched_app, IH.
  destruct dbg; reflexivity.
Qed.

Lemma motors_untouched_connect (dbg : bool) (w : world) (p0 : nat) :
  motors_untouched (connect_events dbg w p0) = true.
Proof.
  unfold connect_events, connect_outcome. cbv zeta.
  rewrite !motors_untouched_app, motors_untouched_wait.
  destruct (is_connected _); destruct dbg; reflexivity.
Qed.

Lemma motors_untouched_check (dbg : bool) (w : world) (p0 : nat) :
  motors_untouched (check_events dbg w p0) = true.
Proof.
  unfold check_events, reconnect_outcome. cbv zeta.
  destruct (negb _); [| reflexivity].
  rewrite !motors_untouched_app, motors_untouched_wait.
  destruct (is_connected _); destruct dbg; reflexivity.
Qed.

Lemma switch_command_idle (dbg : bool) (c : ascii) (s : board) :
  all_idle (switch_command dbg c s).
Proof. by_command dbg c; vm_compute; reflexivity. Qed.

Lemma command_events_replay (dbg : bool) (c : ascii) (s : board) :
  replay s (command_events dbg c) = switch_command dbg c s.
Proof.
  pose proof (runs_switch_command dbg c s) as H.
  unfold runs, call in H. injection H as H. symmetry. exact H.
Qed.

Lemma check_clients_idle (dbg : bool) (w : world) (a0 fuel : nat) (s : board) :
  all_idle s -> all_idle (replay s (check_clients_events dbg w a0 fuel)).
Proof.
  unfold all_idle, check_clients_events. intros Hs.
  destruct (server_feed w a0) as [cl |]; [| exact Hs].
  unfold serve_events.
  destruct (first_answer cl 0 fuel) as [[| | c] |];
    try (rewrite actuators_replay; [exact Hs | destruct dbg; reflexivity]).
  rewrite !replay_app, command_events_replay.
  rewrite !actuators_replay by (destruct dbg; reflexivity).
  apply switch_command_idle.
Qed.

(** Every turn of [loop] that starts with idle actuators ends with idle
    actuators. *)
Lemma loop_keeps_idle (dbg : bool) (fuel : nat) (s : board) :
  (20 < fuel)%nat ->
  client_answers (env s) (accepts s) fuel ->
  all_idle s ->
  exists s' : board, exec (loop dbg fuel) s = Some s' /\ all_idle s'.
Proof.
  intros Hfuel Hcl Hs.
  exists (replay s (loop_events dbg (env s) (accepts s) (wifi_polls s) fuel)).
  split; [apply (runs_exec _ _ _ tt), loop_runs; assumption |].
  unfold all_idle, loop_events. rewrite !replay_app.
  rewrite (actuators_replay [E_delay 5]) by reflexivity.
  rewrite actuators_replay by apply motors_untouched_check.
  apply check_clients_idle. exact Hs.
Qed.

(** [setup] returns and leaves the actuators idle, whatever the board was
    at reset. *)
Lemma setup_makes_idle (dbg : bool) (fuel : nat) (s : board) :
  (20 < fuel)%nat ->
  console_comes_up dbg (env s) (serial_polls s) fuel ->
  exists s' : board, exec (setup dbg fuel) s = Some s' /\ all_idle s'.
Proof.
  intros Hfuel Hup.
  exists (replay s (setup_events dbg (env s) (wifi_polls s) (serial_polls s)
                                 fuel)).
  split; [apply (runs_exec _ _ _ tt), setup_runs; assumption |].
  unfold all_idle, setup_events. rewrite !replay_app.
  rewrite actuators_replay by apply motors_untouched_connect.
  match goal with |- actuators (replay ?b _) = _ => generalize b end.
  intros b. destruct dbg; vm_compute; reflexivity.
Qed.

(** A turn of [loop] calls [WiFi.begin] only when its status check finds
    the station disconnected, and then once; serving a client never does. *)
Lemma loop_retries_only_when_disconnected
      (dbg : bool) (w : world) (a0 p0 fuel : nat) :
  count is_WiFi_begin (loop_events dbg w a0 p0 fuel)
  = if is_connected (wifi_feed w p0) then 0%nat else 1%nat.
Proof.
  unfold loop_events. rewrite !count_app.
  assert (Hc : count is_WiFi_begin (check_clients_events dbg w a0 fuel)
               = 0%nat).
  { unfold check_clients_events.
    destruct (server_feed w a0) as [cl |]; [| reflexivity].
    rewrite !count_app. unfold serve_events.
    destruct (first_answer cl 0 fuel) as [[| | c] |];
      try (destruct dbg; reflexivity).
    rewrite !count_app.
    assert (Hk : count is_WiFi_begin (command_events dbg c) = 0%nat)
      by (unfold command_events; by_command dbg c; vm_compute; reflexivity).
    rewrite Hk. destruct dbg; reflexivity. }
  rewrite Hc.
  destruct (is_connected (wifi_feed w p0)) eqn:E.
  - unfold check_events. cbv zeta. rewrite E. reflexivity.
  - rewrite (proj2 (check_counts dbg w p0 E)). reflexivity.
Qed.

(** C4: a byte outside '1'..'7' takes the default branch of the switch.
    Its effects on the hardware are those of the idle-all definition: the
    four actuator outputs written low, the idle colour staged and shown;
    no output is written high, the sketch does not block, and from idle
    actuators every board passed through has all actuators idle.  The
    console gets the two diagnostic lines when [debug_mode] is on and
    nothing otherwise.  The command is not fatal: the turn of [loop] that
    reads it returns, closes the connection and leaves the actuators
    idle. *)
Theorem C4_invalid_command_is_idle_all (dbg : bool) (c : ascii) (s : board) :
  is_motion_command c = false ->
  let es := emitted (switch_command dbg c) s in
  resolve c = idle_all
  /\ hardware es = execute idle_all
  /\ hardware es
     = [ E_digitalWrite MOTOR1_PIN LOW; E_digitalWrite MOTOR2_PIN LOW;
         E_digitalWrite MOTOR3_PIN LOW; E_digitalWrite MOTOR4_PIN LOW;
         E_setPixelColor 0 white; E_show ]
  /\ count is_activation es = 0%nat
  /\ timeline s es = []
  /\ (all_idle s -> Forall (fun x => energized x = []) (states_after s es))
  /\ all_idle (switch_command dbg c s)
  /\ printed es
     = (if dbg
        then ["Invalid command received. Stopping all motors."%string;
              "All motors stopped."%string]
        else [])
  /\ (forall (fuel : nat) (cl : client),
        (20 < fuel)%nat ->
        server_feed (env s) (accepts s) = Some cl ->
        first_answer cl 0 fuel = Some (Byte c) ->
        exists s' : board,
          exec (loop dbg fuel) s = Some s'
          /\ all_idle s'
          /\ In E_client_stop (emitted_by (loop dbg fuel) s)
          /\ count is_activation (emitted_by (loop dbg fuel) s) = 0%nat).
Proof.
  intros Hc. cbv zeta.
  split; [apply resolve_default; exact Hc |].
  rewrite (switch_command_default dbg c Hc).
  split; [destruct dbg; vm_compute; reflexivity |].
  split; [destruct dbg; vm_compute; reflexivity |].
  split; [destruct dbg; vm_compute; reflexivity |].
  split; [destruct dbg; vm_compute; reflexivity |].
  split.
  { intros Hs.
    apply (states_after_agree (fun ks => ks = []) _ (calmed s) s
                              (calmed_agree s Hs)).
    destruct dbg; vm_compute; repeat constructor. }
  split; [destruct dbg; vm_compute; reflexivity |].
  split; [destruct dbg; vm_compute; reflexivity |].
  intros fuel cl Hfuel Hfeed Hans.
  assert (Hcl : client_answers (env s) (accepts s) fuel)
    by (unfold client_answers; rewrite Hfeed, Hans; discriminate).
  pose proof (loop_runs dbg fuel (quiet s) Hfuel Hcl) as Hq.
  rewrite (runs_emitted_by _ _ _ _ Hq).
  change (env (quiet s)) with (env s).
  change (accepts (quiet s)) with (accepts s).
  change (wifi_polls (quiet s)) with (wifi_polls s).
  exists (replay s (loop_events dbg (env s) (accepts s) (wifi_polls s) fuel)).
  split; [apply (runs_exec _ _ _ tt), loop_runs; assumption |].
  split.
  { unfold all_idle, loop_events. rewrite !replay_app.
    rewrite (actuators_replay [E_delay 5]) by reflexivity.
    rewrite actuators_replay by apply motors_untouched_check.
    unfold check_clients_events. rewrite Hfeed, Hans. unfold serve_events.
    rewrite !replay_app, command_events_replay.
    rewrite !actuators_replay by (destruct dbg; reflexivity).
    apply switch_command_idle. }
  unfold loop_events, check_clients_events. rewrite Hfeed, Hans.
  unfold serve_events, command_events.
  rewrite (switch_command_default dbg c Hc).
  split.
  - rewrite !in_app_iff. left. do 4 right. left. left. reflexivity.
  - rewrite !count_app.
    assert (Hk : count is_activation
                   (check_events dbg (env s) (wifi_polls s)) = 0%nat).
    { unfold check_events, reconnect_outcome. cbv zeta.
      assert (Hw : forall msg feed k start,
                 count is_activation (wait_events dbg msg feed start k)
                 = 0%nat).
      { induction k as [| k IH]; intros start; [reflexivity |].
        cbn [wait_events]. rewrite !count_app, IH.
        destruct dbg; reflexivity. }
      destruct (negb _); [| reflexivity].
      rewrite !count_app, Hw.
      destruct (is_connected _); destruct dbg; reflexivity. }
    rewrite Hk. destruct dbg; vm_compute; reflexivity.
Qed.

Lemma C4_invalid_command_is_idle_all_witness :
  is_motion_command "9" = false
  /\ hardware (emitted (switch_command false "9") (power_on (sender "9")))
     = execute idle_all
  /\ (exists s' : board,
         exec (loop false 21) (power_on (sender "9")) = Some s'
         /\ all_idle s').
Proof.
  split; [reflexivity |].
  destruct (C4_invalid_command_is_idle_all false "9" (power_on (sender "9"))
              eq_refl)
    as (_ & Hx & _ & _ & _ & _ & _ & _ & Hloop).
  split; [exact Hx |].
  destruct (Hloop 21%nat (fun _ => Byte "9") ltac:(lia) eq_refl eq_refl)
    as (s' & He & Hi & _).
  exists s'. split; [exact He | exact Hi].
Defined.
End WristbandProps.



(* ===================================================================== *)
(** * Properties of the LED-control sketch *)
(* ===================================================================== *)

Module LedCommProps.
Import Arduino LedComm Observe Instances Runs.

Ltac by_byte dbg c :=
  unfold handle_byte, color_command, commanded_colour, verdict;
  destruct (Ascii.eqb c "R");
  [| destruct (Ascii.eqb c "G"); [| destruct (Ascii.eqb c "B")]];
  destruct dbg.

Lemma handle_byte_colour (dbg : bool) (c : ascii) (s : board) :
  pixel_buffer (handle_byte dbg c s) = commanded_colour c (pixel_buffer s)
  /\ pixel_shown (handle_byte dbg c s) = pixel_buffer (handle_byte dbg c s).
Proof. by_byte dbg c; split; vm_compute; reflexivity. Qed.

Lemma handle_byte_printed (dbg : bool) (c : ascii) (s : board) :
  printed (emitted (handle_byte dbg c) s)
  = if dbg then [verdict c; "Color update sent to NeoPixel."%string] else [].
Proof. by_byte dbg c; vm_compute; reflexivity. Qed.

Lemma other_byte (c : ascii) :
  c <> "R"%char -> c <> "G"%char -> c <> "B"%char ->
  Ascii.eqb c "R" = false /\ Ascii.eqb c "G" = false
  /\ Ascii.eqb c "B" = false.
Proof. intros HR HG HB. repeat split; apply Ascii.eqb_neq; assumption. Qed.

(** C8 as stated fails on the warning: with [debug_mode] as the sketch
    sets it, an invalid byte prints nothing. *)
Lemma C8_warning_not_logged :
  printed (emitted (handle_byte debug_mode "X") (power_on (sender "X"))) = []
  /\ serial_out (handle_byte debug_mode "X" (power_on (sender "X"))) = []
  /\ ~ (forall (c : ascii) (s : board),
           c <> "R"%char -> c <> "G"%char -> c <> "B"%char ->
           In "Invalid command."%string
              (printed (emitted (handle_byte debug_mode c) s))).
Proof.
  split; [vm_compute; reflexivity |].
  split; [vm_compute; reflexivity |].
  intros H.
  specialize (H "X"%char (power_on (sender "X"))).
  vm_compute in H. apply H; discriminate.
Qed.

(** C8, amended: 'R' stages and shows red, 'G' green, 'B' blue; any other
    byte writes no colour, so the colour written last stays, and stays on
    the pixel when the pixel showed it.  The new colour is a function of
    the byte and of the colour written last alone, and the effects of a
    byte are the same from every board.  The console gets the verdict
    (for another byte, the warning "Invalid command.") and the update line
    when [debug_mode] is on, and nothing when it is off. *)
Theorem C8_colour_commands (dbg : bool) (c : ascii) (s : board) :
  let s' := handle_byte dbg c s in
  let es := emitted (handle_byte dbg c) s in
  pixel_buffer s' = commanded_colour c (pixel_buffer s)
  /\ pixel_shown s' = pixel_buffer s'
  /\ (rgb (commanded_colour "R" (pixel_buffer s)) = (255, 0, 0)
      /\ rgb (commanded_colour "G" (pixel_buffer s)) = (0, 255, 0)
      /\ rgb (commanded_colour "B" (pixel_buffer s)) = (0, 0, 255))
  /\ (c <> "R"%char -> c <> "G"%char -> c <> "B"%char ->
      pixel_buffer s' = pixel_buffer s
      /\ (in_sync s -> pixel_shown s' = pixel_shown s)
      /\ count is_setPixelColor es = 0%nat
      /\ printed es
         = (if dbg
            then ["Invalid command."%string;
                  "Color update sent to NeoPixel."%string]
            else []))
  /\ printed es
     = (if dbg then [verdict c; "Color update sent to NeoPixel."%string]
        else [])
  /\ (forall s2 : board, emitted (handle_byte dbg c) s2 = es)
  /\ (forall p : pin, gpio s' p = gpio s p).
Proof.
  cbv zeta.
  split; [apply handle_byte_colour |].
  split; [apply handle_byte_colour |].
  split; [repeat split; vm_compute; reflexivity |].
  split.
  { intros HR HG HB. destruct (other_byte c HR HG HB) as (ER & EG & EB).
    unfold handle_byte, color_command, in_sync. rewrite ER, EG, EB.
    repeat split; try (destruct dbg; vm_compute; reflexivity).
    intros Hs. rewrite Hs. destruct dbg; vm_compute; reflexivity. }
  split; [apply handle_byte_printed |].
  split.
  - intros s2. by_byte dbg c; vm_compute; reflexivity.
  - intros p. by_byte dbg c; destruct p; vm_compute; reflexivity.
Qed.

Lemma C8_colour_commands_witness :
  let s := power_on (sender "X") in
  let s' := handle_byte true "X" (handle_byte true "G" s) in
  "X"%char <> "R"%char /\ "X"%char <> "G"%char /\ "X"%char <> "B"%char
  /\ in_sync (handle_byte true "G" s)
  /\ rgb (pixel_shown s') = (0, 255, 0)
  /\ printed (emitted (handle_byte true "X") (handle_byte true "G" s))
     = ["Invalid command."%string; "Color update sent to NeoPixel."%string].
Proof.
  cbv zeta.
  assert (HR : "X"%char <> "R"%char) by discriminate.
  assert (HG : "X"%char <> "G"%char) by discriminate.
  assert (HB : "X"%char <> "B"%char) by discriminate.
  assert (Hs : in_sync (handle_byte true "G" (power_on (sender "X"))))
    by reflexivity.
  destruct (C8_colour_commands true "X"
              (handle_byte true "G" (power_on (sender "X"))))
    as (_ & _ & _ & Hother & _).
  destruct (Hother HR HG HB) as (_ & Hkeep & _ & Hp).
  split; [exact HR |]. split; [exact HG |]. split; [exact HB |].
  split; [exact Hs |].
  split; [rewrite (Hkeep Hs); reflexivity | exact Hp].
Defined.

(** ** The pixel is in sync whenever a byte is read *)

Lemma triple_bind {A B} (P Q R : board -> Prop) (m : M A) (k : A -> M B) :
  triple P m Q -> (forall a : A, triple Q (k a) R) -> triple P (bind m k) R.
Proof.
  unfold triple, bind. intros Hm Hk s b s' HP H.
  destruct (m s) as [[a s1] |] eqn:E; [| discriminate].
  exact (Hk a s1 b s' (Hm s a s1 HP E) H).
Qed.

Lemma triple_ret {A} (P : board -> Prop) (a : A) : triple P (ret a) P.
Proof. unfold triple, ret. intros s b s' HP H. congruence. Qed.

Lemma triple_call (P Q : board -> Prop) (p : proc) :
  (forall s : board, P s -> Q (p s)) -> triple P (call p) Q.
Proof.
  unfold triple, call. intros Hp s b s' HP H.
  injection H as _ <-. apply Hp, HP.
Qed.

Lemma triple_weaken {A} (P P' Q : board -> Prop) (m : M A) :
  (forall s : board, P s -> P' s) -> triple P' m Q -> triple P m Q.
Proof. unfold triple. intros HP H s a s' Hs. apply H, HP, Hs. Qed.

Lemma in_sync_DebugLog (dbg : bool) (msg : string) (s : board) :
  in_sync s -> in_sync (DebugLog dbg msg s).
Proof. unfold in_sync. destruct dbg; intros H; exact H. Qed.

Lemma in_sync_status : triple in_sync WiFi_status in_sync.
Proof.
  unfold triple, WiFi_status, in_sync. intros s a s' H E.
  injection E as _ <-. exact H.
Qed.

Lemma in_sync_wait (dbg : bool) (msg : string) :
  forall (fuel : nat) (a : Z),
    triple in_sync (wait_connected dbg fuel msg a) in_sync.
Proof.
  induction fuel as [| fuel IH]; intros a; [intros s x s' _ H; discriminate |].
  simpl wait_connected.
  eapply (triple_bind _ in_sync); [apply in_sync_status |]. intros st.
  destruct (negb (is_connected st) && (a <? max_attempts))%bool;
    [| apply triple_ret].
  eapply (triple_bind _ anything);
    [apply triple_call; intros s H; exact I |]. intros _.
  eapply (triple_bind _ in_sync);
    [apply triple_call; intros s _; reflexivity |]. intros _.
  eapply (triple_bind _ in_sync);
    [apply triple_call; intros s; apply in_sync_DebugLog |]. intros _.
  eapply (triple_bind _ in_sync); [apply triple_call; intros s H; exact H |]. intros _.
  apply IH.
Qed.

Lemma show_then_delay (P : board -> Prop) (d : Z) :
  triple P (bind (call pixel_show) (fun _ => call (delay d))) in_sync.
Proof.
  unfold triple, bind, call. intros s a s' _ H. injection H as _ <-.
  reflexivity.
Qed.

Lemma handle_byte_in_sync (dbg : bool) (c : ascii) (s : board) :
  in_sync (handle_byte dbg c s).
Proof. apply handle_byte_colour. Qed.

Lemma in_sync_serve (dbg : bool) (cl : client) :
  forall fuel i : nat, triple in_sync (serve_client dbg fuel cl i) in_sync.
Proof.
  induction fuel as [| fuel IH]; intros i; [intros s x s' _ H; discriminate |].
  simpl serve_client. destruct (cl i) as [| | c].
  - apply triple_ret.
  - apply IH.
  - apply triple_call. intros s _. apply handle_byte_in_sync.
Qed.

(** After [setup] the pixel shows the colour written last, and every turn
    of [loop] keeps it so: when a byte is read, the pixel is in sync. *)
Lemma setup_in_sync (dbg : bool) (fuel : nat) :
  triple anything (setup dbg fuel) in_sync.
Proof.
  unfold setup.
  repeat first
    [ apply show_then_delay
    | eapply (triple_bind _ anything);
      [intros ? ? ? _ _; exact I | intros ?; cbv beta] ].
Qed.

Lemma loop_in_sync (dbg : bool) (fuel : nat) :
  triple in_sync (loop dbg fuel) in_sync.
Proof.
  unfold loop.
  eapply (triple_bind _ in_sync).
  { unfold triple, server_available. intros s a s' H E.
    injection E as _ <-. exact H. }
  intros incoming.
  eapply (triple_bind _ in_sync).
  { destruct incoming as [cl |]; [| apply triple_ret].
    eapply (triple_bind _ in_sync);
      [apply triple_call; intros s; apply in_sync_DebugLog |]. intros _.
    eapply (triple_bind _ in_sync); [apply in_sync_serve |]. intros _.
    eapply (triple_bind _ in_sync); [apply triple_call; intros s H; exact H |]. intros _.
    eapply (triple_bind _ in_sync); [apply triple_call; intros s H; exact H |]. intros _.
    apply triple_call; intros s; apply in_sync_DebugLog. }
  intros _.
  eapply (triple_bind _ in_sync); [apply in_sync_status |]. intros st.
  eapply (triple_bind _ in_sync);
    [| intros _; apply triple_call; intros s H; exact H].
  destruct (negb (is_connected st)); [| apply triple_ret].
  repeat first
    [ apply show_then_delay
    | eapply (triple_bind _ anything);
      [intros ? ? ? _ _; exact I | intros ?; cbv beta] ].
Qed.

End LedCommProps.

(* ===================================================================== *)
(** * The wristband sketch from reset on *)
(* ===================================================================== *)

Module SessionProps.
Import Arduino Wristband Observe MotionTable Instances Runs Session.
Import WristbandProps.

(** ** Frames: what a list of effects leaves alone *)

Lemma replay_tail (P : board -> Prop) (s : board) (front tail : list effect) :
  (forall b : board, P (replay b tail)) -> P (replay s (front ++ tail)).
Proof. intros H. rewrite replay_app. apply H. Qed.

Lemma settings_emit (e : effect) (s : board) :
  keeps_settings e = true ->
  gpio (emit e s) = gpio s /\ pixel_brightness (emit e s) = pixel_brightness s.
Proof. destruct e; simpl; intros H; try discriminate H; split; reflexivity. Qed.

Lemma settings_replay (es : list effect) :
  forall s : board,
    forallb keeps_settings es = true ->
    gpio (replay s es) = gpio s
    /\ pixel_brightness (replay s es) = pixel_brightness s.
Proof.
  induction es as [| e es IH]; intros s H; [split; reflexivity |].
  simpl in H. apply andb_prop in H. destruct H as [He Hes].
  change (replay s (e :: es)) with (replay (emit e s) es).
  destruct (IH (emit e s) Hes) as [Hg Hb].
  destruct (settings_emit e s He) as [Hg' Hb'].
  split; congruence.
Qed.

Lemma pixel_emit (e : effect) (s : board) :
  keeps_pixel e = true ->
  pixel_buffer (emit e s) = pixel_buffer s
  /\ pixel_shown (emit e s) = pixel_shown s.
Proof. destruct e; simpl; intros H; try discriminate H; split; reflexivity. Qed.

Lemma pixel_replay (es : list effect) :
  forall s : board,
    forallb keeps_pixel es = true ->
    pixel_buffer (replay s es) = pixel_buffer s
    /\ pixel_shown (replay s es) = pixel_shown s.
Proof.
  induction es as [| e es IH]; intros s H; [split; reflexivity |].
  simpl in H. apply andb_prop in H. destruct H as [He Hes].
  change (replay s (e :: es)) with (replay (emit e s) es).
  destruct (IH (emit e s) Hes) as [Hg Hb].
  destruct (pixel_emit e s He) as [Hg' Hb'].
  split; congruence.
Qed.

Lemma keeps_settings_wait (dbg : bool) (msg : string)
      (feed : nat -> wl_status_t) (k : nat) :
  forall start : nat,
    forallb keeps_settings (wait_events dbg msg feed start k) = true.
Proof.
  induction k as [| k IH]; intros start; [reflexivity |].
  cbn [wait_events]. rewrite !forallb_app, IH. destruct dbg; reflexivity.
Qed.

Lemma keeps_settings_connect (dbg : bool) (w : world) (p0 : nat) :
  forallb keeps_settings (connect_events dbg w p0) = true.
Proof.
  unfold connect_events, connect_outcome. cbv zeta.
  rewrite !forallb_app, keeps_settings_wait.
  destruct (is_connected _); destruct dbg; reflexivity.
Qed.

Lemma keeps_settings_check (dbg : bool) (w : world) (p0 : nat) :
  forallb keeps_settings (check_events dbg w p0) = true.
Proof.
  unfold check_events, reconnect_outcome. cbv zeta.
  destruct (negb _); [| reflexivity].
  rewrite !forallb_app, keeps_settings_wait.
  destruct (is_connected _); destruct dbg; reflexivity.
Qed.

Lemma keeps_settings_serial (j : nat) :
  forallb keeps_settings (serial_events j) = true.
Proof. induction j as [| j IH]; [reflexivity |]. simpl. exact IH. Qed.

Lemma connect_in_sync (dbg : bool) (w : world) (p0 : nat) (s : board) :
  in_sync (replay s (connect_events dbg w p0)).
Proof.
  unfold connect_events. cbv zeta. rewrite !app_assoc.
  rewrite <- (app_assoc _ [E_show]).
  apply (replay_tail in_sync). intros b. reflexivity.
Qed.

Lemma check_in_sync (dbg : bool) (w : world) (p0 : nat) (s : board) :
  in_sync s -> in_sync (replay s (check_events dbg w p0)).
Proof.
  intros Hs. unfold check_events. cbv zeta.
  destruct (negb _).
  - rewrite !app_assoc. rewrite <- (app_assoc _ [E_show]).
    apply (replay_tail in_sync). intros b. reflexivity.
  - unfold in_sync in *. simpl. exact Hs.
Qed.

Lemma pixel_shown_after (es : list effect) (b : board) :
  forallb keeps_pixel es = true -> pixel_shown (replay b es) = pixel_shown b.
Proof. intros H. apply (pixel_replay es b H). Qed.

(** ** The board between two turns *)

Lemma ready_of_settings (s b : board) :
  gpio b = gpio s -> pixel_brightness b = pixel_brightness s ->
  in_sync b -> wristband_ready s -> wristband_ready b.
Proof.
  unfold wristband_ready, all_idle, actuators.
  intros Hg Hb Hsync (Hi & Hp & Hbr & _). rewrite Hg, Hb. auto.
Qed.

Lemma ready_inert (es : list effect) (s : board) :
  forallb keeps_settings es = true -> forallb keeps_pixel es = true ->
  wristband_ready s -> wristband_ready (replay s es).
Proof.
  intros H1 H2 Hs.
  destruct (settings_replay es s H1) as [Hg Hb].
  destruct (pixel_replay es s H2) as [Hpb Hps].
  apply (ready_of_settings s); try assumption.
  unfold in_sync. rewrite Hpb, Hps. apply Hs.
Qed.

Lemma switch_command_ready (dbg : bool) (c : ascii) (s : board) :
  wristband_ready s -> wristband_ready (switch_command dbg c s).
Proof.
  intros (Hi & Hp & Hb & _). unfold wristband_ready.
  split; [apply switch_command_idle |].
  rewrite <- Hp, <- Hb.
  by_command dbg c; repeat split; vm_compute; reflexivity.
Qed.

Lemma check_clients_ready (dbg : bool) (w : world) (a0 fuel : nat) (s : board) :
  wristband_ready s ->
  wristband_ready (replay s (check_clients_events dbg w a0 fuel)).
Proof.
  intros Hs. unfold check_clients_events.
  destruct (server_feed w a0) as [cl |];
    [| apply ready_inert; [reflexivity | reflexivity | exact Hs]].
  unfold serve_events.
  destruct (first_answer cl 0 fuel) as [[| | c] |];
    try (apply ready_inert; [destruct dbg; reflexivity ..| exact Hs]).
  rewrite !replay_app, command_events_replay.
  repeat (apply ready_inert; [destruct dbg; reflexivity ..|]).
  apply switch_command_ready.
  repeat (apply ready_inert; [destruct dbg; reflexivity ..|]).
  exact Hs.
Qed.

Lemma check_ready (dbg : bool) (w : world) (p0 : nat) (s : board) :
  wristband_ready s -> wristband_ready (replay s (check_events dbg w p0)).
Proof.
  intros Hs.
  destruct (settings_replay _ s (keeps_settings_check dbg w p0)) as [Hg Hb].
  apply (ready_of_settings s); try assumption.
  apply check_in_sync, Hs.
Qed.

Lemma loop_ready (dbg : bool) (w : world) (a0 p0 fuel : nat) (s : board) :
  wristband_ready s ->
  wristband_ready (replay s (loop_events dbg w a0 p0 fuel)).
Proof.
  intros Hs. unfold loop_events. rewrite !replay_app.
  apply ready_inert; [reflexivity | reflexivity |].
  apply check_ready, check_clients_ready, Hs.
Qed.

Lemma setup_ready (dbg : bool) (w : world) (p0 q0 fuel : nat) (s : board) :
  wristband_ready (replay s (setup_events dbg w p0 q0 fuel)).
Proof.
  unfold setup_events. rewrite !replay_app.
  match goal with
  | |- wristband_ready (replay ?b (connect_events _ _ _)) =>
      destruct (settings_replay _ b (keeps_settings_connect dbg w p0))
        as [Hg Hb];
      assert (Hr : all_idle b /\ gpio b NEOPIXEL_POWER = HIGH
                   /\ pixel_brightness b = 50)
  end.
  { match goal with
    | |- context [replay s ?front] => generalize (replay s front)
    end.
    intros b. destruct dbg; repeat split; vm_compute; reflexivity. }
  destruct Hr as (Hi & Hp & Hbr).
  unfold wristband_ready, all_idle, actuators in *.
  rewrite Hg, Hb. repeat split; try assumption.
  apply connect_in_sync.
Qed.

Lemma exec_bind {A B} (m : M A) (k : A -> M B) (s s1 : board) (a : A) :
  m s = Some (a, s1) -> exec (bind m k) s = exec (k a) s1.
Proof. unfold exec, bind. intros ->. reflexivity. Qed.

Lemma accepts_irrelevant (w : world) (fuel : nat) :
  clients_answer w fuel -> forall a0 : nat, client_answers w a0 fuel.
Proof. intros H a0. apply H. Qed.

Lemma turns_ready (dbg : bool) (fuel : nat) :
  (20 < fuel)%nat ->
  forall (n : nat) (s : board),
    clients_answer (env s) fuel ->
    wristband_ready s ->
    exists s' : board,
      exec (turns (loop dbg fuel) n) s = Some s'
      /\ wristband_ready s' /\ env s' = env s.
Proof.
  intros Hfuel. induction n as [| n IH]; intros s Hcl Hs.
  - exists s. split; [reflexivity | split; [exact Hs | reflexivity]].
  - pose proof (loop_runs dbg fuel s Hfuel (Hcl (accepts s))) as Hrun.
    set (s1 := replay s (loop_events dbg (env s) (accepts s) (wifi_polls s)
                                     fuel)) in *.
    assert (He : env s1 = env s) by apply env_replay.
    destruct (IH s1) as (s' & Hx & Hr & He').
    + rewrite He. exact Hcl.
    + apply loop_ready, Hs.
    + exists s'. split; [| split; [exact Hr | congruence]].
      cbn [turns]. rewrite (exec_bind _ _ _ _ _ Hrun). exact Hx.
Qed.

(** X1: [setup] returns, from whatever state the board is in at reset, and
    leaves it ready: the four actuators idle, the NeoPixel power pin high,
    the brightness 50, and the pixel showing the colour written last.  With
    [debug_mode] on this needs the console to come up. *)
Theorem X1_setup_leaves_board_ready (dbg : bool) (fuel : nat) (s : board) :
  (20 < fuel)%nat ->
  console_comes_up dbg (env s) (serial_polls s) fuel ->
  exists s' : board,
    exec (setup dbg fuel) s = Some s'
    /\ all_idle s'
    /\ gpio s' NEOPIXEL_POWER = HIGH
    /\ pixel_brightness s' = 50
    /\ pixel_shown s' = pixel_buffer s'
    /\ env s' = env s.
Proof.
  intros Hfuel Hup.
  exists (replay s (setup_events dbg (env s) (wifi_polls s) (serial_polls s)
                                 fuel)).
  split; [apply (runs_exec _ _ _ tt), setup_runs; assumption |].
  destruct (setup_ready dbg (env s) (wifi_polls s) (serial_polls s) fuel s)
    as (Hi & Hp & Hb & Hsync).
  repeat split; try assumption. apply env_replay.
Qed.

Lemma X1_setup_leaves_board_ready_witness :
  (20 < 21)%nat
  /\ console_comes_up true (env (motor2_stuck nobody_home))
                      (serial_polls (motor2_stuck nobody_home)) 21
  /\ actuators (motor2_stuck nobody_home) = [LOW; HIGH; LOW; LOW]
  /\ exists s' : board,
       exec (setup true 21) (motor2_stuck nobody_home) = Some s'
       /\ all_idle s'
       /\ gpio s' NEOPIXEL_POWER = HIGH
       /\ pixel_brightness s' = 50
       /\ pixel_shown s' = pixel_buffer s'
       /\ env s' = env (motor2_stuck nobody_home).
Proof.
  assert (Hup : console_comes_up true (env (motor2_stuck nobody_home))
                  (serial_polls (motor2_stuck nobody_home)) 21)
    by (intros _; simpl; lia).
  split; [lia |]. split; [exact Hup |]. split; [reflexivity |].
  apply (X1_setup_leaves_board_ready true 21 (motor2_stuck nobody_home));
    [lia | exact Hup].
Defined.

(** X2: the board is ready after [setup] and after every later turn of
    [loop], as long as each client that connects sends a byte or leaves:
    between two turns the actuators are idle, the NeoPixel power pin is
    high, the brightness is 50 and the pixel shows the colour written
    last. *)
Theorem X2_board_ready_between_turns
        (dbg : bool) (fuel n : nat) (s : board) :
  (20 < fuel)%nat ->
  console_comes_up dbg (env s) (serial_polls s) fuel ->
  clients_answer (env s) fuel ->
  exists s' : board,
    exec (sketch (setup dbg fuel) (loop dbg fuel) n) s = Some s'
    /\ wristband_ready s'.
Proof.
  intros Hfuel Hup Hcl.
  pose proof (setup_runs dbg fuel s Hfuel Hup) as Hrun.
  set (s1 := replay s (setup_events dbg (env s) (wifi_polls s)
                                    (serial_polls s) fuel)) in *.
  destruct (turns_ready dbg fuel Hfuel n s1) as (s' & Hx & Hr & _).
  - unfold s1. rewrite env_replay. exact Hcl.
  - apply setup_ready.
  - exists s'. split; [| exact Hr].
    unfold sketch. rewrite (exec_bind _ _ _ _ _ Hrun). exact Hx.
Qed.

Lemma X2_board_ready_between_turns_witness :
  (20 < 21)%nat
  /\ console_comes_up false (env (motor2_stuck (sender "5")))
                      (serial_polls (motor2_stuck (sender "5"))) 21
  /\ clients_answer (env (motor2_stuck (sender "5"))) 21
  /\ exists s' : board,
       exec (sketch (setup false 21) (loop false 21) 3)
            (motor2_stuck (sender "5")) = Some s'
       /\ wristband_ready s'.
Proof.
  assert (Hup : console_comes_up false (env (motor2_stuck (sender "5")))
                  (serial_polls (motor2_stuck (sender "5"))) 21)
    by (intros H; discriminate H).
  assert (Hcl : clients_answer (env (motor2_stuck (sender "5"))) 21)
    by (intros a0; simpl; discriminate).
  split; [lia |]. split; [exact Hup |]. split; [exact Hcl |].
  apply (X2_board_ready_between_turns false 21 3 (motor2_stuck (sender "5")));
    [lia | exact Hup | exact Hcl].
Defined.

(** ** Loops without a bound *)

Lemma wait_Serial_never :
  forall (fuel : nat) (s : board),
    (forall i : nat, serial_feed (env s) (serial_polls s + i)%nat = false) ->
    wait_Serial fuel s = None.
Proof.
  induction fuel as [| fuel IH]; intros s H; [reflexivity |].
  simpl wait_Serial. unfold bind at 1. unfold Serial_ready.
  pose proof (H 0%nat) as H0. rewrite Nat.add_0_r in H0. rewrite H0.
  unfold bind, call. apply IH. intros i.
  change (env (delay 10 (emit (E_Serial_test false) s))) with (env s).
  change (serial_polls (delay 10 (emit (E_Serial_test false) s)))
    with (S (serial_polls s)).
  replace (S (serial_polls s) + i)%nat with (serial_polls s + S i)%nat by lia.
  apply H.
Qed.

(** X3: with [debug_mode] on, [setup] waits for the serial console without
    a bound: if the console never comes up, neither the wait nor [setup]
    returns, however much fuel is given. *)
Theorem X3_setup_hangs_without_console (fuel : nat) (s : board) :
  (forall i : nat, serial_feed (env s) (serial_polls s + i)%nat = false) ->
  setup true fuel s = None
  /\ wait_Serial fuel (Serial_begin 115200 s) = None.
Proof.
  intros H.
  assert (Hw : wait_Serial fuel (Serial_begin 115200 s) = None)
    by (apply wait_Serial_never; exact H).
  split; [| exact Hw].
  unfold setup. unfold bind at 1. unfold bind at 1. unfold call at 1.
  rewrite Hw. reflexivity.
Qed.

Lemma X3_setup_hangs_without_console_witness :
  (forall i : nat,
      serial_feed (env (power_on deaf_console))
                  (serial_polls (power_on deaf_console) + i)%nat = false)
  /\ setup true 1000 (power_on deaf_console) = None.
Proof.
  assert (H : forall i : nat,
             serial_feed (env (power_on deaf_console))
                         (serial_polls (power_on deaf_console) + i)%nat
             = false) by reflexivity.
  split; [exact H |].
  apply (X3_setup_hangs_without_console 1000 (power_on deaf_console) H).
Defined.

Lemma serve_client_never (dbg : bool) (cl : client) :
  silent cl ->
  forall (fuel i : nat) (s : board), serve_client dbg fuel cl i s = None.
Proof.
  intros Hcl. induction fuel as [| fuel IH]; intros i s; [reflexivity |].
  simpl. rewrite Hcl. apply IH.
Qed.

(** X4: the read loop of [loop] has no timeout: when a client connects and
    neither sends a byte nor leaves, the turn of [loop] does not return,
    however much fuel it is given. *)
Theorem X4_loop_hangs_on_silent_client
        (dbg : bool) (fuel : nat) (s : board) (cl : client) :
  server_feed (env s) (accepts s) = Some cl ->
  silent cl ->
  loop dbg fuel s = None.
Proof.
  intros Hfeed Hcl. unfold loop, check_clients.
  unfold bind at 1. unfold bind at 1. unfold server_available.
  rewrite Hfeed. unfold bind at 1. unfold call at 1. unfold bind at 1.
  rewrite (serve_client_never dbg cl Hcl). reflexivity.
Qed.

Lemma X4_loop_hangs_on_silent_client_witness :
  server_feed (env (power_on mute_client)) (accepts (power_on mute_client))
  = Some (fun _ => Pending)
  /\ silent (fun _ => Pending)
  /\ loop false 1000 (power_on mute_client) = None.
Proof.
  assert (Hs : silent (fun _ => Pending)) by (intros i; reflexivity).
  split; [reflexivity |]. split; [exact Hs |].
  apply (X4_loop_hangs_on_silent_client false 1000 (power_on mute_client)
           (fun _ => Pending) eq_refl Hs).
Defined.

(** ** Counting over the closed forms *)

Lemma count_log (f : effect -> bool) (dbg : bool) (msg : string) :
  (forall m : string, f (E_println m) = false) ->
  count f (log dbg msg) = 0%nat.
Proof. intros H. destruct dbg; unfold log, count; simpl; rewrite ?H; reflexivity. Qed.

Lemma count_wait (f : effect -> bool) (dbg : bool) (msg : string)
      (feed : nat -> wl_status_t) (k : nat) :
  (forall st, f (E_WiFi_status st) = false) ->
  (forall n c, f (E_setPixelColor n c) = false) ->
  f E_show = false ->
  (forall m, f (E_println m) = false) ->
  (forall d, f (E_delay d) = false) ->
  forall start : nat, count f (wait_events dbg msg feed start k) = 0%nat.
Proof.
  intros H1 H2 H3 H4 H5. induction k as [| k IH]; intros start; [reflexivity |].
  cbn [wait_events]. rewrite !count_app, IH, (count_log f dbg msg H4).
  unfold count. simpl. rewrite H1, H2, H3, H5. reflexivity.
Qed.

Lemma count_one (f : effect -> bool) (e : effect) :
  count f [e] = if f e then 1%nat else 0%nat.
Proof. unfold count. simpl. destruct (f e); reflexivity. Qed.

(** Splits a count over [connect_events], [check_events] or the events of
    the client part into counts over single effects. *)
Ltac count_closed :=
  unfold loop_events, setup_events, check_clients_events, serve_events,
         connect_events, connect_outcome, check_events, reconnect_outcome,
         stop_events;
  cbv zeta;
  repeat match goal with
         | |- context [if ?b then _ else _] => destruct b
         | |- context [match ?o with Some _ => _ | None => _ end] => destruct o
         | |- context [match ?p with Gone => _ | Pending => _ | Byte _ => _ end] =>
             destruct p
         end;
  rewrite ?count_app;
  rewrite ?count_wait by (intros; reflexivity);
  rewrite ?count_log by (intros; reflexivity);
  rewrite ?count_one.

Lemma total_delay_app (es1 es2 : list effect) :
  total_delay (es1 ++ es2) = total_delay es1 + total_delay es2.
Proof.
  induction es1 as [| e es1 IH]; [reflexivity |].
  destruct e; simpl; rewrite IH; lia.
Qed.

Lemma total_delay_log (dbg : bool) (msg : string) :
  total_delay (log dbg msg) = 0.
Proof. destruct dbg; reflexivity. Qed.

Lemma total_delay_wait (dbg : bool) (msg : string)
      (feed : nat -> wl_status_t) (k : nat) :
  forall start : nat,
    total_delay (wait_events dbg msg feed start k) = 500 * Z.of_nat k.
Proof.
  induction k as [| k IH]; intros start; [reflexivity |].
  cbn [wait_events]. rewrite !total_delay_app, IH, total_delay_log.
  simpl total_delay. lia.
Qed.

Lemma total_delay_serial (j : nat) :
  total_delay (serial_events j) = 10 * Z.of_nat j.
Proof.
  induction j as [| j IH]; [reflexivity |].
  cbn [serial_events]. rewrite !total_delay_app, IH. simpl total_delay. lia.
Qed.

Lemma total_delay_connect (dbg : bool) (w : world) (p0 : nat) :
  total_delay (connect_events dbg w p0)
  = 500 * Z.of_nat (leading_failures (wifi_feed w) p0 20) + 1000.
Proof.
  unfold connect_events, connect_outcome. cbv zeta.
  rewrite !total_delay_app, total_delay_wait, !total_delay_log.
  destruct (is_connected _);
    rewrite ?total_delay_app, ?total_delay_log; simpl total_delay; lia.
Qed.

Lemma total_delay_check (dbg : bool) (w : world) (p0 : nat) :
  total_delay (check_events dbg w p0)
  = if is_connected (wifi_feed w p0) then 0
    else 500 * Z.of_nat (leading_failures (wifi_feed w) (S p0) 20) + 10.
Proof.
  unfold check_events, reconnect_outcome. cbv zeta.
  destruct (is_connected (wifi_feed w p0)); [reflexivity |]. cbn [negb].
  rewrite !total_delay_app, total_delay_wait, !total_delay_log.
  destruct (is_connected _);
    rewrite ?total_delay_app, ?total_delay_log; simpl total_delay; lia.
Qed.

Lemma command_events_any (dbg : bool) (c : ascii) (s : board) :
  emitted (switch_command dbg c) s = command_events dbg c.
Proof. unfold command_events. by_command dbg c; vm_compute; reflexivity. Qed.

Lemma command_blocking (dbg : bool) (c : ascii) :
  total_delay (command_events dbg c)
  = 280 * Z.of_nat (count (is_delay 200) (command_events dbg c))
  /\ count (is_delay 200) (command_events dbg c)
     = count (is_delay 80) (command_events dbg c)
  /\ 0 <= total_delay (command_events dbg c) <= 1120
  /\ (total_delay (command_events dbg c) = 0 <-> is_motion_command c = false).
Proof.
  unfold command_events.
  destruct (is_motion_command c) eqn:E.
  - assert (Hc := motion_command_cases c E). simpl in Hc.
    split; [destruct dbg; intuition subst; vm_compute; reflexivity |].
    split; [destruct dbg; intuition subst; vm_compute; reflexivity |].
    assert (Hpos : 280 <= total_delay
                            (emitted (switch_command dbg c)
                                     (power_on nobody_home)) <= 1120)
      by (destruct dbg; intuition subst; vm_compute; try split; discriminate).
    split; [lia |]. split; intros H; [lia | discriminate H].
  - rewrite (switch_command_default dbg c E).
    split; [destruct dbg; vm_compute; reflexivity |].
    split; [destruct dbg; vm_compute; reflexivity |].
    assert (Hz : total_delay
                   (emitted
                      (DebugLog dbg
                         "Invalid command received. Stopping all motors.";;
                       stopAllMotors dbg)%proc (power_on nobody_home)) = 0)
      by (destruct dbg; vm_compute; reflexivity).
    rewrite Hz. split; [lia |]. split; intros _; reflexivity.
Qed.

(** ** Turns in closed form *)

Lemma loop_emitted (dbg : bool) (fuel : nat) (s : board) :
  (20 < fuel)%nat ->
  client_answers (env s) (accepts s) fuel ->
  exec (loop dbg fuel) s
  = Some (replay s (loop_events dbg (env s) (accepts s) (wifi_polls s) fuel))
  /\ emitted_by (loop dbg fuel) s
     = loop_events dbg (env s) (accepts s) (wifi_polls s) fuel.
Proof.
  intros Hfuel Hcl. split.
  - apply (runs_exec _ _ _ tt), loop_runs; assumption.
  - apply (runs_emitted_by _ s _ tt (loop_runs dbg fuel (quiet s) Hfuel Hcl)).
Qed.

Lemma setup_emitted (dbg : bool) (fuel : nat) (s : board) :
  (20 < fuel)%nat ->
  console_comes_up dbg (env s) (serial_polls s) fuel ->
  exec (setup dbg fuel) s
  = Some (replay s (setup_events dbg (env s) (wifi_polls s) (serial_polls s)
                                 fuel))
  /\ emitted_by (setup dbg fuel) s
     = setup_events dbg (env s) (wifi_polls s) (serial_polls s) fuel.
Proof.
  intros Hfuel Hup. split.
  - apply (runs_exec _ _ _ tt), setup_runs; assumption.
  - apply (runs_emitted_by _ s _ tt (setup_runs dbg fuel (quiet s) Hfuel Hup)).
Qed.

Lemma filter_none (f : effect -> bool) (es : list effect) :
  count f es = 0%nat -> filter f es = [].
Proof. unfold count. destruct (filter f es); [reflexivity | discriminate]. Qed.

Lemma count_pin_write_command_free (dbg : bool) (w : world) (p0 : nat) :
  count is_pin_write (check_events dbg w p0) = 0%nat.
Proof. count_closed; reflexivity. Qed.

Lemma accepts_replay (es : list effect) :
  forall s : board,
    accepts (replay s es)
    = (accepts s
       + count (fun e => match e with E_server_available _ => true
                                 | _ => false end) es)%nat.
Proof.
  induction es as [| e es IH]; intros s;
    [unfold count; simpl; lia |].
  change (replay s (e :: es)) with (replay (emit e s) es). rewrite IH.
  change (e :: es) with ([e] ++ es). rewrite count_app, count_one.
  destruct e; simpl; lia.
Qed.

(** X5: a turn of [loop] serves one connection at most and runs one
    command at most.  When a client is accepted the connection is stopped
    once, whether the client sent a byte or left without sending; the pin
    writes of the turn are those of the one command read, and there are
    none when no byte was read. *)
Theorem X5_one_command_per_connection (dbg : bool) (fuel : nat) (s : board) :
  (20 < fuel)%nat ->
  client_answers (env s) (accepts s) fuel ->
  let es := emitted_by (loop dbg fuel) s in
  exists s' : board,
    exec (loop dbg fuel) s = Some s'
    /\ accepts s' = S (accepts s)
    /\ match server_feed (env s) (accepts s) with
       | None =>
           count is_client_stop es = 0%nat
           /\ count is_client_flush es = 0%nat
           /\ filter is_pin_write es = []
       | Some cl =>
           count is_client_stop es = 1%nat
           /\ match first_answer cl 0 fuel with
              | Some (Byte c) =>
                  count is_client_flush es = 1%nat
                  /\ filter is_pin_write es
                     = filter is_pin_write (emitted (switch_command dbg c) s)
              | _ =>
                  count is_client_flush es = 0%nat
                  /\ filter is_pin_write es = []
              end
       end.
Proof.
  intros Hfuel Hcl. cbv zeta.
  destruct (loop_emitted dbg fuel s Hfuel Hcl) as [Hx He].
  rewrite He. eexists. split; [exact Hx |].
  split.
  { rewrite accepts_replay. unfold loop_events, check_clients_events.
    assert (Hk : count (fun e => match e with E_server_available _ => true
                                         | _ => false end)
                       (check_events dbg (env s) (wifi_polls s)) = 0%nat)
      by (count_closed; reflexivity).
    destruct (server_feed (env s) (accepts s)) as [cl |].
    - rewrite !count_app, Hk. unfold serve_events.
      destruct (first_answer cl 0 fuel) as [[| | c] |];
        rewrite ?count_app, ?count_log by (intros; reflexivity);
        try (unfold count; simpl; lia).
      assert (Hcmd : count (fun e => match e with E_server_available _ => true
                                             | _ => false end)
                           (command_events dbg c) = 0%nat)
        by (unfold command_events; by_command dbg c; vm_compute; reflexivity).
      rewrite Hcmd. unfold count; simpl; lia.
    - rewrite !count_app, Hk. unfold count; simpl; lia. }
  assert (Hstop : count is_client_stop
                        (check_events dbg (env s) (wifi_polls s)) = 0%nat)
    by (count_closed; reflexivity).
  assert (Hflush : count is_client_flush
                         (check_events dbg (env s) (wifi_polls s)) = 0%nat)
    by (count_closed; reflexivity).
  assert (Hpin : filter is_pin_write
                        (check_events dbg (env s) (wifi_polls s)) = [])
    by (apply filter_none, count_pin_write_command_free).
  unfold loop_events, check_clients_events.
  destruct (server_feed (env s) (accepts s)) as [cl |].
  - unfold serve_events.
    destruct (first_answer cl 0 fuel) as [[| | c] |];
      rewrite ?count_app, ?filter_app, ?Hstop, ?Hflush, ?Hpin,
              ?command_events_any;
      try (destruct dbg; repeat split; reflexivity).
    assert (Hcs : count is_client_stop (command_events dbg c) = 0%nat)
      by (unfold command_events; by_command dbg c; vm_compute; reflexivity).
    assert (Hcf : count is_client_flush (command_events dbg c) = 0%nat)
      by (unfold command_events; by_command dbg c; vm_compute; reflexivity).
    rewrite Hcs, Hcf.
    destruct dbg; repeat split; try reflexivity;
      simpl; rewrite ?app_nil_r; reflexivity.
  - rewrite ?count_app, ?filter_app, ?Hstop, ?Hflush, ?Hpin.
    repeat split; reflexivity.
Qed.

Lemma X5_one_command_per_connection_witness :
  (20 < 21)%nat
  /\ client_answers (env (power_on shy_client)) (accepts (power_on shy_client))
                    21
  /\ exists s' : board,
       exec (loop true 21) (power_on shy_client) = Some s'
       /\ accepts s' = 1%nat
       /\ count is_client_stop (emitted_by (loop true 21) (power_on shy_client))
          = 1%nat
       /\ count is_client_flush
                (emitted_by (loop true 21) (power_on shy_client)) = 0%nat
       /\ filter is_pin_write (emitted_by (loop true 21) (power_on shy_client))
          = [].
Proof.
  assert (Hcl : client_answers (env (power_on shy_client))
                               (accepts (power_on shy_client)) 21)
    by (simpl; discriminate).
  split; [lia |]. split; [exact Hcl |].
  destruct (X5_one_command_per_connection true 21 (power_on shy_client)
              ltac:(lia) Hcl) as (s' & Hx & Ha & Hs & Hf & Hp).
  exists s'. repeat split; assumption.
Defined.

(** X6: how long a command blocks.  Every on-phase of 200 ms is paired
    with an off-phase of 80 ms, so a command blocks for 280 ms per
    on-phase, 1120 ms at most, and an invalid byte does not block at
    all. *)
Theorem X6_command_blocking_time (dbg : bool) (c : ascii) (s : board) :
  let es := emitted (switch_command dbg c) s in
  total_delay es = 280 * Z.of_nat (count (is_delay 200) es)
  /\ count (is_delay 200) es = count (is_delay 80) es
  /\ count (is_delay 200) es
     = List.length (filter is_on_phase (timeline s es))
  /\ 0 <= total_delay es <= 1120
  /\ (total_delay es = 0 <-> is_motion_command c = false).
Proof.
  cbv zeta.
  destruct (command_blocking dbg c) as (H1 & H2 & H3 & H4).
  split; [rewrite command_events_any; exact H1 |].
  split; [rewrite command_events_any; exact H2 |].
  split; [| rewrite command_events_any; split; assumption].
  by_command dbg c; vm_compute; reflexivity.
Qed.

(** X7: the time a turn of [loop] spends in [delay].  In a turn that
    returns (the client accepted, if any, sends a byte or leaves) the
    calls of [delay] add up to 5 ms at least and 11145 ms at most: 10 ms
    and one command for a client, 20 waits of 500 ms and 10 ms for a
    reconnection, 5 ms at the end.  The wait for the client's byte has no
    [delay] and is not counted; it has no bound (X4).  With no client
    waiting and the station connected the turn polls the server and the
    status, waits 5 ms, and does nothing else. *)
Theorem X7_turn_delay_time (dbg : bool) (fuel : nat) (s : board) :
  (20 < fuel)%nat ->
  client_answers (env s) (accepts s) fuel ->
  let es := emitted_by (loop dbg fuel) s in
  5 <= total_delay es <= 11145
  /\ (server_feed (env s) (accepts s) = None ->
      is_connected (wifi_feed (env s) (wifi_polls s)) = true ->
      es = [ E_server_available false;
             E_WiFi_status (wifi_feed (env s) (wifi_polls s));
             E_delay 5 ]).
Proof.
  intros Hfuel Hcl. cbv zeta.
  destruct (loop_emitted dbg fuel s Hfuel Hcl) as [_ He]. rewrite He.
  split.
  - unfold loop_events. rewrite !total_delay_app, total_delay_check.
    pose proof (leading_failures_le (wifi_feed (env s)) 20
                                    (S (wifi_polls s))) as Hk.
    assert (Hc : 0 <= total_delay
                        (check_clients_events dbg (env s) (accepts s) fuel)
                   <= 1130).
    { unfold check_clients_events.
      destruct (server_feed (env s) (accepts s)) as [cl |];
        [| simpl; lia].
      rewrite !total_delay_app, !total_delay_log. unfold serve_events.
      destruct (first_answer cl 0 fuel) as [[| | c] |];
        try (simpl; lia).
      rewrite !total_delay_app, total_delay_log.
      destruct (command_blocking dbg c) as (_ & _ & Hb & _).
      simpl total_delay. lia. }
    simpl total_delay.
    destruct (is_connected (wifi_feed (env s) (wifi_polls s))); lia.
  - intros Hnone Hconn. unfold loop_events, check_clients_events, check_events.
    cbv zeta. rewrite Hnone, Hconn. reflexivity.
Qed.

Lemma X7_turn_delay_time_witness :
  (20 < 21)%nat
  /\ client_answers (env (power_on (sender "5"))) (accepts (power_on (sender "5")))
                    21
  /\ 5 <= total_delay (emitted_by (loop false 21) (power_on (sender "5")))
     <= 11145
  /\ total_delay (emitted_by (loop false 21) (power_on (sender "5"))) = 1135.
Proof.
  assert (Hcl : client_answers (env (power_on (sender "5")))
                               (accepts (power_on (sender "5"))) 21)
    by (simpl; discriminate).
  split; [lia |]. split; [exact Hcl |].
  split; [| vm_compute; reflexivity].
  apply (X7_turn_delay_time false 21 (power_on (sender "5")) ltac:(lia) Hcl).
Defined.

(** X8: how long [setup] blocks and how often it polls the station: 10 ms
    per failed test of the console (with [debug_mode] on), 500 ms per
    failed status poll of the join, 20 of them at most, and 1000 ms at the
    end; the status is polled once more than there are waits, and once
    again for the outcome.  With [debug_mode] off [setup] blocks for
    11000 ms at most. *)
Theorem X8_setup_blocking_time (dbg : bool) (fuel : nat) (s : board) :
  (20 < fuel)%nat ->
  console_comes_up dbg (env s) (serial_polls s) fuel ->
  let es := emitted_by (setup dbg fuel) s in
  let k := leading_failures (wifi_feed (env s)) (wifi_polls s) 20 in
  let j := if dbg
           then leading_down (serial_feed (env s)) (serial_polls s) fuel
           else 0%nat in
  total_delay es = 10 * Z.of_nat j + 500 * Z.of_nat k + 1000
  /\ count is_WiFi_status es = (k + 2)%nat
  /\ (k <= 20)%nat
  /\ (dbg = false -> 1000 <= total_delay es <= 11000).
Proof.
  intros Hfuel Hup. cbv zeta.
  destruct (setup_emitted dbg fuel s Hfuel Hup) as [_ He]. rewrite He.
  pose proof (leading_failures_le (wifi_feed (env s)) 20 (wifi_polls s))
    as Hk.
  assert (Ht : total_delay
                 (setup_events dbg (env s) (wifi_polls s) (serial_polls s)
                               fuel)
               = 10 * Z.of_nat
                        (if dbg
                         then leading_down (serial_feed (env s))
                                           (serial_polls s) fuel
                         else 0%nat)
                 + 500 * Z.of_nat
                           (leading_failures (wifi_feed (env s))
                                             (wifi_polls s) 20)
                 + 1000).
  { unfold setup_events, stop_events.
    rewrite !total_delay_app, total_delay_connect, !total_delay_log.
    destruct dbg.
    - rewrite total_delay_app, total_delay_serial. simpl total_delay. lia.
    - simpl total_delay. lia. }
  split; [exact Ht |].
  split.
  { unfold setup_events, stop_events, connect_events, connect_outcome.
    cbv zeta. rewrite !count_app, count_status_wait_events.
    assert (Hs : forall j, count is_WiFi_status (serial_events j) = 0%nat)
      by (induction j as [| j IH]; [reflexivity |];
          cbn [serial_events]; rewrite !count_app, IH; reflexivity).
    destruct (is_connected _); destruct dbg;
      rewrite ?count_app, ?Hs; unfold log, count; simpl; lia. }
  split; [exact Hk |].
  intros ->. rewrite Ht. lia.
Qed.

Lemma X8_setup_blocking_time_witness :
  (20 < 21)%nat
  /\ console_comes_up false (env (power_on (joins_at 3)))
                      (serial_polls (power_on (joins_at 3))) 21
  /\ total_delay (emitted_by (setup false 21) (power_on (joins_at 3))) = 2500
  /\ count is_WiFi_status (emitted_by (setup false 21) (power_on (joins_at 3)))
     = 5%nat.
Proof.
  assert (Hup : console_comes_up false (env (power_on (joins_at 3)))
                                 (serial_polls (power_on (joins_at 3))) 21)
    by (intros H; discriminate H).
  split; [lia |]. split; [exact Hup |].
  destruct (X8_setup_blocking_time false 21 (power_on (joins_at 3))
              ltac:(lia) Hup) as (Ht & Hc & _).
  split; [rewrite Ht; reflexivity | rewrite Hc; reflexivity].
Defined.

(** X9: the server is started in [setup] only, and only when the join
    succeeded: [setup] calls [server.begin] once if its final status check
    reports the connection and not at all otherwise, and no turn of [loop]
    calls it, whether it reconnects or not. *)
Theorem X9_server_started_only_at_startup
        (dbg : bool) (fuel : nat) (s : board) :
  (20 < fuel)%nat ->
  console_comes_up dbg (env s) (serial_polls s) fuel ->
  client_answers (env s) (accepts s) fuel ->
  let feed := wifi_feed (env s) in
  let k := leading_failures feed (wifi_polls s) 20 in
  count is_server_begin (emitted_by (setup dbg fuel) s)
  = (if is_connected (feed (wifi_polls s + k + 1)%nat) then 1%nat else 0%nat)
  /\ count is_server_begin (emitted_by (loop dbg fuel) s) = 0%nat.
Proof.
  intros Hfuel Hup Hcl. cbv zeta.
  destruct (setup_emitted dbg fuel s Hfuel Hup) as [_ He]. rewrite He.
  destruct (loop_emitted dbg fuel s Hfuel Hcl) as [_ Hl]. rewrite Hl.
  assert (Hs : forall j, count is_server_begin (serial_events j) = 0%nat)
    by (induction j as [| j IH]; [reflexivity |];
        cbn [serial_events]; rewrite !count_app, IH; reflexivity).
  split.
  - unfold setup_events, stop_events, connect_events, connect_outcome.
    cbv zeta. rewrite !count_app.
    rewrite count_wait by (intros; reflexivity).
    rewrite !count_log by (intros; reflexivity).
    destruct (is_connected _); destruct dbg;
      rewrite ?count_app, ?Hs, ?count_log by (intros; reflexivity);
      reflexivity.
  - unfold loop_events. rewrite !count_app.
    assert (Hk : count is_server_begin
                       (check_events dbg (env s) (wifi_polls s)) = 0%nat)
      by (count_closed; reflexivity).
    rewrite Hk. unfold check_clients_events.
    destruct (server_feed (env s) (accepts s)) as [cl |]; [| reflexivity].
    unfold serve_events.
    destruct (first_answer cl 0 fuel) as [[| | c] |];
      rewrite ?count_app, ?count_log by (intros; reflexivity);
      try reflexivity.
    assert (Hcmd : count is_server_begin (command_events dbg c) = 0%nat)
      by (unfold command_events; by_command dbg c; vm_compute; reflexivity).
    rewrite Hcmd. reflexivity.
Qed.

Lemma X9_server_started_only_at_startup_witness :
  (20 < 21)%nat
  /\ console_comes_up false (env (power_on nobody_home))
                      (serial_polls (power_on nobody_home)) 21
  /\ client_answers (env (power_on nobody_home))
                    (accepts (power_on nobody_home)) 21
  /\ count is_server_begin (emitted_by (setup false 21) (power_on nobody_home))
     = 0%nat
  /\ count is_server_begin (emitted_by (loop false 21) (power_on nobody_home))
     = 0%nat.
Proof.
  assert (Hup : console_comes_up false (env (power_on nobody_home))
                                 (serial_polls (power_on nobody_home)) 21)
    by (intros H; discriminate H).
  assert (Hcl : client_answers (env (power_on nobody_home))
                               (accepts (power_on nobody_home)) 21)
    by exact I.
  split; [lia |]. split; [exact Hup |]. split; [exact Hcl |].
  apply (X9_server_started_only_at_startup false 21 (power_on nobody_home)
           ltac:(lia) Hup Hcl).
Defined.

(** ** The console *)

Lemma serial_out_replay (es : list effect) :
  forall s : board, serial_out (replay s es) = rev (printed es) ++ serial_out s.
Proof.
  induction es as [| e es IH]; intros s; [reflexivity |].
  change (replay s (e :: es)) with (replay (emit e s) es). rewrite IH.
  destruct e; simpl; try reflexivity.
  rewrite <- app_assoc. reflexivity.
Qed.

Lemma serial_polls_replay (es : list effect) :
  forall s : board,
    count is_console es = 0%nat -> serial_polls (replay s es) = serial_polls s.
Proof.
  induction es as [| e es IH]; intros s H; [reflexivity |].
  change (replay s (e :: es)) with (replay (emit e s) es).
  change (e :: es) with ([e] ++ es) in H. rewrite count_app, count_one in H.
  rewrite IH by (destruct (is_console e); [discriminate H | exact H]).
  destruct e; simpl in *; try reflexivity; discriminate H.
Qed.

Lemma printed_none (es : list effect) :
  count is_console es = 0%nat -> printed es = [].
Proof.
  induction es as [| e es IH]; intros H; [reflexivity |].
  change (e :: es) with ([e] ++ es) in H. rewrite count_app, count_one in H.
  destruct e; simpl in *; try discriminate H; apply IH; exact H.
Qed.

Lemma count_console_command (c : ascii) :
  count is_console (command_events false c) = 0%nat.
Proof.
  unfold command_events. destruct (is_motion_command c) eqn:E.
  - apply motion_command_cases in E. simpl in E.
    intuition subst; vm_compute; reflexivity.
  - rewrite (switch_command_default false c E). vm_compute; reflexivity.
Qed.

Lemma count_console_wait (msg : string) (feed : nat -> wl_status_t) (k : nat) :
  forall start : nat,
    count is_console (wait_events false msg feed start k) = 0%nat.
Proof.
  induction k as [| k IH]; intros start; [reflexivity |].
  cbn [wait_events]. rewrite !count_app, IH. reflexivity.
Qed.

Lemma count_console_connect (w : world) (p0 : nat) :
  count is_console (connect_events false w p0) = 0%nat.
Proof.
  unfold connect_events, connect_outcome. cbv zeta.
  rewrite !count_app, count_console_wait.
  destruct (is_connected _); reflexivity.
Qed.

Lemma count_console_check (w : world) (p0 : nat) :
  count is_console (check_events false w p0) = 0%nat.
Proof.
  unfold check_events, reconnect_outcome. cbv zeta.
  destruct (negb _); [| reflexivity].
  rewrite !count_app, count_console_wait.
  destruct (is_connected _); reflexivity.
Qed.

Lemma count_console_loop (w : world) (a0 p0 fuel : nat) :
  count is_console (loop_events false w a0 p0 fuel) = 0%nat.
Proof.
  unfold loop_events. rewrite !count_app, count_console_check.
  unfold check_clients_events.
  destruct (server_feed w a0) as [cl |]; [| reflexivity].
  unfold serve_events.
  destruct (first_answer cl 0 fuel) as [[| | c] |];
    rewrite ?count_app, ?count_console_command; reflexivity.
Qed.

Lemma count_console_setup (w : world) (p0 q0 fuel : nat) :
  count is_console (setup_events false w p0 q0 fuel) = 0%nat.
Proof.
  unfold setup_events, stop_events.
  rewrite !count_app, count_console_connect. reflexivity.
Qed.

(** X10: with [debug_mode] off the sketch never touches the serial
    console: [setup] and [loop] neither open it, nor test it, nor print;
    so [setup] returns without the console, and the console output stays
    as it was. *)
Theorem X10_console_untouched_without_debug (fuel : nat) (s : board) :
  (20 < fuel)%nat ->
  client_answers (env s) (accepts s) fuel ->
  exists s1 s2 : board,
    exec (setup false fuel) s = Some s1
    /\ exec (loop false fuel) s = Some s2
    /\ count is_console (emitted_by (setup false fuel) s) = 0%nat
    /\ count is_console (emitted_by (loop false fuel) s) = 0%nat
    /\ serial_out s1 = serial_out s /\ serial_polls s1 = serial_polls s
    /\ serial_out s2 = serial_out s /\ serial_polls s2 = serial_polls s.
Proof.
  intros Hfuel Hcl.
  assert (Hup : console_comes_up false (env s) (serial_polls s) fuel)
    by (intros H; discriminate H).
  destruct (setup_emitted false fuel s Hfuel Hup) as [Hx1 He1].
  destruct (loop_emitted false fuel s Hfuel Hcl) as [Hx2 He2].
  rewrite He1, He2. eexists. eexists.
  split; [exact Hx1 |]. split; [exact Hx2 |].
  split; [apply count_console_setup |].
  split; [apply count_console_loop |].
  rewrite !serial_out_replay.
  rewrite !printed_none by
      (first [apply count_console_setup | apply count_console_loop]).
  rewrite !serial_polls_replay by
      (first [apply count_console_setup | apply count_console_loop]).
  repeat split; reflexivity.
Qed.

Lemma X10_console_untouched_without_debug_witness :
  (20 < 21)%nat
  /\ client_answers (env (power_on deaf_console))
                    (accepts (power_on deaf_console)) 21
  /\ exists s1 : board,
       exec (setup false 21) (power_on deaf_console) = Some s1
       /\ serial_out s1 = [].
Proof.
  assert (Hcl : client_answers (env (power_on deaf_console))
                               (accepts (power_on deaf_console)) 21)
    by exact I.
  split; [lia |]. split; [exact Hcl |].
  destruct (X10_console_untouched_without_debug 21 (power_on deaf_console)
              ltac:(lia) Hcl) as (s1 & s2 & Hx1 & _ & _ & _ & Ho & _).
  exists s1. split; [exact Hx1 | exact Ho].
Defined.

Lemma hardware_app (es1 es2 : list effect) :
  hardware (es1 ++ es2) = hardware es1 ++ hardware es2.
Proof. apply filter_app. Qed.

Lemma hardware_log (dbg : bool) (msg : string) : hardware (log dbg msg) = [].
Proof. destruct dbg; reflexivity. Qed.

Lemma hardware_wait (dbg : bool) (msg : string) (feed : nat -> wl_status_t)
      (k : nat) :
  forall start : nat,
    hardware (wait_events dbg msg feed start k)
    = wait_events false msg feed start k.
Proof.
  induction k as [| k IH]; intros start; [reflexivity |].
  cbn [wait_events]. rewrite !hardware_app, IH, hardware_log. reflexivity.
Qed.

Lemma hardware_command (dbg : bool) (c : ascii) :
  hardware (command_events dbg c) = command_events false c.
Proof.
  unfold command_events. destruct (is_motion_command c) eqn:E.
  - apply motion_command_cases in E. simpl in E.
    destruct dbg; intuition subst; vm_compute; reflexivity.
  - rewrite !(switch_command_default _ c E).
    destruct dbg; vm_compute; reflexivity.
Qed.

Lemma hardware_check (dbg : bool) (w : world) (p0 : nat) :
  hardware (check_events dbg w p0) = check_events false w p0.
Proof.
  unfold check_events, reconnect_outcome. cbv zeta.
  destruct (negb _); [| reflexivity].
  rewrite !hardware_app, hardware_wait, !hardware_log.
  destruct (is_connected _); rewrite ?hardware_app, ?hardware_log;
    reflexivity.
Qed.

Lemma hardware_loop (dbg : bool) (w : world) (a0 p0 fuel : nat) :
  hardware (loop_events dbg w a0 p0 fuel) = loop_events false w a0 p0 fuel.
Proof.
  unfold loop_events. rewrite !hardware_app, hardware_check.
  f_equal. unfold check_clients_events.
  destruct (server_feed w a0) as [cl |]; [| reflexivity].
  rewrite !hardware_app, !hardware_log. unfold serve_events.
  destruct (first_answer cl 0 fuel) as [[| | c] |];
    rewrite ?hardware_app, ?hardware_log, ?hardware_command; reflexivity.
Qed.

Lemma same_hardware_emit (e : effect) (a b : board) :
  same_hardware a b -> same_hardware (emit e a) (emit e b).
Proof.
  unfold same_hardware. intros (Hg & Hb & Hs & Hbr).
  destruct e; simpl; rewrite ?Hg, ?Hb, ?Hs, ?Hbr; auto.
Qed.

Lemma same_hardware_replay (es : list effect) :
  forall a b : board,
    same_hardware a b ->
    same_hardware (replay a es) (replay b (hardware es)).
Proof.
  induction es as [| e es IH]; intros a b H; [exact H |].
  change (replay a (e :: es)) with (replay (emit e a) es).
  destruct e;
    try (change (replay b (hardware (?x :: es)))
           with (replay (emit x b) (hardware es)));
    try (apply IH, same_hardware_emit, H).
  change (hardware (E_println msg :: es)) with (hardware es).
  apply IH. exact H.
Qed.

(** X11: the diagnostics change nothing but the console.  A turn of
    [loop] with [debug_mode] on makes the same calls as with [debug_mode]
    off, in the same order, plus the prints, and leaves the same pins,
    pixel and brightness. *)
Theorem X11_diagnostics_leave_hardware_alone (fuel : nat) (s : board) :
  (20 < fuel)%nat ->
  client_answers (env s) (accepts s) fuel ->
  exists s1 s0 : board,
    exec (loop true fuel) s = Some s1
    /\ exec (loop false fuel) s = Some s0
    /\ hardware (emitted_by (loop true fuel) s) = emitted_by (loop false fuel) s
    /\ same_hardware s1 s0.
Proof.
  intros Hfuel Hcl.
  destruct (loop_emitted true fuel s Hfuel Hcl) as [Hx1 He1].
  destruct (loop_emitted false fuel s Hfuel Hcl) as [Hx0 He0].
  rewrite He1, He0. eexists. eexists.
  split; [exact Hx1 |]. split; [exact Hx0 |].
  split; [apply hardware_loop |].
  rewrite <- (hardware_loop true).
  apply same_hardware_replay. repeat split; reflexivity.
Qed.

Lemma X11_diagnostics_leave_hardware_alone_witness :
  (20 < 21)%nat
  /\ client_answers (env (power_on (sender "6")))
                    (accepts (power_on (sender "6"))) 21
  /\ hardware (emitted_by (loop true 21) (power_on (sender "6")))
     = emitted_by (loop false 21) (power_on (sender "6")).
Proof.
  assert (Hcl : client_answers (env (power_on (sender "6")))
                               (accepts (power_on (sender "6"))) 21)
    by (simpl; discriminate).
  split; [lia |]. split; [exact Hcl |].
  destruct (X11_diagnostics_leave_hardware_alone 21 (power_on (sender "6"))
              ltac:(lia) Hcl) as (s1 & s0 & _ & _ & H & _).
  exact H.
Defined.

(** ** Commands one after the other *)

Lemma handle_commands_trace (dbg : bool) (cs : list ascii) :
  forall s : board,
    trace (handle_commands dbg cs s)
    = rev (flat_map (command_events dbg) cs) ++ trace s.
Proof.
  induction cs as [| c cs IH]; intros s; [reflexivity |].
  change (handle_commands dbg (c :: cs) s)
    with (handle_commands dbg cs (switch_command dbg c s)).
  rewrite IH, switch_command_trace, command_events_any.
  cbn [flat_map]. rewrite rev_app_distr, <- app_assoc. reflexivity.
Qed.

Lemma handle_commands_replay (dbg : bool) (cs : list ascii) :
  forall s : board,
    replay s (flat_map (command_events dbg) cs) = handle_commands dbg cs s.
Proof.
  induction cs as [| c cs IH]; intros s; [reflexivity |].
  cbn [flat_map]. rewrite replay_app, command_events_replay. apply IH.
Qed.

Lemma timeline_app (es1 es2 : list effect) :
  forall s : board,
    timeline s (es1 ++ es2)
    = timeline s es1 ++ timeline (replay s es1) es2.
Proof.
  induction es1 as [| e es1 IH]; intros s; [reflexivity |].
  change (replay s (e :: es1)) with (replay (emit e s) es1).
  destruct e; simpl; rewrite IH; reflexivity.
Qed.

Lemma timeline_command_any (dbg : bool) (c : ascii) (a b : board) :
  timeline a (command_events dbg c) = timeline b (command_events dbg c).
Proof. unfold command_events. by_command dbg c; vm_compute; reflexivity. Qed.

Lemma timeline_commands (dbg : bool) (cs : list ascii) :
  forall b b0 : board,
    timeline b (flat_map (command_events dbg) cs)
    = flat_map (fun c => timeline b0 (command_events dbg c)) cs.
Proof.
  induction cs as [| c cs IH]; intros b b0; [reflexivity |].
  cbn [flat_map]. rewrite timeline_app, (IH _ b0).
  f_equal. apply timeline_command_any.
Qed.

(** X12: commands do not interfere.  When bytes are handled one after the
    other, the phases in which the sketch blocks are those of each command
    run alone, one command after the other, whatever came before; the
    blocking times add up, and the actuators are idle at the end. *)
Theorem X12_commands_do_not_interfere
        (dbg : bool) (cs : list ascii) (s : board) :
  let es := emitted (handle_commands dbg cs) s in
  timeline s es
  = flat_map (fun c => timeline s (emitted (switch_command dbg c) s)) cs
  /\ total_delay es
     = fold_right Z.add 0
         (map (fun c => total_delay (emitted (switch_command dbg c) s)) cs)
  /\ replay s es = handle_commands dbg cs s
  /\ (cs <> [] -> all_idle (handle_commands dbg cs s)).
Proof.
  cbv zeta.
  assert (He : emitted (handle_commands dbg cs) s
               = flat_map (command_events dbg) cs).
  { unfold emitted. rewrite handle_commands_trace. simpl.
    rewrite app_nil_r. apply rev_involutive. }
  rewrite He. split; [| split; [| split]].
  - transitivity (flat_map (fun c => timeline s (command_events dbg c)) cs);
      [apply timeline_commands |].
    apply flat_map_ext. intros c. rewrite command_events_any. reflexivity.
  - clear He. induction cs as [| c cs IH]; [reflexivity |].
    cbn [flat_map map fold_right].
    rewrite total_delay_app, command_events_any, IH. reflexivity.
  - apply handle_commands_replay.
  - intros Hne. clear He. revert s.
    induction cs as [| c cs IH]; intros s; [congruence |].
    change (handle_commands dbg (c :: cs) s)
      with (handle_commands dbg cs (switch_command dbg c s)).
    destruct cs as [| c' cs]; [apply switch_command_idle |].
    apply IH. discriminate.
Qed.

Lemma X12_commands_do_not_interfere_witness :
  ["5"; "x"; "1"]%char <> []
  /\ map ph_energized
         (timeline (motor2_stuck nobody_home)
            (emitted (handle_commands false ["5"; "x"; "1"]%char)
                     (motor2_stuck nobody_home)))
     = [[1]; []; [2]; []; [4]; []; [3]; []; [1]; []]
  /\ all_idle (handle_commands false ["5"; "x"; "1"]%char
                               (motor2_stuck nobody_home)).
Proof.
  assert (Hne : ["5"; "x"; "1"]%char <> []) by discriminate.
  split; [exact Hne |].
  destruct (X12_commands_do_not_interfere false ["5"; "x"; "1"]%char
              (motor2_stuck nobody_home)) as (Ht & _ & _ & Hi).
  split; [rewrite Ht; vm_compute; reflexivity | exact (Hi Hne)].
Defined.

(** ** A turn that reads a byte *)

Lemma after_command_phases (dbg : bool) (c : ascii) (st : wl_status_t)
      (b : board) :
  timeline (switch_command dbg c b)
           ([E_client_flush] ++ [E_delay 10] ++ [E_client_stop]
            ++ log dbg "Client disconnected."
            ++ [E_WiFi_status st] ++ [E_delay 5])
  = [mkPhase [] white 10; mkPhase [] white 5].
Proof. by_command dbg c; vm_compute; reflexivity. Qed.

(** X20: a turn of [loop] that reads a byte while the station is connected
    runs the motion of that byte and nothing more: the phases in which the
    turn blocks are those of the command, then two idle waits of 10 ms and
    5 ms with no actuator energized and the pixel white.  This holds for
    every byte; for an invalid one only the two idle waits are left. *)
Theorem X20_turn_runs_the_command_read
        (dbg : bool) (fuel : nat) (s : board) (cl : client) (c : ascii) :
  (20 < fuel)%nat ->
  server_feed (env s) (accepts s) = Some cl ->
  first_answer cl 0 fuel = Some (Byte c) ->
  is_connected (wifi_feed (env s) (wifi_polls s)) = true ->
  exists s' : board,
    exec (loop dbg fuel) s = Some s'
    /\ timeline s (emitted_by (loop dbg fuel) s)
       = timeline s (emitted (switch_command dbg c) s)
         ++ [mkPhase [] white 10; mkPhase [] white 5]
    /\ all_idle s'
    /\ pixel_shown s' = white.
Proof.
  intros Hfuel Hfeed Hans Hconn.
  assert (Hcl : client_answers (env s) (accepts s) fuel)
    by (unfold client_answers; rewrite Hfeed, Hans; discriminate).
  destruct (loop_emitted dbg fuel s Hfuel Hcl) as [Hx He].
  rewrite He. eexists. split; [exact Hx |].
  assert (Hes : loop_events dbg (env s) (accepts s) (wifi_polls s) fuel
                = ([E_server_available true] ++ log dbg "Client connected."
                   ++ log dbg "Received command:")
                  ++ command_events dbg c
                  ++ ([E_client_flush] ++ [E_delay 10] ++ [E_client_stop]
                      ++ log dbg "Client disconnected."
                      ++ [E_WiFi_status (wifi_feed (env s) (wifi_polls s))]
                      ++ [E_delay 5])).
  { unfold loop_events, check_clients_events, check_events, serve_events.
    cbv zeta. rewrite Hfeed, Hans, Hconn. cbn [negb].
    rewrite <- !app_assoc. reflexivity. }
  rewrite Hes. clear Hes.
  split; [| split].
  - rewrite timeline_app, (timeline_app (command_events dbg c)).
    rewrite command_events_replay, after_command_phases.
    rewrite command_events_any.
    rewrite (timeline_command_any dbg c _ s).
    destruct dbg; reflexivity.
  - rewrite !replay_app, command_events_replay.
    unfold all_idle.
    rewrite !actuators_replay by (destruct dbg; reflexivity).
    apply switch_command_idle.
  - rewrite !replay_app, command_events_replay.
    rewrite !pixel_shown_after by (destruct dbg; reflexivity).
    by_command dbg c; vm_compute; reflexivity.
Qed.

Lemma X20_turn_runs_the_command_read_witness :
  (20 < 21)%nat
  /\ server_feed (env (motor2_stuck (sender "6")))
                 (accepts (motor2_stuck (sender "6")))
     = Some (fun _ => Byte "6")
  /\ first_answer (fun _ => Byte "6") 0 21 = Some (Byte "6")
  /\ is_connected (wifi_feed (env (motor2_stuck (sender "6")))
                             (wifi_polls (motor2_stuck (sender "6")))) = true
  /\ map ph_energized
         (timeline (motor2_stuck (sender "6"))
                   (emitted_by (loop false 21) (motor2_stuck (sender "6"))))
     = [[1]; []; [3]; []; [4]; []; [2]; []; []; []].
Proof.
  split; [lia |]. split; [reflexivity |]. split; [reflexivity |].
  split; [reflexivity |].
  destruct (X20_turn_runs_the_command_read false 21
              (motor2_stuck (sender "6")) (fun _ => Byte "6") "6"
              ltac:(lia) eq_refl eq_refl eq_refl) as (s' & _ & Ht & _).
  rewrite Ht. vm_compute. reflexivity.
Defined.

End SessionProps.

(* ===================================================================== *)
(** * The LED-control sketch from reset on *)
(* ===================================================================== *)

Module LedSessionProps.
Import Arduino Observe Instances Runs Session.
Import WristbandProps SessionProps LedCommProps.

Ltac each_byte c :=
  destruct (Ascii.eqb c "R");
  [| destruct (Ascii.eqb c "G"); [| destruct (Ascii.eqb c "B")]].

Lemma runs_handle_byte (dbg : bool) (c : ascii) (s : board) :
  runs (call (LedComm.handle_byte dbg c)) s (led_byte_events dbg c) tt.
Proof.
  unfold runs, call, led_byte_events, LedComm.handle_byte,
         LedComm.color_command.
  each_byte c; destruct dbg; vm_compute; reflexivity.
Qed.

Lemma led_byte_events_replay (dbg : bool) (c : ascii) (s : board) :
  replay s (led_byte_events dbg c) = LedComm.handle_byte dbg c s.
Proof.
  pose proof (runs_handle_byte dbg c s) as H.
  unfold runs, call in H. injection H as H. symmetry. exact H.
Qed.

Lemma led_serve_runs (dbg : bool) (cl : client) :
  forall (fuel i : nat) (s : board) (r : client_poll),
    first_answer cl i fuel = Some r ->
    runs (LedComm.serve_client dbg fuel cl i) s (led_serve_events dbg (Some r))
         tt.
Proof.
  induction fuel as [| fuel IH]; intros i s r Hr; simpl in Hr;
    [discriminate |].
  simpl LedComm.serve_client. destruct (cl i) as [| | c] eqn:Hcl.
  - injection Hr as <-. apply runs_ret.
  - apply IH. exact Hr.
  - injection Hr as <-. apply runs_handle_byte.
Qed.

Lemma led_check_clients_runs (dbg : bool) (fuel : nat) (s : board) :
  client_answers (env s) (accepts s) fuel ->
  runs (led_check_clients dbg fuel) s
       (led_check_clients_events dbg (env s) (accepts s) fuel) tt.
Proof.
  unfold client_answers, led_check_clients, led_check_clients_events.
  intros H.
  destruct (server_feed (env s) (accepts s)) as [cl |] eqn:Hf.
  - eapply (runs_bind _ _ _ [E_server_available true] _ (Some cl)).
    { unfold runs, server_available. rewrite Hf. reflexivity. }
    cbv beta iota.
    eapply runs_bind; [apply (runs_DebugLog dbg) |].
    destruct (first_answer cl 0 fuel) as [r |] eqn:Hr; [| congruence].
    eapply runs_bind; [apply led_serve_runs; exact Hr |].
    eapply runs_bind; [apply runs_emit |].
    eapply runs_bind; [apply runs_emit |].
    apply (runs_DebugLog dbg).
  - rewrite <- (app_nil_r [E_server_available false]).
    eapply (runs_bind _ _ _ [E_server_available false] _ None).
    { unfold runs, server_available. rewrite Hf. reflexivity. }
    apply runs_ret.
Qed.

Lemma bind_assoc {A B C} (m : M A) (f : A -> M B) (g : B -> M C) (s : board) :
  bind (bind m f) g s = bind m (fun a => bind (f a) g) s.
Proof. unfold bind. destruct (m s) as [[a s1] |]; reflexivity. Qed.

Lemma bind_ext {A B} (m : M A) (k k' : A -> M B) (s : board) :
  (forall (a : A) (s1 : board), k a s1 = k' a s1) ->
  bind m k s = bind m k' s.
Proof.
  intros H. unfold bind. destruct (m s) as [[a s1] |]; [apply H | reflexivity].
Qed.

(** The LED sketch's [loop] is its client part, then the status check of
    the wristband sketch (the same text), then a wait of 500 ms. *)
Lemma led_loop_split (dbg : bool) (fuel : nat) (s : board) :
  LedComm.loop dbg fuel s
  = bind (led_check_clients dbg fuel)
         (fun _ => bind (Wristband.check_WiFi dbg fuel)
                        (fun _ => call (delay 500))) s.
Proof.
  unfold LedComm.loop, led_check_clients, Wristband.check_WiFi.
  rewrite bind_assoc. apply bind_ext. intros incoming s1.
  apply bind_ext. intros u s2. rewrite bind_assoc. reflexivity.
Qed.

Lemma count_status_led_clients (dbg : bool) (w : world) (a0 fuel : nat) :
  count is_WiFi_status (led_check_clients_events dbg w a0 fuel) = 0%nat.
Proof.
  unfold led_check_clients_events.
  destruct (server_feed w a0) as [cl |]; [| reflexivity].
  rewrite !count_app, !count_log by (intros; reflexivity).
  unfold led_serve_events.
  destruct (first_answer cl 0 fuel) as [[| | c] |]; try reflexivity.
  assert (Hb : count is_WiFi_status (led_byte_events dbg c) = 0%nat).
  { unfold led_byte_events, LedComm.handle_byte, LedComm.color_command.
    each_byte c; destruct dbg; vm_compute; reflexivity. }
  rewrite Hb. reflexivity.
Qed.

Lemma led_loop_runs (dbg : bool) (fuel : nat) (s : board) :
  (20 < fuel)%nat ->
  client_answers (env s) (accepts s) fuel ->
  runs (LedComm.loop dbg fuel) s
       (led_loop_events dbg (env s) (accepts s) (wifi_polls s) fuel) tt.
Proof.
  intros Hfuel Hcl. unfold runs. rewrite led_loop_split.
  change (runs (bind (led_check_clients dbg fuel)
                     (fun _ => bind (Wristband.check_WiFi dbg fuel)
                                    (fun _ => call (delay 500))))
               s (led_loop_events dbg (env s) (accepts s) (wifi_polls s) fuel)
               tt).
  unfold led_loop_events.
  eapply runs_bind; [apply led_check_clients_runs; exact Hcl |].
  eapply runs_bind; [| apply runs_emit].
  pose proof (check_WiFi_runs dbg fuel
                (replay s (led_check_clients_events dbg (env s) (accepts s)
                                                    fuel))
                Hfuel) as H.
  rewrite env_replay, wifi_polls_replay, count_status_led_clients,
          Nat.add_0_r in H.
  exact H.
Qed.

Lemma led_setup_runs (dbg : bool) (fuel : nat) (s : board) :
  (20 < fuel)%nat ->
  console_comes_up dbg (env s) (serial_polls s) fuel ->
  runs (LedComm.setup dbg fuel) s
       (led_setup_events dbg (env s) (wifi_polls s) (serial_polls s) fuel) tt.
Proof.
  intros Hfuel Hup.
  change (LedComm.setup dbg fuel)
    with (bind (if dbg
                then bind (call (Serial_begin 115200))
                          (fun _ => Wristband.wait_Serial fuel)
                else ret tt)
               (fun _ =>
                bind (call (Wristband.DebugLog dbg
                              "Hello, world from QT Py S3!"))
                     (fun _ =>
                      bind (call (pinMode NEOPIXEL_POWER OUTPUT))
                           (fun _ =>
                            bind (call (digitalWrite NEOPIXEL_POWER HIGH))
                                 (fun _ =>
                                  bind (call pixel_begin)
                                       (fun _ =>
                                        bind (call (pixel_setBrightness 50))
                                             (fun _ =>
                                              Wristband.connect_WiFi
                                                dbg fuel))))))).
  unfold led_setup_events.
  eapply runs_bind.
  { destruct dbg.
    - eapply runs_bind; [apply runs_emit |].
      apply (wait_Serial_runs fuel (replay s [E_Serial_begin 115200])).
      apply Hup. reflexivity.
    - apply runs_ret. }
  eapply runs_bind; [apply runs_DebugLog |].
  do 4 (eapply runs_bind; [apply runs_emit |]).
  match goal with
  | |- runs _ ?b _ _ =>
      pose proof (connect_WiFi_runs dbg fuel b Hfuel) as H;
      replace (env b) with (env s) in H by (rewrite ?env_replay; reflexivity);
      replace (wifi_polls b) with (wifi_polls s) in H; [exact H |]
  end.
  rewrite !wifi_polls_replay.
  destruct dbg; unfold count; simpl.
  - assert (Hz : forall j, List.length (filter is_WiFi_status (serial_events j))
                           = 0%nat)
      by (induction j; simpl; auto).
    rewrite Hz. lia.
  - lia.
Qed.

Lemma led_ready_inert (es : list effect) (s : board) :
  forallb keeps_settings es = true -> forallb keeps_pixel es = true ->
  led_ready s -> led_ready (replay s es).
Proof.
  intros H1 H2 (Hp & Hb & Hs).
  destruct (settings_replay es s H1) as [Hg Hbr].
  destruct (pixel_replay es s H2) as [Hpb Hps].
  unfold led_ready. rewrite Hg, Hbr, Hpb, Hps. auto.
Qed.

Lemma handle_byte_ready (dbg : bool) (c : ascii) (s : board) :
  led_ready s -> led_ready (LedComm.handle_byte dbg c s).
Proof.
  intros (Hp & Hb & _). unfold led_ready.
  rewrite <- Hp, <- Hb.
  unfold LedComm.handle_byte, LedComm.color_command.
  each_byte c; destruct dbg; repeat split; vm_compute; reflexivity.
Qed.

Lemma led_clients_ready (dbg : bool) (w : world) (a0 fuel : nat) (s : board) :
  led_ready s ->
  led_ready (replay s (led_check_clients_events dbg w a0 fuel)).
Proof.
  intros Hs. unfold led_check_clients_events.
  destruct (server_feed w a0) as [cl |];
    [| apply led_ready_inert; [reflexivity | reflexivity | exact Hs]].
  unfold led_serve_events.
  destruct (first_answer cl 0 fuel) as [[| | c] |];
    try (apply led_ready_inert; [destruct dbg; reflexivity ..| exact Hs]).
  rewrite !replay_app, led_byte_events_replay.
  repeat (apply led_ready_inert; [destruct dbg; reflexivity ..|]).
  apply handle_byte_ready.
  repeat (apply led_ready_inert; [destruct dbg; reflexivity ..|]).
  exact Hs.
Qed.

Lemma led_check_ready (dbg : bool) (w : world) (p0 : nat) (s : board) :
  led_ready s -> led_ready (replay s (check_events dbg w p0)).
Proof.
  intros (Hp & Hb & Hs).
  destruct (settings_replay _ s (keeps_settings_check dbg w p0)) as [Hg Hbr].
  unfold led_ready. rewrite Hg, Hbr. repeat split; try assumption.
  apply check_in_sync, Hs.
Qed.

Lemma led_loop_ready (dbg : bool) (w : world) (a0 p0 fuel : nat) (s : board) :
  led_ready s -> led_ready (replay s (led_loop_events dbg w a0 p0 fuel)).
Proof.
  intros Hs. unfold led_loop_events. rewrite !replay_app.
  apply led_ready_inert; [reflexivity | reflexivity |].
  apply led_check_ready, led_clients_ready, Hs.
Qed.

Lemma led_setup_ready (dbg : bool) (w : world) (p0 q0 fuel : nat) (s : board) :
  led_ready (replay s (led_setup_events dbg w p0 q0 fuel)).
Proof.
  unfold led_setup_events. rewrite !replay_app.
  match goal with
  | |- led_ready (replay ?b (connect_events _ _ _)) =>
      destruct (settings_replay _ b (keeps_settings_connect dbg w p0))
        as [Hg Hb];
      assert (Hr : gpio b NEOPIXEL_POWER = HIGH /\ pixel_brightness b = 50)
  end.
  { match goal with
    | |- context [replay s ?front] => generalize (replay s front)
    end.
    intros b. destruct dbg; split; vm_compute; reflexivity. }
  destruct Hr as (Hp & Hbr).
  unfold led_ready. rewrite Hg, Hb. repeat split; try assumption.
  apply connect_in_sync.
Qed.

(** The LED sketch never writes an actuator pin. *)
Lemma led_motors_untouched_loop (dbg : bool) (w : world) (a0 p0 fuel : nat) :
  motors_untouched (led_loop_events dbg w a0 p0 fuel) = true.
Proof.
  unfold led_loop_events. rewrite !motors_untouched_app, motors_untouched_check.
  unfold led_check_clients_events.
  destruct (server_feed w a0) as [cl |]; [| reflexivity].
  rewrite !motors_untouched_app. unfold led_serve_events.
  destruct (first_answer cl 0 fuel) as [[| | c] |];
    try (destruct dbg; reflexivity).
  assert (Hb : motors_untouched (led_byte_events dbg c) = true).
  { unfold led_byte_events, LedComm.handle_byte, LedComm.color_command.
    each_byte c; destruct dbg; vm_compute; reflexivity. }
  rewrite Hb. destruct dbg; reflexivity.
Qed.

Lemma led_motors_untouched_setup (dbg : bool) (w : world) (p0 q0 fuel : nat) :
  motors_untouched (led_setup_events dbg w p0 q0 fuel) = true.
Proof.
  unfold led_setup_events.
  rewrite !motors_untouched_app, motors_untouched_connect.
  assert (Hs : forall j, motors_untouched (serial_events j) = true)
    by (induction j as [| j IH]; [reflexivity | simpl; exact IH]).
  destruct dbg; rewrite ?motors_untouched_app, ?Hs; reflexivity.
Qed.

Lemma led_turns_ready (dbg : bool) (fuel : nat) :
  (20 < fuel)%nat ->
  forall (n : nat) (s : board),
    clients_answer (env s) fuel ->
    led_ready s ->
    exists s' : board,
      exec (turns (LedComm.loop dbg fuel) n) s = Some s'
      /\ led_ready s' /\ env s' = env s /\ actuators s' = actuators s.
Proof.
  intros Hfuel. induction n as [| n IH]; intros s Hcl Hs.
  - exists s. split; [reflexivity |]. split; [exact Hs |].
    split; reflexivity.
  - pose proof (led_loop_runs dbg fuel s Hfuel (Hcl (accepts s))) as Hrun.
    set (s1 := replay s (led_loop_events dbg (env s) (accepts s)
                                         (wifi_polls s) fuel)) in *.
    assert (He : env s1 = env s) by apply env_replay.
    assert (Ha : actuators s1 = actuators s)
      by apply actuators_replay, led_motors_untouched_loop.
    destruct (IH s1) as (s' & Hx & Hr & He' & Ha').
    + rewrite He. exact Hcl.
    + apply led_loop_ready, Hs.
    + exists s'. split; [| split; [exact Hr | split; congruence]].
      cbn [turns]. rewrite (exec_bind _ _ _ _ _ Hrun). exact Hx.
Qed.

(** X13: the LED sketch keeps its pixel in step.  After [setup] and after
    every later turn of [loop] the NeoPixel power pin is high, the
    brightness is 50 and the pixel shows the colour written last; the
    sketch never writes an actuator pin. *)
Theorem X13_led_board_ready_between_turns
        (dbg : bool) (fuel n : nat) (s : board) :
  (20 < fuel)%nat ->
  console_comes_up dbg (env s) (serial_polls s) fuel ->
  clients_answer (env s) fuel ->
  exists s' : board,
    exec (sketch (LedComm.setup dbg fuel) (LedComm.loop dbg fuel) n) s
    = Some s'
    /\ gpio s' NEOPIXEL_POWER = HIGH
    /\ pixel_brightness s' = 50
    /\ pixel_shown s' = pixel_buffer s'
    /\ actuators s' = actuators s.
Proof.
  intros Hfuel Hup Hcl.
  pose proof (led_setup_runs dbg fuel s Hfuel Hup) as Hrun.
  set (s1 := replay s (led_setup_events dbg (env s) (wifi_polls s)
                                        (serial_polls s) fuel)) in *.
  assert (Ha : actuators s1 = actuators s)
    by apply actuators_replay, led_motors_untouched_setup.
  destruct (led_turns_ready dbg fuel Hfuel n s1)
    as (s' & Hx & (Hp & Hb & Hs) & _ & Ha').
  - unfold s1. rewrite env_replay. exact Hcl.
  - apply led_setup_ready.
  - exists s'. split; [| repeat split; try assumption; congruence].
    unfold sketch. rewrite (exec_bind _ _ _ _ _ Hrun). exact Hx.
Qed.

Lemma X13_led_board_ready_between_turns_witness :
  (20 < 21)%nat
  /\ console_comes_up true (env (motor2_stuck (sender "G")))
                      (serial_polls (motor2_stuck (sender "G"))) 21
  /\ clients_answer (env (motor2_stuck (sender "G"))) 21
  /\ exists s' : board,
       exec (sketch (LedComm.setup true 21) (LedComm.loop true 21) 2)
            (motor2_stuck (sender "G")) = Some s'
       /\ gpio s' NEOPIXEL_POWER = HIGH
       /\ pixel_brightness s' = 50
       /\ pixel_shown s' = pixel_buffer s'
       /\ actuators s' = [LOW; HIGH; LOW; LOW].
Proof.
  assert (Hup : console_comes_up true (env (motor2_stuck (sender "G")))
                  (serial_polls (motor2_stuck (sender "G"))) 21)
    by (intros _; simpl; lia).
  assert (Hcl : clients_answer (env (motor2_stuck (sender "G"))) 21)
    by (intros a0; simpl; discriminate).
  split; [lia |]. split; [exact Hup |]. split; [exact Hcl |].
  apply (X13_led_board_ready_between_turns true 21 2
           (motor2_stuck (sender "G")) ltac:(lia) Hup Hcl).
Defined.

Lemma led_loop_emitted (dbg : bool) (fuel : nat) (s : board) :
  (20 < fuel)%nat ->
  client_answers (env s) (accepts s) fuel ->
  exec (LedComm.loop dbg fuel) s
  = Some (replay s (led_loop_events dbg (env s) (accepts s) (wifi_polls s)
                                    fuel))
  /\ emitted_by (LedComm.loop dbg fuel) s
     = led_loop_events dbg (env s) (accepts s) (wifi_polls s) fuel.
Proof.
  intros Hfuel Hcl. split.
  - apply (runs_exec _ _ _ tt), led_loop_runs; assumption.
  - apply (runs_emitted_by _ s _ tt
             (led_loop_runs dbg fuel (quiet s) Hfuel Hcl)).
Qed.

Lemma pixel_buffer_inert (es : list effect) (b : board) :
  forallb keeps_pixel es = true -> pixel_buffer (replay b es) = pixel_buffer b.
Proof. intros H. apply (pixel_replay es b H). Qed.

Lemma pixel_shown_inert (es : list effect) (b : board) :
  forallb keeps_pixel es = true -> pixel_shown (replay b es) = pixel_shown b.
Proof. intros H. apply (pixel_replay es b H). Qed.

Lemma gpio_inert (es : list effect) (b : board) :
  forallb keeps_settings es = true -> gpio (replay b es) = gpio b.
Proof. intros H. apply (settings_replay es b H). Qed.

Lemma total_delay_led_byte (dbg : bool) (c : ascii) :
  total_delay (led_byte_events dbg c) = 10.
Proof.
  unfold led_byte_events, LedComm.handle_byte, LedComm.color_command.
  each_byte c; destruct dbg; vm_compute; reflexivity.
Qed.

(** X14: a turn of the LED sketch's [loop] that reads a byte while the
    station is connected sets the pixel to the colour of the byte and shows
    it ('R' red, 'G' green, 'B' blue, any other byte the colour written
    last), writes no pin and stops the connection once; its calls of
    [delay] add up to 520 ms.  The wait for the byte has no [delay] and is
    not counted. *)
Theorem X14_led_turn_shows_commanded_colour
        (dbg : bool) (fuel : nat) (s : board) (cl : client) (c : ascii) :
  (20 < fuel)%nat ->
  server_feed (env s) (accepts s) = Some cl ->
  first_answer cl 0 fuel = Some (Byte c) ->
  is_connected (wifi_feed (env s) (wifi_polls s)) = true ->
  let es := emitted_by (LedComm.loop dbg fuel) s in
  exists s' : board,
    exec (LedComm.loop dbg fuel) s = Some s'
    /\ pixel_buffer s' = commanded_colour c (pixel_buffer s)
    /\ pixel_shown s' = commanded_colour c (pixel_buffer s)
    /\ gpio s' = gpio s
    /\ count is_client_stop es = 1%nat
    /\ total_delay es = 520.
Proof.
  intros Hfuel Hfeed Hans Hconn. cbv zeta.
  assert (Hcl : client_answers (env s) (accepts s) fuel)
    by (unfold client_answers; rewrite Hfeed, Hans; discriminate).
  destruct (led_loop_emitted dbg fuel s Hfuel Hcl) as [Hx He].
  rewrite He. eexists. split; [exact Hx |].
  unfold led_loop_events, led_check_clients_events, check_events.
  cbv zeta. rewrite Hfeed, Hans, Hconn. unfold led_serve_events. cbn [negb].
  assert (Hgpio : forall b : board, gpio (LedComm.handle_byte dbg c b) = gpio b).
  { intros b. unfold LedComm.handle_byte, LedComm.color_command.
    each_byte c; destruct dbg; reflexivity. }
  split; [| split; [| split; [| split]]].
  - rewrite !replay_app.
    repeat rewrite pixel_buffer_inert by (destruct dbg; reflexivity).
    rewrite led_byte_events_replay, (proj1 (handle_byte_colour dbg c _)).
    repeat rewrite pixel_buffer_inert by (destruct dbg; reflexivity).
    reflexivity.
  - rewrite !replay_app.
    repeat rewrite pixel_shown_inert by (destruct dbg; reflexivity).
    rewrite led_byte_events_replay, (proj2 (handle_byte_colour dbg c _)),
            (proj1 (handle_byte_colour dbg c _)).
    repeat rewrite pixel_buffer_inert by (destruct dbg; reflexivity).
    reflexivity.
  - rewrite !replay_app.
    repeat rewrite gpio_inert by (destruct dbg; reflexivity).
    rewrite led_byte_events_replay, Hgpio.
    repeat rewrite gpio_inert by (destruct dbg; reflexivity).
    reflexivity.
  - rewrite !count_app, !count_log by (intros; reflexivity).
    assert (Hb : count is_client_stop (led_byte_events dbg c) = 0%nat).
    { unfold led_byte_events, LedComm.handle_byte, LedComm.color_command.
      each_byte c; destruct dbg; vm_compute; reflexivity. }
    rewrite Hb. reflexivity.
  - rewrite !total_delay_app, !total_delay_log, total_delay_led_byte.
    reflexivity.
Qed.

Lemma X14_led_turn_shows_commanded_colour_witness :
  (20 < 21)%nat
  /\ server_feed (env (power_on (sender "B"))) (accepts (power_on (sender "B")))
     = Some (fun _ => Byte "B")
  /\ first_answer (fun _ => Byte "B") 0 21 = Some (Byte "B")
  /\ is_connected (wifi_feed (env (power_on (sender "B")))
                             (wifi_polls (power_on (sender "B")))) = true
  /\ exists s' : board,
       exec (LedComm.loop false 21) (power_on (sender "B")) = Some s'
       /\ rgb (pixel_shown s') = (0, 0, 255)
       /\ total_delay (emitted_by (LedComm.loop false 21)
                                  (power_on (sender "B"))) = 520.
Proof.
  split; [lia |]. split; [reflexivity |]. split; [reflexivity |].
  split; [reflexivity |].
  destruct (X14_led_turn_shows_commanded_colour false 21
              (power_on (sender "B")) (fun _ => Byte "B") "B"
              ltac:(lia) eq_refl eq_refl eq_refl)
    as (s' & Hx & _ & Hs & _ & _ & Ht).
  exists s'. split; [exact Hx |]. split; [rewrite Hs; reflexivity | exact Ht].
Defined.

Lemma check_in_sync_after_retry (dbg : bool) (w : world) (p0 : nat)
      (b : board) :
  is_connected (wifi_feed w p0) = false ->
  in_sync (replay b (check_events dbg w p0)).
Proof.
  intros Hd. unfold check_events. cbv zeta. rewrite Hd. cbn [negb].
  rewrite !app_assoc. rewrite <- (app_assoc _ [E_show]).
  apply (replay_tail in_sync). intros b0. reflexivity.
Qed.

(** X15: in the LED sketch the Wi-Fi indicator overrides the commanded
    colour.  When the status check of a turn finds the station
    disconnected, the turn ends with the pixel green or red, as the final
    status check says, whatever byte the client sent in that turn. *)
Theorem X15_reconnection_overrides_colour
        (dbg : bool) (fuel : nat) (s : board) :
  (20 < fuel)%nat ->
  client_answers (env s) (accepts s) fuel ->
  is_connected (wifi_feed (env s) (wifi_polls s)) = false ->
  let feed := wifi_feed (env s) in
  let k := leading_failures feed (S (wifi_polls s)) 20 in
  exists s' : board,
    exec (LedComm.loop dbg fuel) s = Some s'
    /\ pixel_shown s'
       = (if is_connected (feed (S (wifi_polls s) + k + 1)%nat)
          then green else red)
    /\ pixel_buffer s' = pixel_shown s'.
Proof.
  intros Hfuel Hcl Hd. cbv zeta.
  destruct (led_loop_emitted dbg fuel s Hfuel Hcl) as [Hx _].
  eexists. split; [exact Hx |].
  unfold led_loop_events.
  rewrite (replay_app s), (replay_app _ (check_events _ _ _)).
  set (b := replay s (led_check_clients_events dbg (env s) (accepts s) fuel)).
  assert (He : env b = env s) by apply env_replay.
  assert (Hp : wifi_polls b = wifi_polls s).
  { unfold b. rewrite wifi_polls_replay, count_status_led_clients. lia. }
  pose proof (check_shown dbg b) as Hs. cbv zeta in Hs.
  rewrite He, Hp in Hs. specialize (Hs Hd).
  split.
  - rewrite pixel_shown_inert by reflexivity. exact Hs.
  - rewrite pixel_shown_inert, pixel_buffer_inert by reflexivity.
    symmetry. apply check_in_sync_after_retry. exact Hd.
Qed.

Lemma X15_reconnection_overrides_colour_witness :
  (20 < 21)%nat
  /\ client_answers (env (power_on (drops_once "B")))
                    (accepts (power_on (drops_once "B"))) 21
  /\ is_connected (wifi_feed (env (power_on (drops_once "B")))
                             (wifi_polls (power_on (drops_once "B"))))
     = false
  /\ exists s' : board,
       exec (LedComm.loop false 21) (power_on (drops_once "B")) = Some s'
       /\ rgb (pixel_shown s') = (0, 255, 0).
Proof.
  assert (Hcl : client_answers (env (power_on (drops_once "B")))
                               (accepts (power_on (drops_once "B"))) 21)
    by (simpl; discriminate).
  split; [lia |]. split; [exact Hcl |]. split; [reflexivity |].
  destruct (X15_reconnection_overrides_colour false 21
              (power_on (drops_once "B")) ltac:(lia) Hcl eq_refl)
    as (s' & Hx & Hs & _).
  exists s'. split; [exact Hx |]. rewrite Hs. reflexivity.
Defined.

(** ** Bytes one after the other *)





End LedSessionProps.

(* ===================================================================== *)
(** * The two colour-cycle sketches *)
(* ===================================================================== *)

Module CycleProps.
Import Arduino Observe Instances Runs Session.
Import WristbandProps SessionProps.

Lemma runs_cycle (s : board) : runs (call Neopixel.loop) s cycle_events tt.
Proof. unfold runs, call. vm_compute. reflexivity. Qed.

Lemma turns_cycle :
  forall (n : nat) (s : board),
    runs (turns (call Neopixel.loop) n) s (List.concat (repeat cycle_events n)) tt.
Proof.
  induction n as [| n IH]; intros s; [apply runs_ret |].
  cbn [turns repeat List.concat].
  eapply runs_bind; [apply runs_cycle | apply IH].
Qed.

Lemma timeline_cycle (b : board) :
  map phase_colour (timeline b cycle_events) = cycle_colours.
Proof. vm_compute. reflexivity. Qed.

Lemma cycle_leaves (b : board) :
  pixel_shown (replay b cycle_events) = yellow
  /\ pixel_buffer (replay b cycle_events) = yellow
  /\ gpio (replay b cycle_events) = gpio b
  /\ pixel_brightness (replay b cycle_events) = pixel_brightness b.
Proof. repeat split; reflexivity. Qed.

(** X17: neopixel.ino's [loop] is a colour cycle.  Any number of turns
    returns; the pixel shows green, blue and yellow for 1000 ms each, turn
    after turn, from whatever colour it started; [n] turns block for
    3000 n ms, print three lines each, write no pin, and after the first
    turn the pixel is left yellow. *)
Theorem X17_colour_cycle (n : nat) (s : board) :
  let es := emitted_by (turns (call Neopixel.loop) n) s in
  exists s' : board,
    exec (turns (call Neopixel.loop) n) s = Some s'
    /\ map phase_colour (timeline s es) = List.concat (repeat cycle_colours n)
    /\ total_delay es = 3000 * Z.of_nat n
    /\ List.length (printed es) = (3 * n)%nat
    /\ gpio s' = gpio s
    /\ pixel_shown s' = match n with O => pixel_shown s | S _ => yellow end.
Proof.
  cbv zeta.
  rewrite (runs_emitted_by _ s _ tt (turns_cycle n (quiet s))).
  exists (replay s (List.concat (repeat cycle_events n))).
  split; [apply (runs_exec _ _ _ tt), turns_cycle |].
  split.
  { generalize s. induction n as [| n IH]; intros b; [reflexivity |].
    cbn [repeat List.concat]. rewrite timeline_app, map_app, IH, timeline_cycle.
    reflexivity. }
  split.
  { induction n as [| n IH]; [reflexivity |].
    cbn [repeat List.concat]. rewrite total_delay_app, IH.
    change (total_delay cycle_events) with 3000. lia. }
  split.
  { induction n as [| n IH]; [reflexivity |].
    cbn [repeat List.concat]. unfold printed in *. rewrite flat_map_app, length_app, IH.
    change (List.length (flat_map _ cycle_events)) with 3%nat. lia. }
  split.
  { generalize s. induction n as [| n IH]; intros b; [reflexivity |].
    cbn [repeat List.concat]. rewrite replay_app, IH.
    exact (proj1 (proj2 (proj2 (cycle_leaves b)))). }
  destruct n as [| n]; [reflexivity |].
  generalize s. induction n as [| n IH]; intros b.
  - cbn [repeat List.concat]. rewrite app_nil_r.
    exact (proj1 (cycle_leaves b)).
  - change (List.concat (repeat cycle_events (S (S n))))
      with (cycle_events ++ List.concat (repeat cycle_events (S n))).
    rewrite replay_app. apply IH.
Qed.

(** X18: debuglog.ino is neopixel.ino with the console behind a switch.
    With [debug_mode] on, as the sketch sets it, its [setup] and [loop] do
    what those of neopixel.ino do, call for call.  With [debug_mode] off
    [loop] makes the same calls without the prints and leaves the same
    pixel, and [setup] needs no console: it returns at once, pixel red,
    console untouched. *)
Theorem X18_debuglog_is_neopixel_behind_a_switch (fuel : nat) (s : board) :
  DebugLogSketch.setup DebugLogSketch.debug_mode fuel s = Neopixel.setup fuel s
  /\ DebugLogSketch.loop DebugLogSketch.debug_mode s = Neopixel.loop s
  /\ emitted (DebugLogSketch.loop false) s = hardware (emitted Neopixel.loop s)
  /\ same_hardware (DebugLogSketch.loop false s) (Neopixel.loop s)
  /\ (exists s' : board,
         exec (DebugLogSketch.setup false fuel) s = Some s'
         /\ pixel_shown s' = red
         /\ gpio s' NEOPIXEL_POWER = HIGH
         /\ serial_out s' = serial_out s
         /\ count is_console (emitted_by (DebugLogSketch.setup false fuel) s)
            = 0%nat).
Proof.
  split; [reflexivity |]. split; [reflexivity |].
  split; [vm_compute; reflexivity |].
  split; [repeat split; reflexivity |].
  eexists. split; [reflexivity |].
  repeat split; vm_compute; reflexivity.
Qed.

(** X19: neopixel.ino's [setup] waits for the console, always.  When the
    console comes up at the [j]-th test, [setup] returns after [j] waits of
    10 ms and one of 1000 ms, with the greeting printed, the NeoPixel power
    pin high, the brightness 50 and the pixel red; when the console never
    comes up, [setup] does not return, however much fuel it is given. *)
Theorem X19_neopixel_setup_waits_for_console (fuel : nat) (s : board) :
  let j := leading_down (serial_feed (env s)) (serial_polls s) fuel in
  ((j < fuel)%nat ->
   exists s' : board,
     exec (Neopixel.setup fuel) s = Some s'
     /\ emitted_by (Neopixel.setup fuel) s = neopixel_setup_events j
     /\ total_delay (emitted_by (Neopixel.setup fuel) s)
        = 10 * Z.of_nat j + 1000
     /\ serial_out s' = "Hello, world from QT Py S3!"%string :: serial_out s
     /\ gpio s' NEOPIXEL_POWER = HIGH
     /\ pixel_brightness s' = 50
     /\ pixel_shown s' = red)
  /\ ((forall i : nat, serial_feed (env s) (serial_polls s + i)%nat = false) ->
      Neopixel.setup fuel s = None).
Proof.
  cbv zeta. split.
  - intros Hj.
    assert (Hrun : forall b : board,
               env b = env s -> serial_polls b = serial_polls s ->
               runs (Neopixel.setup fuel) b
                    (neopixel_setup_events
                       (leading_down (serial_feed (env s)) (serial_polls s)
                                     fuel)) tt).
    { intros b He Hp. unfold Neopixel.setup, neopixel_setup_events.
      eapply runs_bind; [apply runs_emit |].
      eapply runs_bind.
      { pose proof (wait_Serial_runs fuel (replay b [E_Serial_begin 115200]))
          as H.
        change (env (replay b [E_Serial_begin 115200])) with (env b) in H.
        change (serial_polls (replay b [E_Serial_begin 115200]))
          with (serial_polls b) in H.
        rewrite He, Hp in H. apply H. exact Hj. }
      do 7 (eapply (runs_bind _ _ _ [_]); [apply runs_emit |]).
      apply runs_emit. }
    rewrite (runs_emitted_by (Neopixel.setup fuel) s
               (neopixel_setup_events _) tt
               (Hrun (quiet s) eq_refl eq_refl)).
    exists (replay s (neopixel_setup_events
                        (leading_down (serial_feed (env s)) (serial_polls s)
                                      fuel))).
    split; [apply (runs_exec _ _ _ tt), Hrun; reflexivity |].
    split; [reflexivity |].
    split.
    { unfold neopixel_setup_events.
      rewrite !total_delay_app, total_delay_serial. simpl total_delay. lia. }
    unfold neopixel_setup_events. rewrite !replay_app.
    assert (Hs : forall (j : nat) (b : board),
               serial_out (replay b (serial_events j)) = serial_out b).
    { intros j b. rewrite serial_out_replay.
      assert (Hn : printed (serial_events j) = [])
        by (induction j as [| j' IH]; [reflexivity | simpl; exact IH]).
      rewrite Hn. reflexivity. }
    split.
    { rewrite serial_out_replay. simpl printed. cbn [rev app].
      rewrite Hs. reflexivity. }
    match goal with
    | |- context [replay ?b (_ :: _)] => generalize b
    end.
    intros b. repeat split; vm_compute; reflexivity.
  - intros Hnever. unfold Neopixel.setup.
    unfold bind at 1. unfold call at 1. unfold bind at 1.
    change Neopixel.wait_Serial with Wristband.wait_Serial.
    rewrite wait_Serial_never; [reflexivity |].
    exact Hnever.
Qed.

Lemma X19_neopixel_setup_waits_for_console_witness :
  (leading_down (serial_feed (env (power_on (console_at 4))))
                (serial_polls (power_on (console_at 4))) 10 < 10)%nat
  /\ (exists s' : board,
         exec (Neopixel.setup 10) (power_on (console_at 4)) = Some s'
         /\ total_delay (emitted_by (Neopixel.setup 10)
                                    (power_on (console_at 4))) = 1040
         /\ pixel_shown s' = red)
  /\ (forall i : nat,
         serial_feed (env (power_on deaf_console))
                     (serial_polls (power_on deaf_console) + i)%nat = false)
  /\ Neopixel.setup 1000 (power_on deaf_console) = None.
Proof.
  assert (Hj : (leading_down (serial_feed (env (power_on (console_at 4))))
                             (serial_polls (power_on (console_at 4))) 10
                < 10)%nat) by (vm_compute; lia).
  assert (Hn : forall i : nat,
             serial_feed (env (power_on deaf_console))
                         (serial_polls (power_on deaf_console) + i)%nat
             = false) by reflexivity.
  split; [exact Hj |].
  destruct (proj1 (X19_neopixel_setup_waits_for_console
                     10 (power_on (console_at 4))) Hj)
    as (s' & Hx & _ & Ht & _ & _ & _ & Hs).
  split; [exists s'; split; [exact Hx |]; split; [| exact Hs] |].
  - rewrite Ht. reflexivity.
  - split; [exact Hn |].
    apply (proj2 (X19_neopixel_setup_waits_for_console
                    1000 (power_on deaf_console)) Hn).
Defined.

End CycleProps.
